(** * Gmail agent caches: a shallow embedding of [gmailAgent.ts] and [gmail-auth.ts]

    The module-level caches of [src/mastra/agents/gmailAgent.ts] are four JS
    [Map]s.  The functions that read and write them are embedded as programs
    of a state-and-exception monad.  Everything the program does not define
    itself (the clock, the UUID generator, the Composio SDK, the MCP client)
    is an oracle over an abstract world, and the URL parser an oracle on
    strings, so every theorem holds for every behaviour of these
    collaborators.  Calls to the collaborators and to
    [console.error] are recorded in a trace; [console.log] is not modelled.
    An awaited call is run from its call to its completion: what other
    requests might do to the maps while it awaits is outside the model.  A
    call that nobody awaits - the two [cleanupMCPClient] calls of
    [clearGmailAgentCache] - is run up to its first [await] and then kept as
    a suspended call, whose rest runs whenever its promise settles. *)

From Stdlib Require Import ZArith List.
From stdpp Require Import gmap strings list fin_maps pretty.

Local Open Scope string_scope.
Local Open Scope list_scope.
Local Open Scope Z_scope.

(** ** JavaScript values *)

(** A thrown value, as it appears when interpolated into a template string. *)
Definition Error := string.

(** How a call ends: with a value, or with a thrown error. *)
Inductive Completion (A : Type) : Type :=
| Normal (a : A)
| Throw (e : Error).
Arguments Normal {A} a.
Arguments Throw {A} e.

(** Truthiness of a string: only the empty string is falsy. *)
Definition truthy (s : string) : bool := bool_decide (s ≠ "").

(** [v || d] for [v : string | undefined | null]. *)
Definition js_or (v : option string) (d : string) : string :=
  match v with
  | Some s => if truthy s then s else d
  | None => d
  end.

(** [v || null]. *)
Definition js_or_null (v : option string) : option string :=
  match v with
  | Some s => if truthy s then Some s else None
  | None => None
  end.

(** Truthiness of [v : string | undefined | null]. *)
Definition truthy_opt (v : option string) : bool :=
  match v with
  | Some s => truthy s
  | None => false
  end.

(** ** Data *)

(** An item of [composio.connectedAccounts.list(...).items]. *)
Record Connection : Type := {
  conn_id : string;
  conn_toolkit_slug : string;
  conn_status : string
}.

(** The argument of [composio.connectedAccounts.list]. *)
Record ListQuery : Type := {
  userIds : list string;
  authConfigIds : option (list string)
}.

(** What [toolkits.authorize] and [connectedAccounts.initiate] resolve to. *)
Record ConnectionRequest : Type := {
  redirectUrl : string;
  req_id : string
}.

(** The options handed to [new MCPClient]; the client has no other state
    the program reads. *)
Record MCPClient : Type := {
  client_id : string;
  client_url : string
}.

(** A tool set: tool name to (opaque) tool definition. *)
Abbreviation Tools := (gmap string string).

(** The values of [authStatusCache]. *)
Record AuthStatus : Type := {
  connected : bool;
  connectionId : option string;
  timestamp : Z
}.

#[global] Instance Connection_eq_dec : EqDecision Connection.
Proof. solve_decision. Defined.
#[global] Instance MCPClient_eq_dec : EqDecision MCPClient.
Proof. solve_decision. Defined.
#[global] Instance AuthStatus_eq_dec : EqDecision AuthStatus.
Proof. solve_decision. Defined.

(** Calls that leave the process, in the order they were made. *)
Inductive Event : Type :=
| EvListAccounts (q : ListQuery)
| EvAuthorize (userId toolkit : string)
| EvInitiate (userId authConfigId : string)
| EvNewClient (c : MCPClient)
| EvGetTools (c : MCPClient)
| EvDisconnect (c : MCPClient)
| EvConsoleError (label : string) (e : Error).

(** ** The insertion-ordered [Map] behind [mcpClientCache]

    [cleanupGmailAgent] iterates over this map, so its order is kept: an
    association list in insertion order, one pair per key. *)
Module JSMap.
Section JSMap.
Context {V : Type}.
Implicit Types (m : list (string * V)) (k : string) (v : V).

Fixpoint get k m : option V :=
  match m with
  | [] => None
  | (k', v') :: r => if decide (k = k') then Some v' else get k r
  end.

(** [set] on a present key overwrites in place, otherwise appends. *)
Fixpoint set k v m : list (string * V) :=
  match m with
  | [] => [(k, v)]
  | (k', v') :: r =>
      if decide (k = k') then (k, v) :: r else (k', v') :: set k v r
  end.

(** [delete] leaves no pair under the key. *)
Fixpoint delete k m : list (string * V) :=
  match m with
  | [] => []
  | (k', v') :: r =>
      if decide (k = k') then delete k r else (k', v') :: delete k r
  end.

Definition keys m : list string := m.*1.

Definition values m : list V := m.*2.

(** A [Map] holds each key once. *)
Definition wf m : Prop := NoDup (keys m).
End JSMap.
End JSMap.

(** ** The world outside the process *)

Record Env (W : Type) : Type := {
  Date_now : W → Z * W;
  uuidv4 : W → string * W;
  connectedAccounts_list : ListQuery → W → Completion (list Connection) * W;
  connectedAccounts_initiate :
    string → string → W → Completion ConnectionRequest * W;
  toolkits_authorize : string → string → W → Completion ConnectionRequest * W;
  MCPClient_getTools : MCPClient → W → Completion Tools * W;
  MCPClient_disconnect : MCPClient → W → Completion unit * W;
  (** The [TypeError] of [new URL(url)], for a string the URL parser fails
      on. *)
  URL_rejects : string → option Error
}.
Arguments Date_now {W} _ _.
Arguments uuidv4 {W} _ _.
Arguments connectedAccounts_list {W} _ _ _.
Arguments connectedAccounts_initiate {W} _ _ _ _.
Arguments toolkits_authorize {W} _ _ _ _.
Arguments MCPClient_getTools {W} _ _ _.
Arguments MCPClient_disconnect {W} _ _ _.
Arguments URL_rejects {W} _ _.

(** ** Program state: the module-level [Map]s, the world and the trace *)

Record State (W : Type) : Type := mkState {
  mcpClientCache : list (string * MCPClient);
  toolsCache : gmap string Tools;
  authStatusCache : gmap string AuthStatus;
  userSessionCache : gmap string string;
  world : W;
  trace : list Event
}.
Arguments mkState {W} _ _ _ _ _ _.
Arguments mcpClientCache {W} _.
Arguments toolsCache {W} _.
Arguments authStatusCache {W} _.
Arguments userSessionCache {W} _.
Arguments world {W} _.
Arguments trace {W} _.

Definition set_mcpClientCache {W} (f : list (string * MCPClient) → list (string * MCPClient))
    (s : State W) : State W :=
  mkState (f (mcpClientCache s)) (toolsCache s) (authStatusCache s)
          (userSessionCache s) (world s) (trace s).

Definition set_toolsCache {W} (f : gmap string Tools → gmap string Tools)
    (s : State W) : State W :=
  mkState (mcpClientCache s) (f (toolsCache s)) (authStatusCache s)
          (userSessionCache s) (world s) (trace s).

Definition set_authStatusCache {W}
    (f : gmap string AuthStatus → gmap string AuthStatus)
    (s : State W) : State W :=
  mkState (mcpClientCache s) (toolsCache s) (f (authStatusCache s))
          (userSessionCache s) (world s) (trace s).

Definition set_userSessionCache {W} (f : gmap string string → gmap string string)
    (s : State W) : State W :=
  mkState (mcpClientCache s) (toolsCache s) (authStatusCache s)
          (f (userSessionCache s)) (world s) (trace s).

(** ** The monad of the program: state, plus JS exceptions *)

Definition M (W A : Type) : Type := State W → Completion A * State W.

#[global] Instance M_ret {W} : MRet (M W) := λ A a s, (Normal a, s).

#[global] Instance M_bind {W} : MBind (M W) := λ A B f m s,
  match m s with
  | (Normal a, s') => f a s'
  | (Throw e, s') => (Throw e, s')
  end.

(** [try { body } catch (error) { handler }]. *)
Definition try_catch {W A} (body : M W A) (handler : Error → M W A) : M W A :=
  λ s,
    match body s with
    | (Normal a, s') => (Normal a, s')
    | (Throw e, s') => handler e s'
    end.

(** [throw e]. *)
Definition throw {W A} (e : Error) : M W A := λ s, (Throw e, s).

(** A call of an [async] function that is not awaited: the call is made, and
    what its promise settles to is a value in the caller's hands. *)
Definition promise {W A} (m : M W A) : M W (Completion A) :=
  λ s, let '(r, s') := m s in (Normal r, s').

Definition gets {W A} (f : State W → A) : M W A := λ s, (Normal (f s), s).

Definition modify {W} (f : State W → State W) : M W unit :=
  λ s, (Normal tt, f s).

(** [for (const x of xs) { await body(x) }]. *)
Fixpoint for_of {W A} (xs : list A) (body : A → M W unit) : M W unit :=
  match xs with
  | [] => mret tt
  | x :: r => body x;; for_of r body
  end.

(** An external call: let the world answer, and record the call. *)
Definition extern {W A} (ev : option Event) (call : W → A * W) : M W A :=
  λ s,
    let '(r, w') := call (world s) in
    (Normal r,
     mkState (mcpClientCache s) (toolsCache s) (authStatusCache s)
             (userSessionCache s) w'
             (trace s ++ match ev with Some e => [e] | None => [] end)).

(** The same for a call that may throw. *)
Definition extern_throws {W A} (ev : Event) (call : W → Completion A * W)
    : M W A :=
  λ s,
    let '(r, w') := call (world s) in
    (r,
     mkState (mcpClientCache s) (toolsCache s) (authStatusCache s)
             (userSessionCache s) w' (trace s ++ [ev])).

Definition console_error {W} (label : string) (e : Error) : M W unit :=
  modify (λ s,
    mkState (mcpClientCache s) (toolsCache s) (authStatusCache s)
            (userSessionCache s) (world s)
            (trace s ++ [EvConsoleError label e])).

(** ** Reading the trace *)

(** The clients whose [disconnect] was called, in call order. *)
Definition disconnected (t : list Event) : list MCPClient :=
  omap (λ ev, match ev with EvDisconnect c => Some c | _ => None end) t.

(** The users whose auth status was asked of the provider, in call order. *)
Definition auth_fetches (t : list Event) : list ListQuery :=
  omap (λ ev, match ev with EvListAccounts q => Some q | _ => None end) t.

(** The clients whose tool list was asked of the MCP server, in call order. *)
Definition tool_fetches (t : list Event) : list MCPClient :=
  omap (λ ev, match ev with EvGetTools c => Some c | _ => None end) t.

(** Unfold one layer of the monad. *)
Ltac run :=
  unfold mbind, M_bind, mret, M_ret, try_catch, throw, promise, gets, modify,
    console_error, extern, extern_throws; simpl.

(** ** [gmailAgent.ts] *)

(** [const CACHE_TTL = 5 * 60 * 1000]. *)
Definition CACHE_TTL : Z := 5 * 60 * 1000.

(** [runtimeContext]: what its [get] answers for each name. *)
Abbreviation RuntimeContext := (gmap string string).

(** What the [authorize_gmail] tool answers. *)
Inductive AuthorizeResult : Type :=
| AuthorizeOk (authUrl connId message : string)
| AuthorizeFailed (error message : string).

(** An entry of the object the agent's [tools] function returns. *)
Inductive ToolEntry : Type :=
| AuthorizeTool (userId : string)
| McpTool (definition : string).

(** A [cleanupMCPClient(key)] call that was not awaited, suspended at
    [await client.disconnect()]: its key, and what the promise of
    [disconnect] settles to. *)
Record Suspended : Type := {
  sus_key : string;
  sus_outcome : Completion unit
}.

(** The scheme and host of the MCP server both agents talk to. *)
Definition mcp_origin : string := "https://mcp.composio.dev/".

Section Agent.
Context {W : Type} (env : Env W).

Definition date_now : M W Z := extern None (Date_now env).

Definition gen_uuid : M W string := extern None (uuidv4 env).

Definition list_accounts (q : ListQuery) : M W (list Connection) :=
  extern_throws (EvListAccounts q) (connectedAccounts_list env q).

Definition authorize (userId toolkit : string) : M W ConnectionRequest :=
  extern_throws (EvAuthorize userId toolkit)
                (toolkits_authorize env userId toolkit).

(** Whether [new URL(url)] throws.  The URL parser is not part of the
    program, so its verdict on a string is the environment's; one fact about
    it is used: a string that starts with [https://mcp.composio.dev/] has a
    scheme and a host, and past the host (in a path, a query or a fragment)
    the parser has no failure exit. *)
Definition URL_error (url : string) : option Error :=
  if String.prefix mcp_origin url then None else URL_rejects env url.

(** [new URL(url)]; the URL object is named by the string it was built
    from. *)
Definition new_URL (url : string) : M W string :=
  match URL_error url with
  | Some e => throw e
  | None => mret url
  end.

Definition new_MCPClient (id url : string) : M W MCPClient :=
  let c := {| client_id := id; client_url := url |} in
  extern (Some (EvNewClient c)) (λ w, (c, w)).

Definition getTools (c : MCPClient) : M W Tools :=
  extern_throws (EvGetTools c) (MCPClient_getTools env c).

Definition disconnect (c : MCPClient) : M W unit :=
  extern_throws (EvDisconnect c) (MCPClient_disconnect env c).

(** [getUserId(runtimeContext)]. *)
Definition getUserId (runtimeContext : option RuntimeContext) : M W string :=
  let contextUserId := runtimeContext ≫= (.!! "userId") in
  if truthy_opt contextUserId then mret (default "" contextUserId)
  else
    let sessionId :=
      js_or (runtimeContext ≫= (.!! "sessionId")) "default-session" in
    existing ← gets (λ s, userSessionCache s !! sessionId);
    match existing with
    | Some existingUserId => mret existingUserId
    | None =>
        generatedUserId ← gen_uuid;
        modify (set_userSessionCache <[sessionId := generatedUserId]>);;
        mret generatedUserId
    end.

(** [cleanupMCPClient(key)]. *)
Definition cleanupMCPClient (key : string) : M W unit :=
  client ← gets (λ s, JSMap.get key (mcpClientCache s));
  match client with
  | Some c =>
      try_catch (disconnect c)
                (λ error, console_error "Error disconnecting MCP client:" error);;
      modify (set_mcpClientCache (JSMap.delete key))
  | None => mret tt
  end;;
  modify (set_toolsCache (delete key)).

(** [cleanupMCPClient(key)] from its call to its first [await], which is as
    far as a call that is not awaited gets before its caller goes on.  With
    no client under the key there is no [await] and the call runs to its
    end; with a client, [disconnect] has been called and the call is
    suspended on its promise. *)
Definition cleanupMCPClient_start (key : string) : M W (option Suspended) :=
  client ← gets (λ s, JSMap.get key (mcpClientCache s));
  match client with
  | Some c =>
      outcome ← promise (disconnect c);
      mret (Some {| sus_key := key; sus_outcome := outcome |})
  | None =>
      modify (set_toolsCache (delete key));;
      mret None
  end.

(** The rest of a suspended [cleanupMCPClient], run when the promise of
    [disconnect] has settled: the [catch] if it was rejected, then the two
    [delete]s. *)
Definition cleanupMCPClient_resume (j : Suspended) : M W unit :=
  match sus_outcome j with
  | Normal _ => mret tt
  | Throw error => console_error "Error disconnecting MCP client:" error
  end;;
  modify (set_mcpClientCache (JSMap.delete (sus_key j)));;
  modify (set_toolsCache (delete (sus_key j))).

(** [isCacheValid(timestamp)]. *)
Definition isCacheValid (timestamp : Z) : M W bool :=
  now ← date_now;
  mret (bool_decide (now - timestamp < CACHE_TTL)).

(** The predicate of [find] in the two connection checks. *)
Definition is_active_gmail (conn : Connection) : bool :=
  bool_decide (conn_toolkit_slug conn = "gmail")
  && bool_decide (conn_status conn = "ACTIVE").

(** [getCachedAuthStatus(userId)]. *)
Definition getCachedAuthStatus (userId : string) : M W AuthStatus :=
  let cacheKey := "auth-" +:+ userId in
  cached ← gets (λ s, authStatusCache s !! cacheKey);
  valid ← match cached with
          | Some c => isCacheValid (timestamp c)
          | None => mret false
          end;
  match cached, valid with
  | Some c, true => mret c
  | _, _ =>
      try_catch
        (connections ← list_accounts
           {| userIds := [userId]; authConfigIds := None |};
         let gmailConnection := List.find is_active_gmail connections in
         now ← date_now;
         let authStatus :=
           {| connected := bool_decide (is_Some gmailConnection);
              connectionId := js_or_null (conn_id <$> gmailConnection);
              timestamp := now |} in
         modify (set_authStatusCache <[cacheKey := authStatus]>);;
         mret authStatus)
        (λ error,
         console_error "Error checking auth status:" error;;
         now ← date_now;
         let authStatus :=
           {| connected := false; connectionId := None; timestamp := now |} in
         modify (set_authStatusCache <[cacheKey := authStatus]>);;
         mret authStatus)
  end.

(** [getCachedTools(cacheKey, url, userId)].  The client is built outside
    the [try]: the options object is evaluated first ([Date.now()], then
    [new URL(url)], which may throw), then the constructor runs. *)
Definition getCachedTools (cacheKey url userId : string) : M W Tools :=
  hit ← gets (λ s, toolsCache s !! cacheKey);
  match hit with
  | Some tools => mret tools
  | None =>
      existing ← gets (λ s, JSMap.get cacheKey (mcpClientCache s));
      mcpClient ←
        match existing with
        | Some c => mret c
        | None =>
            now ← date_now;
            parsed ← new_URL url;
            c ← new_MCPClient ("gmail-mcp-" +:+ userId +:+ "-" +:+ pretty now)
                              parsed;
            modify (set_mcpClientCache (JSMap.set cacheKey c));;
            mret c
        end;
      try_catch
        (tools ← getTools mcpClient;
         modify (set_toolsCache <[cacheKey := tools]>);;
         mret tools)
        (λ error,
         console_error "Failed to load tools from MCP server:" error;;
         cleanupMCPClient cacheKey;;
         mret ∅)
  end.

(** [execute] of the [authorize_gmail] tool, for the [userId] it closes over. *)
Definition authorizeTool_execute (userId : string) : M W AuthorizeResult :=
  try_catch
    (connectionRequest ← authorize userId "gmail";
     modify (set_authStatusCache (delete ("auth-" +:+ userId)));;
     mret (AuthorizeOk (redirectUrl connectionRequest)
                       (req_id connectionRequest)
                       ("Please click this link to authorize Gmail access: "
                        +:+ redirectUrl connectionRequest)))
    (λ error,
     console_error "Error during Gmail authorization:" error;;
     mret (AuthorizeFailed
             ("Failed to initiate Gmail authorization: " +:+ error)
             "Please try again or check your Composio configuration.")).

(** The cache key the [tools] function derives from the auth state. *)
Definition toolsCacheKey (userId : string) (authStatus : AuthStatus) : string :=
  "gmail-" +:+ userId +:+ "-" +:+ js_or (connectionId authStatus) "unauth".

Definition mcp_base_url : string :=
  "https://mcp.composio.dev/composio/server/524a8d53-e118-46f8-abf0-f077f281469e/mcp".

Definition mcpUrl (authStatus : AuthStatus) : string :=
  if truthy_opt (connectionId authStatus)
  then mcp_base_url +:+ "?connected_account_id="
       +:+ default "" (connectionId authStatus)
  else mcp_base_url.

(** The [tools] function of [gmailMcpAgent]. *)
Definition agent_tools (runtimeContext : option RuntimeContext)
    : M W (gmap string ToolEntry) :=
  userId ← getUserId runtimeContext;
  authStatus ← getCachedAuthStatus userId;
  let cacheKey := toolsCacheKey userId authStatus in
  let url := mcpUrl authStatus in
  allTools ← getCachedTools cacheKey url userId;
  mret ((McpTool <$> allTools) ∪ {["authorize_gmail" := AuthorizeTool userId]}).

(** [cleanupGmailAgent()].  The loop body deletes only the key it is
    visiting, so the live iterator of [mcpClientCache.keys()] visits the keys
    present when the loop starts, in insertion order. *)
Definition cleanupGmailAgent : M W unit :=
  keys ← gets (λ s, JSMap.keys (mcpClientCache s));
  for_of keys cleanupMCPClient;;
  modify (set_toolsCache (λ _, ∅));;
  modify (set_authStatusCache (λ _, ∅));;
  modify (set_userSessionCache (λ _, ∅)).

(** [clearGmailAgentCache(userId)].  The function is not [async] and does
    not await the two [cleanupMCPClient] calls: each runs to its first
    [await], the second one before the first one's rest.  The function
    itself returns nothing; the embedding returns the calls it leaves
    suspended, so that statements can speak of them. *)
Definition clearGmailAgentCache (userId : string) : M W (list Suspended) :=
  modify (set_authStatusCache (delete ("auth-" +:+ userId)));;
  let authKey := "gmail-" +:+ userId +:+ "-unauth" in
  let unauthKey := "gmail-" +:+ userId +:+ "-null" in
  first ← cleanupMCPClient_start authKey;
  second ← cleanupMCPClient_start unauthKey;
  mret (option_list first ++ option_list second).

(** [clearUserSession(sessionId?)]. *)
Definition clearUserSession (sessionId : option string) : M W unit :=
  if truthy_opt sessionId
  then modify (set_userSessionCache (delete (default "" sessionId)))
  else modify (set_userSessionCache (λ _, ∅)).

End Agent.

(** ** Vocabulary for the statements about the two lookups *)

Section Vocabulary.
Context {W : Type} (env : Env W).

(** The same state in another world. *)
Definition with_world (w : W) (s : State W) : State W :=
  mkState (mcpClientCache s) (toolsCache s) (authStatusCache s)
          (userSessionCache s) w (trace s).

(** No usable auth entry for the user: none at all, or one whose age, at
    the clock reading [getCachedAuthStatus] takes, has reached the TTL. *)
Definition auth_stale (userId : string) (s : State W) : Prop :=
  match authStatusCache s !! ("auth-" +:+ userId) with
  | Some c => CACHE_TTL ≤ (Date_now env (world s)).1 - timestamp c
  | None => True
  end.

(** The world once [getCachedAuthStatus] has looked at the cache: the clock
    is read only when there is an entry. *)
Definition world_after_check (userId : string) (s : State W) : W :=
  match authStatusCache s !! ("auth-" +:+ userId) with
  | Some _ => (Date_now env (world s)).2
  | None => world s
  end.

(** The entry [getCachedAuthStatus] builds from the provider's answer [r]
    at time [now]. *)
Definition fetched_auth (r : Completion (list Connection)) (now : Z)
    : AuthStatus :=
  match r with
  | Normal connections =>
      let gmailConnection := List.find is_active_gmail connections in
      {| connected := bool_decide (is_Some gmailConnection);
         connectionId := js_or_null (conn_id <$> gmailConnection);
         timestamp := now |}
  | Throw _ => {| connected := false; connectionId := None; timestamp := now |}
  end.

(** The client [getCachedTools] talks to on a tool-cache miss, and the state
    once it has it: the cached client, or - when [new URL] accepts the URL -
    a new one put into the map. *)
Definition obtain_client (cacheKey url userId : string) (s : State W)
    : MCPClient * State W :=
  match JSMap.get cacheKey (mcpClientCache s) with
  | Some c => (c, s)
  | None =>
      let '(now, w0) := Date_now env (world s) in
      let c := {| client_id := "gmail-mcp-" +:+ userId +:+ "-" +:+ pretty now;
                  client_url := url |} in
      (c, mkState (JSMap.set cacheKey c (mcpClientCache s)) (toolsCache s)
                  (authStatusCache s) (userSessionCache s) w0
                  (trace s ++ [EvNewClient c]))
  end.

(** [getCachedTools] gets past [new URL(url)]: the constructor is reached
    only on a key with neither tools nor client, and there it has to accept
    the URL. *)
Definition url_passes (cacheKey url : string) (s : State W) : Prop :=
  toolsCache s !! cacheKey = None →
  JSMap.get cacheKey (mcpClientCache s) = None →
  URL_error env url = None.

End Vocabulary.

(** The errors logged by the [catch] of [getCachedTools]. *)
Definition tool_fetch_errors (t : list Event) : list Error :=
  omap (λ ev, match ev with
              | EvConsoleError label e =>
                  if decide (label = "Failed to load tools from MCP server:")
                  then Some e else None
              | _ => None
              end) t.

(** ** [gmail-auth.ts] *)

Module GmailAuth.

(** [const GMAIL_AUTH_CONFIG_ID]. *)
Definition GMAIL_AUTH_CONFIG_ID : string := "ac_u_MdLEvtemfj".

(** The object [checkConnection] resolves to; a field the object literal
    leaves out is [None]. *)
Record ConnectionStatus : Type := {
  cs_connected : bool;
  cs_connectionId : option string;
  cs_message : option string;
  cs_error : option string
}.

(** The object [initiateConnection] resolves to. *)
Record InitiateResult : Type := {
  ir_success : bool;
  ir_redirectUrl : option string;
  ir_connectionId : option string;
  ir_message : option string;
  ir_error : option string
}.

Section Methods.
Context {W : Type} (env : Env W).
(** [this.userId]. *)
Context (userId : string).

Definition initiate (authConfigId : string) : M W ConnectionRequest :=
  extern_throws (EvInitiate userId authConfigId)
                (connectedAccounts_initiate env userId authConfigId).

(** [checkConnection()]. *)
Definition checkConnection : M W ConnectionStatus :=
  try_catch
    (connections ← list_accounts env
       {| userIds := [userId];
          authConfigIds := Some [GMAIL_AUTH_CONFIG_ID] |};
     let gmailConnection := List.find is_active_gmail connections in
     mret {| cs_connected := bool_decide (is_Some gmailConnection);
             cs_connectionId := conn_id <$> gmailConnection;
             cs_message :=
               Some (match gmailConnection with
                     | Some _ => "Gmail is connected and ready to use."
                     | None =>
                         "Gmail is not connected. Use initiateConnection to connect."
                     end);
             cs_error := None |})
    (λ error,
     console_error "[GmailAuth] Error checking connection:" error;;
     mret {| cs_connected := false;
             cs_connectionId := None;
             cs_message := None;
             cs_error := Some ("Failed to check Gmail connection: " +:+ error) |}).

(** [initiateConnection()]. *)
Definition initiateConnection : M W InitiateResult :=
  try_catch
    (connection ← initiate GMAIL_AUTH_CONFIG_ID;
     mret {| ir_success := true;
             ir_redirectUrl := Some (redirectUrl connection);
             ir_connectionId := Some (req_id connection);
             ir_message :=
               Some ("Please click this link to connect your Gmail account: "
                     +:+ redirectUrl connection);
             ir_error := None |})
    (λ error,
     console_error "[GmailAuth] Error initiating connection:" error;;
     mret {| ir_success := false;
             ir_redirectUrl := None;
             ir_connectionId := None;
             ir_message := None;
             ir_error :=
               Some ("Failed to initiate Gmail connection: " +:+ error) |}).

(** [getConnectedAccountId()]. *)
Definition getConnectedAccountId : M W (option string) :=
  connectionStatus ← checkConnection;
  if cs_connected connectionStatus
     && truthy_opt (cs_connectionId connectionStatus)
  then mret (cs_connectionId connectionStatus)
  else mret None.

End Methods.
End GmailAuth.

(** ** A scripted world, for running the program on concrete inputs *)

Module Script.

Record World : Type := mkWorld {
  clock : Z;
  uuid_counter : nat;
  provider_down : bool;
  accounts : list Connection;
  mcp_down : bool;
  disconnect_fails : bool;
  served_tools : Tools
}.

Definition answer {A} (down : bool) (msg : Error) (a : A) (w : World)
    : Completion A * World :=
  (if down then Throw msg else Normal a, w).

Definition env : Env World := {|
  Date_now w := (clock w, w);
  uuidv4 w :=
    ("uuid-" +:+ pretty (uuid_counter w),
     mkWorld (clock w) (S (uuid_counter w)) (provider_down w) (accounts w)
             (mcp_down w) (disconnect_fails w) (served_tools w));
  connectedAccounts_list q w :=
    answer (provider_down w) "Error: provider unavailable" (accounts w) w;
  connectedAccounts_initiate u a w :=
    answer (provider_down w) "Error: provider unavailable"
           {| redirectUrl := "https://connect.example/" +:+ u;
              req_id := "req-" +:+ u |} w;
  toolkits_authorize u t w :=
    answer (provider_down w) "Error: provider unavailable"
           {| redirectUrl := "https://connect.example/" +:+ u;
              req_id := "req-" +:+ u |} w;
  MCPClient_getTools c w :=
    answer (mcp_down w) "Error: MCP server unreachable" (served_tools w) w;
  MCPClient_disconnect c w :=
    answer (disconnect_fails w) "Error: socket already closed" tt w;
  URL_rejects url :=
    if String.prefix "https://" url || String.prefix "http://" url
    then None else Some "TypeError: Invalid URL"
|}.

(** The process right after start-up: all four maps empty. *)
Definition boot (w : World) : State World := mkState [] ∅ ∅ ∅ w [].

(** Let the clock move to [t] while the process is idle. *)
Definition at_time (t : Z) (s : State World) : State World :=
  let w := world s in
  mkState (mcpClientCache s) (toolsCache s) (authStatusCache s)
          (userSessionCache s)
          (mkWorld t (uuid_counter w) (provider_down w) (accounts w)
                   (mcp_down w) (disconnect_fails w) (served_tools w))
          (trace s).

Definition gmail_tools : Tools :=
  {[ "GMAIL_FETCH_EMAILS" := "fetch"; "GMAIL_SEND_EMAIL" := "send" ]}.

(** Nobody has connected Gmail yet; every collaborator answers. *)
Definition healthy : World := mkWorld 0 0 false [] false false gmail_tools.

(** The provider rejects every query. *)
Definition provider_failing : World :=
  mkWorld 0 0 true [] false false gmail_tools.

(** The MCP server cannot be reached. *)
Definition mcp_failing : World := mkWorld 0 0 false [] true false gmail_tools.

(** User [u1] has an active Gmail connection [ca_1]. *)
Definition u1_connected : World :=
  mkWorld 0 0 false
          [{| conn_id := "ca_1"; conn_toolkit_slug := "gmail";
              conn_status := "ACTIVE" |}]
          false false gmail_tools.

(** Closing a client connection throws. *)
Definition closing_fails : World :=
  mkWorld 0 0 false [] false true gmail_tools.

(** The tool-cache key of user [u1] while not connected. *)
Definition u1_unauth_key : string := "gmail-u1-unauth".

(** The provider query [getCachedAuthStatus] makes for a user. *)
Definition auth_query (userId : string) : ListQuery :=
  {| userIds := [userId]; authConfigIds := None |}.

(** The state after a run, whatever the completion. *)
Definition after {A} (m : M World A) (s : State World) : State World := (m s).2.

End Script.

(** ** The rest of the agent: [instructions], and the module as a whole *)

(** The prompt for a connected user, around the interpolated account id. *)
Definition instructions_connected (accountId : string) : string :=
  "You are a Gmail assistant with full access to authenticated Gmail tools.

✅ Gmail is connected and authenticated! (Account ID: " +:+ accountId +:+ ")

You have full access to Gmail operations:
- Read emails from inbox
- Send emails  
- Search emails
- Manage email labels
- And many other Gmail operations

All tools are ready to use and will work with the user's authenticated Gmail account.".

(** The prompt for a user who has not connected Gmail. *)
Definition instructions_unauthenticated : string :=
  "You are a Gmail assistant with access to Gmail tools, but authentication is required.

✅ Gmail tools are available but NOT YET AUTHENTICATED. 

Available tools include Gmail operations like:
- Reading emails
- Sending emails  
- Searching emails
- Managing labels
- And many other operations

However, to actually USE these Gmail tools, the user needs to authenticate first:
1. Use the 'authorize_gmail' tool to get the authorization URL
2. Ask the user to click the URL and complete Gmail authentication
3. After authentication, all Gmail tools will work with their Gmail data

The tools are loaded and ready - they just need Gmail authentication to access user data.".

(** The module while the program runs: its state, and the
    [cleanupMCPClient] calls that have been left suspended. *)
Record Process (W : Type) : Type := mkProcess {
  proc_state : State W;
  proc_suspended : list Suspended
}.
Arguments mkProcess {W} _ _.
Arguments proc_state {W} _.
Arguments proc_suspended {W} _.

Section AgentModule.
Context {W : Type} (env : Env W).

(** The [instructions] function of [gmailMcpAgent].  A [null] connection id
    is interpolated as the text [null]. *)
Definition agent_instructions (runtimeContext : option RuntimeContext)
    : M W string :=
  userId ← getUserId env runtimeContext;
  authStatus ← getCachedAuthStatus env userId;
  if connected authStatus
  then mret (instructions_connected (default "null" (connectionId authStatus)))
  else mret instructions_unauthenticated.

(** What the rest of the program can ask of the module: the two functions
    of the agent, the [authorize_gmail] tool the agent hands out, and the
    three exported helpers.  [Settle n] is the event loop resuming the
    [n]-th suspended call, its [disconnect] promise having settled;
    [Outside w] is the world moving on while the process is idle. *)
Inductive Call : Type :=
| Instructions (runtimeContext : option RuntimeContext)
| GetTools (runtimeContext : option RuntimeContext)
| Authorize (userId : string)
| CleanupGmailAgent
| ClearGmailAgentCache (userId : string)
| ClearUserSession (sessionId : option string)
| Settle (n : nat)
| Outside (w : W).

(** The state a call leaves behind.  [clearGmailAgentCache] adds the calls
    it did not await to the suspended ones; a suspended call that never
    settles stays there. *)
Definition step (p : Process W) (c : Call) : Process W :=
  let s := proc_state p in
  let keep s' := mkProcess s' (proc_suspended p) in
  match c with
  | Instructions ctx => keep (agent_instructions ctx s).2
  | GetTools ctx => keep (agent_tools env ctx s).2
  | Authorize userId => keep (authorizeTool_execute env userId s).2
  | CleanupGmailAgent => keep (cleanupGmailAgent env s).2
  | ClearGmailAgentCache userId =>
      let '(r, s') := clearGmailAgentCache env userId s in
      mkProcess s' (proc_suspended p ++
                      match r with Normal js => js | Throw _ => [] end)
  | ClearUserSession sessionId => keep (clearUserSession sessionId s).2
  | Settle n =>
      match proc_suspended p !! n with
      | Some j =>
          mkProcess (cleanupMCPClient_resume j s).2
                    (delete n (proc_suspended p))
      | None => p
      end
  | Outside w => keep (with_world w s)
  end.

(** The module right after it is loaded: four empty maps, nothing
    suspended. *)
Definition loaded (w : W) : Process W := mkProcess (mkState [] ∅ ∅ ∅ w []) [].

(** The module after a sequence of calls since it was loaded.  The calls
    do not overlap, and a suspended call resumes between two of them. *)
Definition history (w : W) (calls : list Call) : Process W :=
  foldl step (loaded w) calls.

End AgentModule.

(** ** Invariants of the maps *)

(** An auth entry carries a connection id only when connected, and never
    an empty one. *)
Definition auth_consistent {W} (s : State W) : Prop :=
  ∀ k a i, authStatusCache s !! k = Some a → connectionId a = Some i →
           connected a = true ∧ i ≠ "".

(** A program keeps a property of the state, however it completes. *)
Definition preserves {W A} (I : State W → Prop) (m : M W A) : Prop :=
  ∀ s, I s → I (m s).2.

(** ** The agent built on [GmailAuth]

    The second half of [gmail-auth.ts] is an agent module of its own
    ([gmail-agent.ts] by its header): the same three caches, but the auth
    status comes from a [GmailAuth] instance, a request without user id
    belongs to the user [default], and there is no session map.  Its maps
    are its own; [rest] is the state of the rest of the program, where the
    world and the trace live. *)

Module GmailAuthAgent.

(** The values of this module's [authStatusCache]. *)
Record AuthEntry : Type := {
  connectedAccountId : option string;
  entry_timestamp : Z
}.

Record AgentState (W : Type) : Type := mkAgentState {
  mcpClientCache : list (string * MCPClient);
  toolsCache : gmap string Tools;
  authStatusCache : gmap string AuthEntry;
  rest : State W
}.
Arguments mkAgentState {W} _ _ _ _.
Arguments mcpClientCache {W} _.
Arguments toolsCache {W} _.
Arguments authStatusCache {W} _.
Arguments rest {W} _.

(** [const CACHE_TTL = 5 * 60 * 1000]. *)
Definition CACHE_TTL : Z := 5 * 60 * 1000.

Definition AM (W A : Type) : Type :=
  AgentState W → Completion A * AgentState W.

#[global] Instance AM_ret {W} : MRet (AM W) := λ A a s, (Normal a, s).

#[global] Instance AM_bind {W} : MBind (AM W) := λ A B f m s,
  match m s with
  | (Normal a, s') => f a s'
  | (Throw e, s') => (Throw e, s')
  end.

(** [try { body } catch (error) { handler }]. *)
Definition try_catch {W A} (body : AM W A) (handler : Error → AM W A)
    : AM W A :=
  λ s,
    match body s with
    | (Normal a, s') => (Normal a, s')
    | (Throw e, s') => handler e s'
    end.

Definition gets {W A} (f : AgentState W → A) : AM W A :=
  λ s, (Normal (f s), s).

Definition modify {W} (f : AgentState W → AgentState W) : AM W unit :=
  λ s, (Normal tt, f s).

(** A program of the rest of the program, run from this module. *)
Definition lift {W A} (m : M W A) : AM W A :=
  λ s,
    let '(r, p) := m (rest s) in
    (r, mkAgentState (mcpClientCache s) (toolsCache s) (authStatusCache s) p).

(** [for (const x of xs) { await body(x) }]. *)
Fixpoint for_of {W A} (xs : list A) (body : A → AM W unit) : AM W unit :=
  match xs with
  | [] => mret tt
  | x :: r => body x;; for_of r body
  end.

Definition set_mcpClientCache {W}
    (f : list (string * MCPClient) → list (string * MCPClient))
    (s : AgentState W) : AgentState W :=
  mkAgentState (f (mcpClientCache s)) (toolsCache s) (authStatusCache s)
               (rest s).

Definition set_toolsCache {W} (f : gmap string Tools → gmap string Tools)
    (s : AgentState W) : AgentState W :=
  mkAgentState (mcpClientCache s) (f (toolsCache s)) (authStatusCache s)
               (rest s).

Definition set_authStatusCache {W}
    (f : gmap string AuthEntry → gmap string AuthEntry)
    (s : AgentState W) : AgentState W :=
  mkAgentState (mcpClientCache s) (toolsCache s) (f (authStatusCache s))
               (rest s).

(** What the [initiate_gmail_oauth] tool answers. *)
Inductive OauthResult : Type :=
| OauthStarted (oauthUrl : option string) (message : string)
| OauthFailed (error message : string).

(** An entry of the object the agent's [tools] function returns. *)
Inductive ToolEntry : Type :=
| OauthTool (userId : string)
| McpTool (definition : string).

(** The prompt for a user who has not connected Gmail. *)
Definition instructions_unauthenticated : string :=
  "You are a Gmail assistant with access to Gmail tools, but authentication is required.

✅ Gmail tools are available but NOT YET AUTHENTICATED. 

Available tools include Gmail operations like:
- Reading emails
- Sending emails  
- Searching emails
- Managing labels
- And many other operations

However, to actually USE these Gmail tools, the user needs to authenticate first:
1. Use the 'initiate_gmail_oauth' tool to get the authorization URL
2. Ask the user to click the URL and complete Gmail authentication
3. After authentication, all Gmail tools will work with their Gmail data

The tools are loaded and ready - they just need Gmail authentication to access user data.".

Definition mcp_base_url : string :=
  "https://mcp.composio.dev/composio/server/45799b7f-fa65-474b-95ad-b66019896efe/mcp".

Section Agent.
Context {W : Type} (env : Env W).

(** [cleanupMCPClient(key)]. *)
Definition cleanupMCPClient (key : string) : AM W unit :=
  client ← gets (λ s, JSMap.get key (mcpClientCache s));
  match client with
  | Some c =>
      try_catch (lift (disconnect env c))
                (λ error,
                 lift (console_error "Error disconnecting MCP client:" error));;
      modify (set_mcpClientCache (JSMap.delete key))
  | None => mret tt
  end;;
  modify (set_toolsCache (delete key)).

(** [cleanupMCPClient(key)] from its call to its first [await]. *)
Definition cleanupMCPClient_start (key : string) : AM W (option Suspended) :=
  client ← gets (λ s, JSMap.get key (mcpClientCache s));
  match client with
  | Some c =>
      outcome ← lift (promise (disconnect env c));
      mret (Some {| sus_key := key; sus_outcome := outcome |})
  | None =>
      modify (set_toolsCache (delete key));;
      mret None
  end.

(** The rest of a suspended [cleanupMCPClient]. *)
Definition cleanupMCPClient_resume (j : Suspended) : AM W unit :=
  match sus_outcome j with
  | Normal _ => mret tt
  | Throw error =>
      lift (console_error "Error disconnecting MCP client:" error)
  end;;
  modify (set_mcpClientCache (JSMap.delete (sus_key j)));;
  modify (set_toolsCache (delete (sus_key j))).

(** [isCacheValid(timestamp)]. *)
Definition isCacheValid (timestamp : Z) : AM W bool :=
  now ← lift (date_now env);
  mret (bool_decide (now - timestamp < CACHE_TTL)).

(** [getCachedAuthStatus(userId, gmailAuth)]; the [GmailAuth] instance is
    given by the user id it was constructed with. *)
Definition getCachedAuthStatus (userId gmailAuth : string)
    : AM W (option string) :=
  let cacheKey := "auth-" +:+ userId in
  cached ← gets (λ s, authStatusCache s !! cacheKey);
  valid ← match cached with
          | Some c => isCacheValid (entry_timestamp c)
          | None => mret false
          end;
  match cached, valid with
  | Some c, true => mret (connectedAccountId c)
  | _, _ =>
      accountId ← lift (GmailAuth.getConnectedAccountId env gmailAuth);
      now ← lift (date_now env);
      modify (set_authStatusCache
                <[cacheKey := {| connectedAccountId := accountId;
                                 entry_timestamp := now |}]>);;
      mret accountId
  end.

(** [getCachedTools(cacheKey, url, userId)]. *)
Definition getCachedTools (cacheKey url userId : string) : AM W Tools :=
  hit ← gets (λ s, toolsCache s !! cacheKey);
  match hit with
  | Some tools => mret tools
  | None =>
      existing ← gets (λ s, JSMap.get cacheKey (mcpClientCache s));
      mcpClient ←
        match existing with
        | Some c => mret c
        | None =>
            now ← lift (date_now env);
            parsed ← lift (new_URL env url);
            c ← lift (new_MCPClient
                        ("gmail-mcp-" +:+ userId +:+ "-" +:+ pretty now)
                        parsed);
            modify (set_mcpClientCache (JSMap.set cacheKey c));;
            mret c
        end;
      try_catch
        (tools ← lift (getTools env mcpClient);
         modify (set_toolsCache <[cacheKey := tools]>);;
         mret tools)
        (λ error,
         lift (console_error "Failed to load tools from MCP server:" error);;
         cleanupMCPClient cacheKey;;
         mret ∅)
  end.

(** The user a request belongs to: [runtimeContext?.get('userId') || 'default']. *)
Definition requestUserId (runtimeContext : option RuntimeContext) : string :=
  js_or (runtimeContext ≫= (.!! "userId")) "default".

(** The [instructions] function of this agent. *)
Definition agent_instructions (runtimeContext : option RuntimeContext)
    : AM W string :=
  let userId := requestUserId runtimeContext in
  let gmailAuth := userId in
  accountId ← getCachedAuthStatus userId gmailAuth;
  if truthy_opt accountId
  then mret (instructions_connected (default "" accountId))
  else mret instructions_unauthenticated.

(** [execute] of the [initiate_gmail_oauth] tool, for the [userId] it closes
    over. *)
Definition oauthTool_execute (userId : string) : AM W OauthResult :=
  connectionResult ← lift (GmailAuth.initiateConnection env userId);
  if GmailAuth.ir_success connectionResult
  then
    modify (set_authStatusCache (delete ("auth-" +:+ userId)));;
    mret (OauthStarted
            (GmailAuth.ir_redirectUrl connectionResult)
            "Please click the OAuth URL above to authorize Gmail access. After authorization, the Gmail tools will automatically be able to access your Gmail data.")
  else
    mret (OauthFailed "Failed to initiate Gmail connection"
                      "Please try again or check your configuration.").

(** The cache key and the URL the [tools] function derives from the
    connected account id. *)
Definition toolsCacheKey (userId : string) (accountId : option string)
    : string :=
  "gmail-" +:+ userId +:+ "-" +:+ js_or accountId "unauth".

Definition mcpUrl (accountId : option string) : string :=
  if truthy_opt accountId
  then mcp_base_url +:+ "?connected_account_id=" +:+ default "" accountId
  else mcp_base_url.

(** The [tools] function of this agent. *)
Definition agent_tools (runtimeContext : option RuntimeContext)
    : AM W (gmap string ToolEntry) :=
  let userId := requestUserId runtimeContext in
  let gmailAuth := userId in
  accountId ← getCachedAuthStatus userId gmailAuth;
  let cacheKey := toolsCacheKey userId accountId in
  let url := mcpUrl accountId in
  allTools ← getCachedTools cacheKey url userId;
  mret ((McpTool <$> allTools) ∪ {[ "initiate_gmail_oauth" := OauthTool userId ]}).

(** [cleanupGmailAgent()]. *)
Definition cleanupGmailAgent : AM W unit :=
  keys ← gets (λ s, JSMap.keys (mcpClientCache s));
  for_of keys cleanupMCPClient;;
  modify (set_toolsCache (λ _, ∅));;
  modify (set_authStatusCache (λ _, ∅)).

(** [clearGmailAgentCache(userId = 'default')]; as in the other agent, the
    two cleanups are not awaited, and the embedding returns the calls left
    suspended. *)
Definition clearGmailAgentCache (userId : option string)
    : AM W (list Suspended) :=
  let userId := default "default" userId in
  modify (set_authStatusCache (delete ("auth-" +:+ userId)));;
  let authKey := "gmail-" +:+ userId +:+ "-unauth" in
  let unauthKey := "gmail-" +:+ userId +:+ "-null" in
  first ← cleanupMCPClient_start authKey;
  second ← cleanupMCPClient_start unauthKey;
  mret (option_list first ++ option_list second).

End Agent.

(** This module right after it is loaded, in a program whose state is [p]. *)
Definition loaded {W} (p : State W) : AgentState W := mkAgentState [] ∅ ∅ p.

End GmailAuthAgent.

(** The client and tool maps of [GmailAuthAgent], set into the rest of the
    program: the state the functions of [gmailAgent.ts] would work on if
    they were given these two maps. *)
Definition agent_view {W} (a : GmailAuthAgent.AgentState W) : State W :=
  mkState (GmailAuthAgent.mcpClientCache a) (GmailAuthAgent.toolsCache a)
          (authStatusCache (GmailAuthAgent.rest a))
          (userSessionCache (GmailAuthAgent.rest a))
          (world (GmailAuthAgent.rest a)) (trace (GmailAuthAgent.rest a)).

(** The agent's maps, in a program whose state has become [p]. *)
Definition agent_in {W} (p : State W) (a : GmailAuthAgent.AgentState W)
    : GmailAuthAgent.AgentState W :=
  GmailAuthAgent.mkAgentState
    (GmailAuthAgent.mcpClientCache a) (GmailAuthAgent.toolsCache a)
    (GmailAuthAgent.authStatusCache a) p.

(** No usable auth entry for the user in [GmailAuthAgent]: none at all, or
    one whose age has reached the TTL at the clock reading its
    [getCachedAuthStatus] takes. *)
Definition agent_auth_stale {W} (env : Env W) (userId : string)
    (a : GmailAuthAgent.AgentState W) : Prop :=
  match GmailAuthAgent.authStatusCache a !! ("auth-" +:+ userId) with
  | Some ent =>
      GmailAuthAgent.CACHE_TTL
      ≤ (Date_now env (world (GmailAuthAgent.rest a))).1
        - GmailAuthAgent.entry_timestamp ent
  | None => True
  end.

(** The world once that lookup has looked at the cache: the clock is read
    only when there is an entry. *)
Definition agent_world_after_check {W} (env : Env W) (userId : string)
    (a : GmailAuthAgent.AgentState W) : W :=
  match GmailAuthAgent.authStatusCache a !! ("auth-" +:+ userId) with
  | Some _ => (Date_now env (world (GmailAuthAgent.rest a))).2
  | None => world (GmailAuthAgent.rest a)
  end.

(** Unfold one layer of the monad of [GmailAuthAgent]. *)
Ltac run_agent :=
  unfold mbind, GmailAuthAgent.AM_bind, mret, GmailAuthAgent.AM_ret,
    GmailAuthAgent.try_catch, GmailAuthAgent.gets, GmailAuthAgent.modify,
    GmailAuthAgent.lift; simpl.

(** * Properties *)

(** ** The ordered map *)

Section JSMapFacts.
Context {V : Type}.
Implicit Types (m : list (string * V)) (k : string) (v : V).

Lemma get_delete_eq k m : JSMap.get k (JSMap.delete k m) = None.
Proof.
  induction m as [|[k' v'] r IH]; simpl; [done|].
  destruct (decide (k = k')) as [->|Hne]; simpl; [done|].
  by rewrite decide_False.
Qed.

Lemma get_delete_ne k k' m :
  k ≠ k' → JSMap.get k' (JSMap.delete k m) = JSMap.get k' m.
Proof.
  intros Hne. induction m as [|[k0 v0] r IH]; simpl; [done|].
  destruct (decide (k = k0)) as [->|Hk]; simpl.
  - rewrite IH. by rewrite decide_False.
  - by rewrite IH.
Qed.

Lemma get_set_eq k v m : JSMap.get k (JSMap.set k v m) = Some v.
Proof.
  induction m as [|[k' v'] r IH]; simpl.
  - by rewrite decide_True.
  - destruct (decide (k = k')) as [->|Hne]; simpl.
    + by rewrite decide_True.
    + by rewrite decide_False.
Qed.

Lemma get_None_notin k m : JSMap.get k m = None ↔ k ∉ JSMap.keys m.
Proof.
  unfold JSMap.keys. induction m as [|[k' v'] r IH]; simpl.
  - split; [intros _; apply not_elem_of_nil | done].
  - rewrite not_elem_of_cons. destruct (decide (k = k')) as [->|Hne].
    + split; [done | intros [? _]; done].
    + rewrite IH. tauto.
Qed.

Lemma get_delete_None k k' m :
  JSMap.get k m = None → JSMap.get k (JSMap.delete k' m) = None.
Proof.
  intros Hnone. destruct (decide (k' = k)) as [->|Hne].
  - apply get_delete_eq.
  - by rewrite get_delete_ne.
Qed.

Lemma delete_absent k m : k ∉ JSMap.keys m → JSMap.delete k m = m.
Proof.
  unfold JSMap.keys. induction m as [|[k' v'] r IH]; simpl; [done|].
  rewrite not_elem_of_cons. intros [Hne Hr].
  rewrite decide_False by done. by rewrite IH.
Qed.

(** Deleting the first key of a well-formed map leaves its tail. *)
Lemma delete_head k v m :
  JSMap.wf ((k, v) :: m) → JSMap.delete k ((k, v) :: m) = m.
Proof.
  unfold JSMap.wf, JSMap.keys. simpl. rewrite NoDup_cons. intros [Hk _].
  rewrite decide_True by done. by apply delete_absent.
Qed.

Lemma wf_tail k v m : JSMap.wf ((k, v) :: m) → JSMap.wf m.
Proof. unfold JSMap.wf, JSMap.keys. simpl. rewrite NoDup_cons. tauto. Qed.

Lemma keys_delete_elem k k0 m :
  k0 ∈ JSMap.keys (JSMap.delete k m) → k0 ∈ JSMap.keys m.
Proof.
  unfold JSMap.keys. induction m as [|[k' v'] r IH]; simpl; [done|].
  destruct (decide (k = k')); simpl; rewrite ?elem_of_cons; tauto.
Qed.

Lemma wf_delete k m : JSMap.wf m → JSMap.wf (JSMap.delete k m).
Proof.
  unfold JSMap.wf. induction m as [|[k' v'] r IH]; simpl; [done|].
  change (JSMap.keys ((k', v') :: r)) with (k' :: JSMap.keys r).
  rewrite NoDup_cons. intros [Hk Hr].
  destruct (decide (k = k')); [by apply IH|].
  change (JSMap.keys ((k', v') :: JSMap.delete k r))
    with (k' :: JSMap.keys (JSMap.delete k r)).
  apply NoDup_cons. split; [|by apply IH].
  intros Hin. by apply Hk, (keys_delete_elem k k' r).
Qed.

Lemma keys_set_elem k v k0 m :
  k0 ∈ JSMap.keys (JSMap.set k v m) → k0 = k ∨ k0 ∈ JSMap.keys m.
Proof.
  unfold JSMap.keys. induction m as [|[k' v'] r IH]; simpl.
  - rewrite list_elem_of_singleton. tauto.
  - destruct (decide (k = k')) as [->|]; simpl; rewrite !elem_of_cons; tauto.
Qed.

Lemma wf_set k v m : JSMap.wf m → JSMap.wf (JSMap.set k v m).
Proof.
  unfold JSMap.wf. induction m as [|[k' v'] r IH]; simpl.
  - intros _. apply NoDup_singleton.
  - change (JSMap.keys ((k', v') :: r)) with (k' :: JSMap.keys r).
    rewrite NoDup_cons. intros [Hk Hr].
    destruct (decide (k = k')) as [->|Hne].
    + change (JSMap.keys ((k', v) :: r)) with (k' :: JSMap.keys r).
      by apply NoDup_cons.
    + change (JSMap.keys ((k', v') :: JSMap.set k v r))
        with (k' :: JSMap.keys (JSMap.set k v r)).
      apply NoDup_cons. split; [|by apply IH].
      intros Hin. apply keys_set_elem in Hin as [?|?]; [congruence|done].
Qed.

End JSMapFacts.

(** ** Reading the trace *)

Lemma disconnected_app t1 t2 :
  disconnected (t1 ++ t2) = disconnected t1 ++ disconnected t2.
Proof. apply omap_app. Qed.

(** ** Disposal of a client: [cleanupMCPClient] *)

Section Cleanup.
Context {W : Type} (env : Env W).
Implicit Types (s : State W) (key : string).

(** What [cleanupMCPClient] does, case by case. *)
Lemma cleanupMCPClient_absent s key :
  JSMap.get key (mcpClientCache s) = None →
  cleanupMCPClient env key s = (Normal tt, set_toolsCache (delete key) s).
Proof.
  intros Hget. unfold cleanupMCPClient. run. by rewrite Hget.
Qed.

Lemma cleanupMCPClient_present s key c :
  JSMap.get key (mcpClientCache s) = Some c →
  cleanupMCPClient env key s =
    let '(r, w') := MCPClient_disconnect env c (world s) in
    (Normal tt,
     mkState (JSMap.delete key (mcpClientCache s)) (delete key (toolsCache s))
             (authStatusCache s) (userSessionCache s) w'
             (trace s ++ EvDisconnect c ::
                match r with
                | Normal _ => []
                | Throw e => [EvConsoleError "Error disconnecting MCP client:" e]
                end)).
Proof.
  intros Hget. unfold cleanupMCPClient, disconnect. run. rewrite Hget.
  destruct (MCPClient_disconnect env c (world s)) as [[[]|e] w']; simpl;
    unfold set_toolsCache, set_mcpClientCache; simpl; [done|].
  by rewrite <- app_assoc.
Qed.

(** The maps after [cleanupMCPClient]: the key is gone from the client and
    tool maps, and nothing else has moved. *)
Lemma cleanupMCPClient_maps s key :
  ∃ s', cleanupMCPClient env key s = (Normal tt, s')
    ∧ mcpClientCache s' = JSMap.delete key (mcpClientCache s)
    ∧ toolsCache s' = delete key (toolsCache s)
    ∧ authStatusCache s' = authStatusCache s
    ∧ userSessionCache s' = userSessionCache s.
Proof.
  destruct (JSMap.get key (mcpClientCache s)) as [c|] eqn:Hget.
  - rewrite (cleanupMCPClient_present s key c Hget).
    destruct (MCPClient_disconnect env c (world s)) as [r w'].
    eexists; split; [reflexivity|]. done.
  - rewrite (cleanupMCPClient_absent s key Hget).
    eexists; split; [reflexivity|]. simpl.
    split; [|done]. symmetry. by apply delete_absent, get_None_notin.
Qed.

(** A call that is not awaited: what it has done when its caller goes on. *)
Lemma cleanupMCPClient_start_effect s key :
  ∃ j s', cleanupMCPClient_start env key s = (Normal j, s')
    ∧ mcpClientCache s' = mcpClientCache s
    ∧ authStatusCache s' = authStatusCache s
    ∧ userSessionCache s' = userSessionCache s
    ∧ match JSMap.get key (mcpClientCache s) with
      | None =>
          j = None
          ∧ toolsCache s' = delete key (toolsCache s)
          ∧ trace s' = trace s
          ∧ world s' = world s
      | Some c =>
          j = Some {| sus_key := key;
                      sus_outcome := (MCPClient_disconnect env c (world s)).1 |}
          ∧ toolsCache s' = toolsCache s
          ∧ trace s' = trace s ++ [EvDisconnect c]
          ∧ world s' = (MCPClient_disconnect env c (world s)).2
      end.
Proof.
  unfold cleanupMCPClient_start, disconnect. run.
  destruct (JSMap.get key (mcpClientCache s)) as [c|]; simpl.
  - destruct (MCPClient_disconnect env c (world s)) as [r w']. simpl.
    by eexists _, _.
  - by eexists _, _.
Qed.

(** The rest of a suspended call, in whatever state it resumes. *)
Lemma cleanupMCPClient_resume_run j s :
  cleanupMCPClient_resume j s
  = (Normal tt,
     mkState (JSMap.delete (sus_key j) (mcpClientCache s))
             (delete (sus_key j) (toolsCache s))
             (authStatusCache s) (userSessionCache s) (world s)
             (trace s ++
                match sus_outcome j with
                | Normal _ => []
                | Throw e => [EvConsoleError "Error disconnecting MCP client:" e]
                end)).
Proof.
  unfold cleanupMCPClient_resume. run.
  destruct (sus_outcome j) as [[]|e]; simpl; [|done].
  by rewrite app_nil_r.
Qed.

(** An awaited [cleanupMCPClient] is the call up to its [await], followed
    at once by its rest. *)
Lemma cleanupMCPClient_start_resume s key :
  cleanupMCPClient env key s
  = (j ← cleanupMCPClient_start env key;
     match j with
     | Some j => cleanupMCPClient_resume j
     | None => mret tt
     end) s.
Proof.
  destruct (cleanupMCPClient_start_effect s key)
    as (j & s' & Hrun & Hc & Ha & Hu & Hcase).
  unfold mbind, M_bind. rewrite Hrun.
  destruct (JSMap.get key (mcpClientCache s)) as [c|] eqn:Hget.
  - destruct Hcase as (-> & Ht & Htr & Hw).
    rewrite (cleanupMCPClient_present s key c Hget), cleanupMCPClient_resume_run.
    simpl. destruct (MCPClient_disconnect env c (world s)) as [r w'].
    simpl in *. rewrite Hc, Ht, Ha, Hu, Hw, Htr, <- app_assoc.
    by destruct r.
  - destruct Hcase as (-> & Ht & Htr & Hw).
    rewrite (cleanupMCPClient_absent s key Hget). unfold mret, M_ret.
    destruct s, s'; simpl in *; by subst.
Qed.

End Cleanup.

Section CleanupClaims.
Context {W : Type} (env : Env W).
Implicit Types (s : State W) (key : string).

(** C4: [cleanupMCPClient] always completes normally; afterwards neither the
    client map nor the tool map holds the key.  When a client was present
    its [disconnect] was called once, and when that call threw the error was
    logged and both entries were removed all the same. *)
Theorem C4_cleanupMCPClient_removes_client_and_tools s key :
  ∃ s', cleanupMCPClient env key s = (Normal tt, s')
    ∧ JSMap.get key (mcpClientCache s') = None
    ∧ toolsCache s' !! key = None
    ∧ match JSMap.get key (mcpClientCache s) with
      | Some c =>
          match (MCPClient_disconnect env c (world s)).1 with
          | Normal _ => trace s' = trace s ++ [EvDisconnect c]
          | Throw e =>
              trace s' = trace s ++
                [EvDisconnect c;
                 EvConsoleError "Error disconnecting MCP client:" e]
          end
      | None => trace s' = trace s
      end.
Proof.
  destruct (JSMap.get key (mcpClientCache s)) as [c|] eqn:Hget.
  - rewrite (cleanupMCPClient_present env s key c Hget).
    destruct (MCPClient_disconnect env c (world s)) as [[u|e] w']; simpl.
    + eexists; split; [reflexivity|]; simpl.
      split; [apply get_delete_eq|]. split; [apply lookup_delete_eq|done].
    + eexists; split; [reflexivity|]; simpl.
      split; [apply get_delete_eq|]. split; [apply lookup_delete_eq|done].
  - rewrite (cleanupMCPClient_absent env s key Hget).
    eexists; split; [reflexivity|]. simpl.
    split; [done|]. split; [apply lookup_delete_eq|done].
Qed.

(** C7: on a key with no client, [cleanupMCPClient] calls nothing, logs
    nothing and throws nothing: it only deletes the tool entry of the key.
    A second call on the same key therefore changes nothing at all. *)
Theorem C7_cleanupMCPClient_idempotent s key :
  (JSMap.get key (mcpClientCache s) = None →
   cleanupMCPClient env key s = (Normal tt, set_toolsCache (delete key) s))
  ∧ cleanupMCPClient env key (cleanupMCPClient env key s).2
    = (Normal tt, (cleanupMCPClient env key s).2).
Proof.
  split; [apply cleanupMCPClient_absent|].
  destruct (cleanupMCPClient_maps env s key) as (s' & -> & Hc & Ht & _). simpl.
  rewrite (cleanupMCPClient_absent env s' key).
  - destruct s'; unfold set_toolsCache; simpl in *.
    rewrite delete_id; [done|]. rewrite Ht. apply lookup_delete_eq.
  - rewrite Hc. apply get_delete_eq.
Qed.

(** The loop of [cleanupGmailAgent] over a well-formed client map. *)
Lemma for_of_cleanupMCPClient (m : list (string * MCPClient)) :
  ∀ s, mcpClientCache s = m → JSMap.wf m →
  ∃ s', for_of (JSMap.keys m) (cleanupMCPClient env) s = (Normal tt, s')
    ∧ mcpClientCache s' = []
    ∧ authStatusCache s' = authStatusCache s
    ∧ userSessionCache s' = userSessionCache s
    ∧ disconnected (trace s') = disconnected (trace s) ++ JSMap.values m.
Proof.
  induction m as [|[k c] r IH]; intros s Hm Hwf.
  - exists s. simpl. rewrite app_nil_r. by run.
  - assert (Hget : JSMap.get k (mcpClientCache s) = Some c).
    { rewrite Hm. simpl. by rewrite decide_True. }
    change (JSMap.keys ((k, c) :: r)) with (k :: JSMap.keys r).
    simpl for_of. unfold mbind at 1, M_bind at 1.
    rewrite (cleanupMCPClient_present env s k c Hget).
    destruct (MCPClient_disconnect env c (world s)) as [res w'].
    set (s1 := mkState _ _ _ _ _ _).
    destruct (IH s1) as (s' & Hrun & Hc & Ha & Hu & Ht).
    { subst s1. simpl. rewrite Hm. by apply delete_head. }
    { by eapply wf_tail. }
    exists s'. rewrite Hrun, Hc, Ha, Hu, Ht. subst s1. simpl.
    repeat split; try done.
    rewrite disconnected_app. simpl.
    rewrite <- app_assoc. f_equal.
    by destruct res.
Qed.

(** C5: [cleanupGmailAgent] completes normally and leaves all four maps
    empty, and the [disconnect] calls it made are exactly the clients of the
    map, one call each in map order - whatever each [disconnect] answered,
    a throw included. *)
Theorem C5_cleanupGmailAgent_disposes_each_once_and_empties s :
  JSMap.wf (mcpClientCache s) →
  ∃ s', cleanupGmailAgent env s = (Normal tt, s')
    ∧ mcpClientCache s' = []
    ∧ toolsCache s' = ∅
    ∧ authStatusCache s' = ∅
    ∧ userSessionCache s' = ∅
    ∧ disconnected (trace s')
      = disconnected (trace s) ++ JSMap.values (mcpClientCache s).
Proof.
  intros Hwf.
  destruct (for_of_cleanupMCPClient (mcpClientCache s) s eq_refl Hwf)
    as (s1 & Hrun & Hc & _ & _ & Ht).
  unfold cleanupGmailAgent. run. rewrite Hrun.
  eexists; split; [reflexivity|]. simpl. by rewrite Hc, Ht.
Qed.

End CleanupClaims.

(** ** The two lookups: [getCachedAuthStatus] and [getCachedTools] *)

Section Lookups.
Context {W : Type} (env : Env W).
Implicit Types (s : State W) (userId key url : string).

Lemma getCachedAuthStatus_hit s userId c :
  authStatusCache s !! ("auth-" +:+ userId) = Some c →
  (Date_now env (world s)).1 - timestamp c < CACHE_TTL →
  getCachedAuthStatus env userId s
  = (Normal c, with_world (Date_now env (world s)).2 s).
Proof.
  intros Hc Hfresh. unfold getCachedAuthStatus, isCacheValid, date_now. run.
  rewrite Hc. simpl. destruct (Date_now env (world s)) as [now w1]. simpl in *.
  rewrite app_nil_r. by rewrite bool_decide_true.
Qed.

Lemma getCachedAuthStatus_fetch s userId :
  auth_stale env userId s →
  getCachedAuthStatus env userId s
  = let q := {| userIds := [userId]; authConfigIds := None |} in
    let '(r, w1) := connectedAccounts_list env q (world_after_check env userId s) in
    let '(now, w2) := Date_now env w1 in
    let st := fetched_auth r now in
    (Normal st,
     mkState (mcpClientCache s) (toolsCache s)
             (<["auth-" +:+ userId := st]> (authStatusCache s))
             (userSessionCache s) w2
             (trace s ++ EvListAccounts q ::
                match r with
                | Normal _ => []
                | Throw e => [EvConsoleError "Error checking auth status:" e]
                end)).
Proof.
  unfold auth_stale, world_after_check, getCachedAuthStatus, isCacheValid,
    date_now, list_accounts.
  intros Hstale. run.
  destruct (authStatusCache s !! ("auth-" +:+ userId)) as [c|] eqn:Hc; simpl.
  - destruct (Date_now env (world s)) as [now0 w0]. simpl in *.
    rewrite bool_decide_false by lia. simpl.
    destruct (connectedAccounts_list env _ w0) as [[conns|e] w1]; simpl;
      destruct (Date_now env w1) as [now w2]; simpl;
      unfold set_authStatusCache; simpl; rewrite ?app_nil_r, <- ?app_assoc;
      done.
  - destruct (connectedAccounts_list env _ (world s)) as [[conns|e] w1]; simpl;
      destruct (Date_now env w1) as [now w2]; simpl;
      unfold set_authStatusCache; simpl; rewrite ?app_nil_r, <- ?app_assoc;
      done.
Qed.

(** A cached entry is either still valid or stale. *)
Lemma auth_hit_or_stale s userId :
  (∃ c, authStatusCache s !! ("auth-" +:+ userId) = Some c
        ∧ (Date_now env (world s)).1 - timestamp c < CACHE_TTL)
  ∨ auth_stale env userId s.
Proof.
  unfold auth_stale.
  destruct (authStatusCache s !! ("auth-" +:+ userId)) as [c|]; [|by right].
  destruct (decide ((Date_now env (world s)).1 - timestamp c < CACHE_TTL)).
  - left. by exists c.
  - right. lia.
Qed.

(** [getCachedAuthStatus] never throws, and what it returns is what the map
    holds for the user afterwards. *)
Lemma getCachedAuthStatus_stores s userId :
  ∃ r s1, getCachedAuthStatus env userId s = (Normal r, s1)
    ∧ authStatusCache s1 !! ("auth-" +:+ userId) = Some r.
Proof.
  destruct (auth_hit_or_stale s userId) as [(c & Hc & Hfresh)|Hstale].
  - rewrite (getCachedAuthStatus_hit s userId c Hc Hfresh).
    by exists c, (with_world (Date_now env (world s)).2 s).
  - rewrite (getCachedAuthStatus_fetch s userId Hstale). simpl.
    destruct (connectedAccounts_list env _ _) as [r w1].
    destruct (Date_now env w1) as [now w2].
    eexists _, _. split; [reflexivity|]. simpl. apply lookup_insert_eq.
Qed.

Lemma getCachedTools_hit s key url userId tools :
  toolsCache s !! key = Some tools →
  getCachedTools env key url userId s = (Normal tools, s).
Proof. intros Hhit. unfold getCachedTools. run. by rewrite Hhit. Qed.

Lemma obtain_client_get s key url userId :
  JSMap.get key (mcpClientCache (obtain_client env key url userId s).2)
  = Some (obtain_client env key url userId s).1.
Proof.
  unfold obtain_client.
  destruct (JSMap.get key (mcpClientCache s)) as [c|] eqn:Hget; [done|].
  destruct (Date_now env (world s)) as [now w0]. simpl. apply get_set_eq.
Qed.

(** The URLs the [tools] function builds are accepted by [new URL]. *)
Lemma mcpUrl_accepted st : URL_error env (mcpUrl st) = None.
Proof. unfold mcpUrl. by destruct (truthy_opt (connectionId st)). Qed.

Lemma mcpUrl_passes key st s : url_passes env key (mcpUrl st) s.
Proof. intros _ _. apply mcpUrl_accepted. Qed.

Lemma url_accepted_passes key url s :
  URL_error env url = None → url_passes env key url s.
Proof. by intros Hurl _ _. Qed.

(** On a key with neither tools nor client, a URL that [new URL] rejects
    ends [getCachedTools] with the [TypeError] before a client exists: the
    clock has been read, and nothing else has happened. *)
Lemma getCachedTools_bad_url s key url userId e :
  toolsCache s !! key = None →
  JSMap.get key (mcpClientCache s) = None →
  URL_error env url = Some e →
  getCachedTools env key url userId s
  = (Throw e, with_world (Date_now env (world s)).2 s).
Proof.
  intros Hmiss Hget Hurl. unfold getCachedTools, date_now, new_URL.
  run. rewrite Hmiss, Hget. simpl. rewrite Hurl.
  destruct (Date_now env (world s)) as [now w0]. simpl.
  by rewrite app_nil_r.
Qed.

Lemma getCachedTools_miss s key url userId :
  toolsCache s !! key = None →
  url_passes env key url s →
  getCachedTools env key url userId s
  = let '(c, s0) := obtain_client env key url userId s in
    let '(r, w1) := MCPClient_getTools env c (world s0) in
    match r with
    | Normal tools =>
        (Normal tools,
         mkState (mcpClientCache s0) (<[key := tools]> (toolsCache s0))
                 (authStatusCache s0) (userSessionCache s0) w1
                 (trace s0 ++ [EvGetTools c]))
    | Throw e =>
        let '(_, s2) :=
          cleanupMCPClient env key
            (mkState (mcpClientCache s0) (toolsCache s0) (authStatusCache s0)
                     (userSessionCache s0) w1
                     (trace s0 ++
                        [EvGetTools c;
                         EvConsoleError "Failed to load tools from MCP server:"
                                        e])) in
        (Normal ∅, s2)
    end.
Proof.
  intros Hmiss Hurl. unfold getCachedTools, obtain_client, date_now, new_URL,
    new_MCPClient, getTools.
  run. rewrite Hmiss.
  destruct (JSMap.get key (mcpClientCache s)) as [c|] eqn:Hget; simpl.
  - destruct (MCPClient_getTools env c (world s)) as [[tools|e] w1]; simpl;
      [done|].
    rewrite <- app_assoc. simpl.
    match goal with
    | |- context [cleanupMCPClient env key ?st] =>
        destruct (cleanupMCPClient_maps env st key) as (s2 & -> & _)
    end. done.
  - rewrite (Hurl Hmiss Hget).
    destruct (Date_now env (world s)) as [now w0]. simpl.
    rewrite app_nil_r.
    set (c := {| client_id := _; client_url := url |}).
    destruct (MCPClient_getTools env c w0) as [[tools|e] w1]; simpl; [done|].
    rewrite <- !app_assoc. simpl.
    match goal with
    | |- context [cleanupMCPClient env key ?st] =>
        destruct (cleanupMCPClient_maps env st key) as (s2 & -> & _)
    end. done.
Qed.

End Lookups.

Section LookupClaims.
Context {W : Type} (env : Env W).
Implicit Types (s : State W) (userId key url : string).

(** Obtaining the client logs no fetch failure. *)
Lemma obtain_client_trace s key url userId :
  ∃ pre, trace (obtain_client env key url userId s).2 = trace s ++ pre
    ∧ tool_fetch_errors pre = [].
Proof.
  unfold obtain_client.
  destruct (JSMap.get key (mcpClientCache s)) as [c|].
  - exists []. by rewrite app_nil_r.
  - destruct (Date_now env (world s)) as [now w0]. simpl. by eexists [_].
Qed.

(** The [catch] of [getCachedTools]: the error is logged, the client is
    disconnected and dropped together with the tool entry, and the empty
    tool set is returned. *)
Lemma getCachedTools_fetch_throws s key url userId e w1 :
  toolsCache s !! key = None →
  url_passes env key url s →
  MCPClient_getTools env (obtain_client env key url userId s).1
                     (world (obtain_client env key url userId s).2)
  = (Throw e, w1) →
  ∃ s2 post, getCachedTools env key url userId s = (Normal ∅, s2)
    ∧ toolsCache s2 !! key = None
    ∧ JSMap.get key (mcpClientCache s2) = None
    ∧ trace s2
      = trace (obtain_client env key url userId s).2 ++
          [EvGetTools (obtain_client env key url userId s).1;
           EvConsoleError "Failed to load tools from MCP server:" e;
           EvDisconnect (obtain_client env key url userId s).1] ++ post
    ∧ post
      = match (MCPClient_disconnect env
                 (obtain_client env key url userId s).1 w1).1 with
        | Normal _ => []
        | Throw e' => [EvConsoleError "Error disconnecting MCP client:" e']
        end
    ∧ tool_fetch_errors post = [].
Proof.
  intros Hmiss Hurl Hthrow.
  rewrite (getCachedTools_miss env s key url userId Hmiss Hurl).
  pose proof (obtain_client_get env s key url userId) as Hget.
  destruct (obtain_client env key url userId s) as [c s0]. simpl in *.
  rewrite Hthrow.
  rewrite (cleanupMCPClient_present env _ key c) by done. simpl.
  destruct (MCPClient_disconnect env c w1) as [[u|e'] w2]; simpl.
  - eexists _, []. split; [reflexivity|]. simpl.
    split; [apply lookup_delete_eq|]. split; [apply get_delete_eq|].
    split; [|done]. by rewrite <- app_assoc.
  - eexists _, [EvConsoleError "Error disconnecting MCP client:" e'].
    split; [reflexivity|]. simpl.
    split; [apply lookup_delete_eq|]. split; [apply get_delete_eq|].
    split; [|done]. by rewrite <- app_assoc.
Qed.

(** With neither tools nor client under the key, and a URL that [new URL]
    accepts, [getCachedTools] creates a client and asks it for its tools. *)
Lemma getCachedTools_cold s key url userId :
  toolsCache s !! key = None →
  JSMap.get key (mcpClientCache s) = None →
  URL_error env url = None →
  ∃ r s2 c tail, getCachedTools env key url userId s = (Normal r, s2)
    ∧ trace s2 = trace s ++ EvNewClient c :: EvGetTools c :: tail.
Proof.
  intros Hmiss Hnone Hurl.
  pose proof (url_accepted_passes env key url s Hurl) as Hpass.
  destruct (MCPClient_getTools env (obtain_client env key url userId s).1
              (world (obtain_client env key url userId s).2))
    as [[tools|e] w1] eqn:Hfetch.
  - rewrite (getCachedTools_miss env s key url userId Hmiss Hpass).
    revert Hfetch. unfold obtain_client. rewrite Hnone.
    destruct (Date_now env (world s)) as [now w0]. simpl. intros ->.
    eexists _, _, _, []. split; [reflexivity|]. simpl.
    by rewrite <- app_assoc.
  - destruct (getCachedTools_fetch_throws s key url userId e w1 Hmiss Hpass
                Hfetch)
      as (s2 & post & Hrun & _ & _ & Ht & _).
    revert Ht. unfold obtain_client. rewrite Hnone.
    destruct (Date_now env (world s)) as [now w0]. simpl. intros Ht.
    eexists ∅, s2, _, _. split; [done|].
    rewrite Ht, <- app_assoc. simpl. reflexivity.
Qed.

(** The auth entry does expire: on a stale lookup the provider is asked
    again, and the entry under the key is the one just built, stamped with
    the clock read after the provider answered. *)
Lemma getCachedAuthStatus_stale_refetches s userId :
  auth_stale env userId s →
  ∃ r s1 tail, getCachedAuthStatus env userId s = (Normal r, s1)
    ∧ trace s1
      = trace s ++
          EvListAccounts {| userIds := [userId]; authConfigIds := None |}
          :: tail
    ∧ authStatusCache s1 !! ("auth-" +:+ userId) = Some r
    ∧ timestamp r
      = (Date_now env
           (connectedAccounts_list env
              {| userIds := [userId]; authConfigIds := None |}
              (world_after_check env userId s)).2).1.
Proof.
  intros Hstale. rewrite (getCachedAuthStatus_fetch env s userId Hstale). simpl.
  destruct (connectedAccounts_list env _ _) as [r w1]. simpl.
  destruct (Date_now env w1) as [now w2]. simpl.
  eexists _, _, _. split; [reflexivity|]. simpl.
  split; [reflexivity|]. split; [apply lookup_insert_eq|by destruct r].
Qed.

(** C6: a lookup followed by a second one is served from the cache.  The
    second call starts in any world [w], which stands for whatever happened
    outside the process in between.  For the auth status: when the clock the
    second call reads in [w] is less than the TTL past the entry's
    timestamp, the call returns the same entry and changes nothing but the
    world the clock lives in (no provider call, same maps, same trace) -
    also when the first call's fetch had failed.  For the tools, the first
    call has to get past [new URL(url)], which sits outside the [try]: on a
    key with neither tools nor client the URL is one [new URL] accepts, as
    the URLs the [tools] function passes are.  Then the first call returns a
    tool set, and when it logged no fetch failure, the second returns the
    same tool set and leaves the state as it is, at whatever time. *)
Theorem C6_second_lookup_is_served_from_cache s userId key url u :
  (∃ r1 s1, getCachedAuthStatus env userId s = (Normal r1, s1)
     ∧ ∀ w, (Date_now env w).1 - timestamp r1 < CACHE_TTL →
            getCachedAuthStatus env userId (with_world w s1)
            = (Normal r1, with_world (Date_now env w).2 s1))
  ∧ (url_passes env key url s →
     ∃ r1 s1, getCachedTools env key url u s = (Normal r1, s1)
       ∧ (tool_fetch_errors (trace s1) = tool_fetch_errors (trace s) →
          ∀ w, getCachedTools env key url u (with_world w s1)
               = (Normal r1, with_world w s1))).
Proof.
  split.
  - destruct (getCachedAuthStatus_stores env s userId) as (r1 & s1 & Hrun & Hst).
    exists r1, s1. split; [done|]. intros w Hfresh.
    by apply (getCachedAuthStatus_hit env (with_world w s1)).
  - intros Hurl. destruct (toolsCache s !! key) as [tools|] eqn:Hc.
    + exists tools, s. split; intros; by apply getCachedTools_hit.
    + destruct (MCPClient_getTools env (obtain_client env key url u s).1
                  (world (obtain_client env key url u s).2))
        as [[tools|e] w1] eqn:Hfetch.
      * rewrite (getCachedTools_miss env s key url u Hc Hurl).
        destruct (obtain_client env key url u s) as [c s0]. simpl in Hfetch.
        rewrite Hfetch. eexists _, _. split; [reflexivity|]. intros _ w.
        apply getCachedTools_hit. simpl. apply lookup_insert_eq.
      * destruct (getCachedTools_fetch_throws s key url u e w1 Hc Hurl Hfetch)
          as (s2 & post & Hrun & _ & _ & Ht & _ & Hpost).
        exists ∅, s2. split; [done|]. intros Hsame. exfalso.
        destruct (obtain_client_trace s key url u) as (pre & Hpre & Hnil).
        rewrite Ht, Hpre in Hsame. unfold tool_fetch_errors in *.
        rewrite !omap_app, Hnil, Hpost in Hsame. simpl in Hsame.
        apply (f_equal length) in Hsame.
        rewrite !length_app in Hsame. simpl in Hsame. lia.
Qed.

(** C8: a lookup right after an invalidation asks the collaborator again,
    whatever the timestamp of the removed entry was.  After
    [authStatusCache.delete], and after a successful [authorize_gmail],
    [getCachedAuthStatus] queries the provider; after [cleanupMCPClient],
    [getCachedTools], given a URL that [new URL] accepts, creates a client
    and asks it for its tools. *)
Theorem C8_lookup_after_invalidate_fetches s userId key url u :
  (∃ r s2 tail,
     getCachedAuthStatus env userId
       (set_authStatusCache (delete ("auth-" +:+ userId)) s) = (Normal r, s2)
     ∧ trace s2
       = trace s ++
           EvListAccounts {| userIds := [userId]; authConfigIds := None |}
           :: tail)
  ∧ (∀ req w1,
       toolkits_authorize env userId "gmail" (world s) = (Normal req, w1) →
       ∃ res s1 r s2 tail,
         authorizeTool_execute env userId s = (Normal res, s1)
         ∧ getCachedAuthStatus env userId s1 = (Normal r, s2)
         ∧ trace s2
           = trace s1 ++
               EvListAccounts {| userIds := [userId]; authConfigIds := None |}
               :: tail)
  ∧ (URL_error env url = None →
     ∃ s1 r s2 c tail,
       cleanupMCPClient env key s = (Normal tt, s1)
       ∧ getCachedTools env key url u s1 = (Normal r, s2)
       ∧ trace s2 = trace s1 ++ EvNewClient c :: EvGetTools c :: tail).
Proof.
  split; [|split].
  - destruct (getCachedAuthStatus_stale_refetches
                (set_authStatusCache (delete ("auth-" +:+ userId)) s) userId)
      as (r & s2 & tail & Hrun & Ht & _).
    { unfold auth_stale. simpl. by rewrite lookup_delete_eq. }
    by exists r, s2, tail.
  - intros req w1 Hauth. unfold authorizeTool_execute, authorize. run.
    rewrite Hauth. simpl.
    match goal with
    | |- context [(Normal ?res, ?st)] =>
        destruct (getCachedAuthStatus_stale_refetches st userId)
          as (r & s2 & tail & Hrun & Ht & _)
    end.
    { unfold auth_stale. simpl. by rewrite lookup_delete_eq. }
    eexists _, _, r, s2, tail. split; [reflexivity|]. by split.
  - intros Hurl.
    destruct (cleanupMCPClient_maps env s key) as (s1 & Hrun & Hc & Ht & _).
    destruct (getCachedTools_cold s1 key url u)
      as (r & s2 & c & tail & Hrun2 & Htr).
    { rewrite Ht. apply lookup_delete_eq. }
    { rewrite Hc. apply get_delete_eq. }
    { done. }
    by exists s1, r, s2, c, tail.
Qed.

End LookupClaims.

(** ** When a fetch fails *)

Section FailureClaims.
Context {W : Type} (env : Env W).
Implicit Types (s : State W) (userId key url : string).

(** C1, as the code has it: a failed fetch is caught, not propagated.
    [getCachedAuthStatus] logs the error, stores
    [{connected: false, connectionId: null, timestamp: now}] under the key
    and returns it, and a following call within the TTL (started in any
    world [w]) returns that cached entry without asking the provider.
    [getCachedTools] catches an error of [getTools]: it logs the error,
    calls [disconnect] on the client (logging an error of that call too),
    returns the empty tool set and leaves neither tools nor client under the
    key, so the next call creates a client and fetches again.  The one error
    [getCachedTools] lets through is the [TypeError] of [new URL(url)], which
    sits outside the [try]: on a key with neither tools nor client, a URL
    that [new URL] rejects ends the call with that error, with nothing
    cached and no client created. *)
Theorem C1_failed_fetch_is_caught s userId key url u :
  (∀ e w1,
     auth_stale env userId s →
     connectedAccounts_list env
       {| userIds := [userId]; authConfigIds := None |}
       (world_after_check env userId s) = (Throw e, w1) →
     let st := {| connected := false; connectionId := None;
                  timestamp := (Date_now env w1).1 |} in
     let s1 :=
       mkState (mcpClientCache s) (toolsCache s)
               (<["auth-" +:+ userId := st]> (authStatusCache s))
               (userSessionCache s) (Date_now env w1).2
               (trace s ++
                  [EvListAccounts
                     {| userIds := [userId]; authConfigIds := None |};
                   EvConsoleError "Error checking auth status:" e]) in
     getCachedAuthStatus env userId s = (Normal st, s1)
     ∧ ∀ w, (Date_now env w).1 - timestamp st < CACHE_TTL →
            getCachedAuthStatus env userId (with_world w s1)
            = (Normal st, with_world (Date_now env w).2 s1))
  ∧ (∀ e w1,
       toolsCache s !! key = None →
       url_passes env key url s →
       MCPClient_getTools env (obtain_client env key url u s).1
                          (world (obtain_client env key url u s).2)
       = (Throw e, w1) →
       let c := (obtain_client env key url u s).1 in
       ∃ s1, getCachedTools env key url u s = (Normal ∅, s1)
         ∧ toolsCache s1 !! key = None
         ∧ JSMap.get key (mcpClientCache s1) = None
         ∧ trace s1
           = trace (obtain_client env key url u s).2 ++
               [EvGetTools c;
                EvConsoleError "Failed to load tools from MCP server:" e;
                EvDisconnect c] ++
               match (MCPClient_disconnect env c w1).1 with
               | Normal _ => []
               | Throw e' =>
                   [EvConsoleError "Error disconnecting MCP client:" e']
               end
         ∧ (URL_error env url = None →
            ∃ r s2 c' tail,
              getCachedTools env key url u s1 = (Normal r, s2)
              ∧ trace s2
                = trace s1 ++ EvNewClient c' :: EvGetTools c' :: tail))
  ∧ (∀ e,
       toolsCache s !! key = None →
       JSMap.get key (mcpClientCache s) = None →
       URL_error env url = Some e →
       getCachedTools env key url u s
       = (Throw e, with_world (Date_now env (world s)).2 s)).
Proof.
  split.
  - intros e w1 Hstale Hthrow st s1.
    assert (Hrun : getCachedAuthStatus env userId s = (Normal st, s1)).
    { rewrite (getCachedAuthStatus_fetch env s userId Hstale). simpl.
      rewrite Hthrow. subst st s1. by destruct (Date_now env w1). }
    split; [done|]. intros w Hfresh.
    apply (getCachedAuthStatus_hit env (with_world w s1)); [|done].
    subst s1. simpl. apply lookup_insert_eq.
  - split; [|intros e; apply getCachedTools_bad_url].
    intros e w1 Hmiss Hurl Hthrow c.
    destruct (getCachedTools_fetch_throws env s key url u e w1 Hmiss Hurl
                Hthrow)
      as (s1 & post & Hrun & Ht & Hc & Htr & Hpost & _).
    exists s1. do 3 (split; [done|]). split; [by rewrite Htr, Hpost|].
    intros Hok. by apply getCachedTools_cold.
Qed.

End FailureClaims.

(** ** When the authentication changes *)

Section AuthChangeClaims.
Context {W : Type} (env : Env W).
Implicit Types (s : State W) (userId : string).

(** C3, as the code has it.  [clearGmailAgentCache] removes the user's
    auth-status entry at once.  For [gmail-<userId>-unauth], the key the
    [tools] function uses for a user without a connection id: with no client
    cached there, the tool entry is removed before the function returns;
    with a client cached, [disconnect] has been called on it when the
    function returns, and the client and the tool entry are still cached,
    the cleanup being suspended.  Whenever a suspended cleanup resumes, in
    whatever state, it leaves neither client nor tool entry under its key,
    and calls no [disconnect] then.  A successful [authorize_gmail] removes
    the user's auth-status entry and leaves the client and tool maps as they
    were. *)
Theorem C3_auth_change_clears_unauth_entries s userId :
  let key := "gmail-" +:+ userId +:+ "-unauth" in
  (∃ jobs s', clearGmailAgentCache env userId s = (Normal jobs, s')
     ∧ authStatusCache s' !! ("auth-" +:+ userId) = None
     ∧ mcpClientCache s' = mcpClientCache s
     ∧ match JSMap.get key (mcpClientCache s) with
       | None =>
           toolsCache s' !! key = None
           ∧ ∀ j, j ∈ jobs → sus_key j ≠ key
       | Some c =>
           toolsCache s' !! key = toolsCache s !! key
           ∧ (∃ tail, trace s' = trace s ++ EvDisconnect c :: tail)
           ∧ {| sus_key := key;
                sus_outcome := (MCPClient_disconnect env c (world s)).1 |}
             ∈ jobs
       end)
  ∧ (∀ j s2,
       ∃ s3, cleanupMCPClient_resume j s2 = (Normal tt, s3)
         ∧ JSMap.get (sus_key j) (mcpClientCache s3) = None
         ∧ toolsCache s3 !! sus_key j = None
         ∧ disconnected (trace s3) = disconnected (trace s2))
  ∧ (∀ st, connectionId st = None → toolsCacheKey userId st = key)
  ∧ (∀ req w1,
       toolkits_authorize env userId "gmail" (world s) = (Normal req, w1) →
       ∃ res,
         authorizeTool_execute env userId s
         = (Normal res,
            mkState (mcpClientCache s) (toolsCache s)
                    (delete ("auth-" +:+ userId) (authStatusCache s))
                    (userSessionCache s) w1
                    (trace s ++ [EvAuthorize userId "gmail"]))).
Proof.
  intros key.
  assert (Hne : "gmail-" +:+ userId +:+ "-null" ≠ key).
  { subst key. intros H. apply (inj (String.app "gmail-")) in H.
    apply (inj (String.app userId)) in H. discriminate. }
  split; [|split; [|split]].
  - unfold clearGmailAgentCache. fold key.
    set (s0 := set_authStatusCache (delete ("auth-" +:+ userId)) s).
    destruct (cleanupMCPClient_start_effect env s0 key)
      as (j1 & s1 & Hrun1 & Hc1 & Ha1 & _ & Hcase1).
    destruct (cleanupMCPClient_start_effect env s1
                ("gmail-" +:+ userId +:+ "-null"))
      as (j2 & s2 & Hrun2 & Hc2 & Ha2 & _ & Hcase2).
    exists (option_list j1 ++ option_list j2), s2. split.
    { unfold mbind, M_bind, modify. fold s0. by rewrite Hrun1, Hrun2. }
    split; [rewrite Ha2, Ha1; apply lookup_delete_eq|].
    split; [by rewrite Hc2, Hc1|].
    assert (Hj2 : ∀ j, j ∈ option_list j2 → sus_key j ≠ key).
    { intros j Hj. destruct (JSMap.get _ (mcpClientCache s1)).
      - destruct Hcase2 as (-> & _). apply list_elem_of_singleton in Hj.
        by subst j.
      - destruct Hcase2 as (-> & _). by apply elem_of_nil in Hj. }
    assert (Ht2 : toolsCache s2 !! key = toolsCache s1 !! key).
    { destruct (JSMap.get _ (mcpClientCache s1)).
      - by destruct Hcase2 as (_ & -> & _).
      - destruct Hcase2 as (_ & -> & _). by apply lookup_delete_ne. }
    assert (Htr2 : ∃ tail, trace s2 = trace s1 ++ tail).
    { destruct (JSMap.get _ (mcpClientCache s1)).
      - destruct Hcase2 as (_ & _ & -> & _). by eexists.
      - destruct Hcase2 as (_ & _ & -> & _). exists []. by rewrite app_nil_r. }
    change (mcpClientCache s0) with (mcpClientCache s) in Hcase1.
    destruct (JSMap.get key (mcpClientCache s)) as [c|].
    + destruct Hcase1 as (-> & Ht1 & Htr1 & _).
      split; [by rewrite Ht2, Ht1|]. split.
      * destruct Htr2 as (tail & ->). exists tail.
        rewrite Htr1. by rewrite <- app_assoc.
      * apply elem_of_app. left. apply list_elem_of_singleton. done.
    + destruct Hcase1 as (-> & Ht1 & _).
      split; [rewrite Ht2, Ht1; apply lookup_delete_eq|].
      intros j Hj. by apply Hj2.
  - intros j s2. rewrite cleanupMCPClient_resume_run.
    eexists. split; [reflexivity|]. simpl.
    split; [apply get_delete_eq|]. split; [apply lookup_delete_eq|].
    rewrite disconnected_app. destruct (sus_outcome j); simpl;
      by rewrite app_nil_r.
  - intros st Hnone. unfold toolsCacheKey. by rewrite Hnone.
  - intros req w1 Hauth. unfold authorizeTool_execute, authorize. run.
    rewrite Hauth. simpl. by eexists.
Qed.

End AuthChangeClaims.

(** ** The identity of the caller: [getUserId] *)

Section IdentityClaims.
Context {W : Type} (env : Env W).
Implicit Types (s : State W) (ctx : option RuntimeContext).

(** A session already in the map keeps its user id. *)
Lemma getUserId_known_session ctx s u :
  truthy_opt (ctx ≫= (.!! "userId")) = false →
  userSessionCache s !! js_or (ctx ≫= (.!! "sessionId")) "default-session"
  = Some u →
  getUserId env ctx s = (Normal u, s).
Proof.
  intros Hno Hu. unfold getUserId. rewrite Hno.
  set (sid := js_or _ _) in *. run. by rewrite Hu.
Qed.

(** C9, as the code has it: a non-empty [userId] in the runtime context is
    returned as it is and nothing changes.  Without one (none, or the empty
    string) the session id decides, with [default-session] standing in for a
    missing or empty one: a session not yet in the map gets the string
    [uuidv4()] returns, stored under the session id; a session in the map
    gets the stored user id and nothing changes; so a call, and every call
    after it for the same session, answer the same user id. *)
Theorem C9_getUserId_stable_per_session s ctx :
  let sid := js_or (ctx ≫= (.!! "sessionId")) "default-session" in
  (∀ u, ctx ≫= (.!! "userId") = Some u → u ≠ "" →
        getUserId env ctx s = (Normal u, s))
  ∧ (truthy_opt (ctx ≫= (.!! "userId")) = false →
     (userSessionCache s !! sid = None →
      getUserId env ctx s
      = (Normal (uuidv4 env (world s)).1,
         mkState (mcpClientCache s) (toolsCache s) (authStatusCache s)
                 (<[sid := (uuidv4 env (world s)).1]> (userSessionCache s))
                 (uuidv4 env (world s)).2 (trace s)))
     ∧ (∀ u, userSessionCache s !! sid = Some u →
             getUserId env ctx s = (Normal u, s))
     ∧ (∃ u s1, getUserId env ctx s = (Normal u, s1)
          ∧ ∀ ctx',
              truthy_opt (ctx' ≫= (.!! "userId")) = false →
              js_or (ctx' ≫= (.!! "sessionId")) "default-session" = sid →
              getUserId env ctx' s1 = (Normal u, s1))).
Proof.
  intros sid. pose proof getUserId_known_session as Hknown.
  assert (Hnew :
    truthy_opt (ctx ≫= (.!! "userId")) = false →
    userSessionCache s !! sid = None →
    getUserId env ctx s
    = (Normal (uuidv4 env (world s)).1,
       mkState (mcpClientCache s) (toolsCache s) (authStatusCache s)
               (<[sid := (uuidv4 env (world s)).1]> (userSessionCache s))
               (uuidv4 env (world s)).2 (trace s))).
  { intros Hno Hnone. unfold getUserId, gen_uuid. rewrite Hno.
    fold sid. run. rewrite Hnone. destruct (uuidv4 env (world s)) as [u w1]. simpl.
    by rewrite app_nil_r. }
  split; [|intros Hno; split; [|split]].
  - intros u Hu Hne. unfold getUserId. rewrite Hu. simpl.
    unfold truthy. by rewrite bool_decide_true.
  - by apply Hnew.
  - intros u Hu. by apply Hknown.
  - destruct (userSessionCache s !! sid) as [u|] eqn:Hsid.
    + exists u, s. split; [by apply Hknown|].
      intros ctx' Hno' Hsid'. apply Hknown; [done|]. by rewrite Hsid'.
    + eexists _, _. split; [by apply Hnew|].
      intros ctx' Hno' Hsid'. apply Hknown; [done|].
      rewrite Hsid'. simpl. apply lookup_insert_eq.
Qed.

End IdentityClaims.

(** ** The connection check of [GmailAuth] *)

Section ConnectionClaims.
Context {W : Type} (env : Env W).
Implicit Types (s : State W) (userId : string).

(** C10: [checkConnection] and [getConnectedAccountId] always complete
    normally.  When the provider query throws [e], [checkConnection] logs it
    and resolves to [{connected: false, error: ...}], and
    [getConnectedAccountId] resolves to [null]. *)
Theorem C10_checkConnection_never_throws s userId :
  (∃ st s', GmailAuth.checkConnection env userId s = (Normal st, s'))
  ∧ (∃ id s', GmailAuth.getConnectedAccountId env userId s = (Normal id, s'))
  ∧ (∀ e w1,
       connectedAccounts_list env
         {| userIds := [userId];
            authConfigIds := Some [GmailAuth.GMAIL_AUTH_CONFIG_ID] |}
         (world s) = (Throw e, w1) →
       let s' :=
         mkState (mcpClientCache s) (toolsCache s) (authStatusCache s)
                 (userSessionCache s) w1
                 (trace s ++
                    [EvListAccounts
                       {| userIds := [userId];
                          authConfigIds :=
                            Some [GmailAuth.GMAIL_AUTH_CONFIG_ID] |};
                     EvConsoleError "[GmailAuth] Error checking connection:"
                                    e]) in
       GmailAuth.checkConnection env userId s
       = (Normal {| GmailAuth.cs_connected := false;
                    GmailAuth.cs_connectionId := None;
                    GmailAuth.cs_message := None;
                    GmailAuth.cs_error :=
                      Some ("Failed to check Gmail connection: " +:+ e) |},
          s')
       ∧ GmailAuth.getConnectedAccountId env userId s = (Normal None, s')).
Proof.
  unfold GmailAuth.getConnectedAccountId, GmailAuth.checkConnection,
    list_accounts.
  run.
  destruct (connectedAccounts_list env _ (world s)) as [[conns|e] w1] eqn:Hq;
    simpl.
  - split; [by eexists _, _|]. split; [|intros ?? [=]].
    destruct (_ && _); by eexists _, _.
  - split; [by eexists _, _|]. split; [by eexists _, _|].
    intros e' w1' [= <- <-]. by rewrite <- app_assoc.
Qed.

End ConnectionClaims.

(** * Further properties *)

(** ** What each program does to the maps *)

Section Effects.
Context {W : Type} (env : Env W).
Implicit Types (s : State W) (userId key url : string)
  (ctx : option RuntimeContext).

Lemma get_set_ne {V} (k k' : string) (v : V) (m : list (string * V)) :
  k ≠ k' → JSMap.get k' (JSMap.set k v m) = JSMap.get k' m.
Proof.
  intros Hne. induction m as [|[k0 v0] r IH]; simpl.
  - by rewrite decide_False.
  - destruct (decide (k = k0)) as [->|Hk]; simpl.
    + by rewrite !decide_False.
    + by rewrite IH.
Qed.

(** [getUserId]: no throw, no call to a collaborator but [uuidv4], and only
    the session map may change. *)
Lemma getUserId_effect ctx s :
  ∃ u s', getUserId env ctx s = (Normal u, s')
    ∧ mcpClientCache s' = mcpClientCache s
    ∧ toolsCache s' = toolsCache s
    ∧ authStatusCache s' = authStatusCache s
    ∧ trace s' = trace s
    ∧ (truthy_opt (ctx ≫= (.!! "userId")) = true →
       ctx ≫= (.!! "userId") = Some u ∧ s' = s)
    ∧ (truthy_opt (ctx ≫= (.!! "userId")) = false →
       userSessionCache s'
         !! js_or (ctx ≫= (.!! "sessionId")) "default-session" = Some u
       ∧ ∀ k, k ≠ js_or (ctx ≫= (.!! "sessionId")) "default-session" →
              userSessionCache s' !! k = userSessionCache s !! k).
Proof.
  assert (Hsession :
    truthy_opt (ctx ≫= (.!! "userId")) = false →
    ∃ u s', getUserId env ctx s = (Normal u, s')
      ∧ mcpClientCache s' = mcpClientCache s
      ∧ toolsCache s' = toolsCache s
      ∧ authStatusCache s' = authStatusCache s
      ∧ trace s' = trace s
      ∧ userSessionCache s'
          !! js_or (ctx ≫= (.!! "sessionId")) "default-session" = Some u
      ∧ ∀ k, k ≠ js_or (ctx ≫= (.!! "sessionId")) "default-session" →
             userSessionCache s' !! k = userSessionCache s !! k).
  { intros Hno. unfold getUserId, gen_uuid. rewrite Hno.
    set (sid := js_or _ _). run.
    destruct (userSessionCache s !! sid) as [u|] eqn:Hsid.
    - exists u, s. by do 5 (split; [done|]).
    - destruct (uuidv4 env (world s)) as [u w1]. simpl.
      eexists u, _. split; [reflexivity|]. simpl. rewrite app_nil_r.
      do 4 (split; [done|]).
      split; [apply lookup_insert_eq|]. intros k Hk.
      by apply lookup_insert_ne. }
  destruct (truthy_opt (ctx ≫= (.!! "userId"))) eqn:Ht.
  - destruct (ctx ≫= (.!! "userId")) as [u0|] eqn:Hu; [|done].
    exists u0, s. unfold getUserId. rewrite Hu. simpl in *. rewrite Ht.
    do 5 (split; [done|]). split; [done|]. intros ?. congruence.
  - destruct (Hsession eq_refl) as (u & s' & Hrun & ? & ? & ? & ? & ? & ?).
    exists u, s'. do 5 (split; [done|]). split; [intros ?; congruence|done].
Qed.

(** Asked again about the same context, [getUserId] gives the same answer
    and changes nothing, as long as the session map is as it left it. *)
Lemma getUserId_again ctx s u s' :
  getUserId env ctx s = (Normal u, s') →
  ∀ s2, userSessionCache s2 = userSessionCache s' →
        getUserId env ctx s2 = (Normal u, s2).
Proof.
  intros Hrun s2 Hs2.
  destruct (getUserId_effect ctx s)
    as (u1 & s1 & Hrun1 & _ & _ & _ & _ & Hyes & Hno).
  rewrite Hrun in Hrun1. injection Hrun1 as <- <-.
  destruct (truthy_opt (ctx ≫= (.!! "userId"))) eqn:Ht.
  - destruct (Hyes eq_refl) as [Hu _]. unfold getUserId. by rewrite Ht, Hu.
  - destruct (Hno eq_refl) as [Hsid _].
    apply getUserId_known_session; [done|]. by rewrite Hs2.
Qed.

(** [getCachedAuthStatus]: no throw; the entry under the user's key becomes
    the returned one and nothing else moves in the maps; the returned entry
    was cached or has just been built from the provider's answer; no MCP
    client is asked or closed. *)
Lemma getCachedAuthStatus_effect userId s :
  ∃ r s' new, getCachedAuthStatus env userId s = (Normal r, s')
    ∧ mcpClientCache s' = mcpClientCache s
    ∧ toolsCache s' = toolsCache s
    ∧ userSessionCache s' = userSessionCache s
    ∧ authStatusCache s' = <["auth-" +:+ userId := r]> (authStatusCache s)
    ∧ trace s' = trace s ++ new
    ∧ tool_fetch_errors new = []
    ∧ tool_fetches new = []
    ∧ disconnected new = []
    ∧ (authStatusCache s !! ("auth-" +:+ userId) = Some r
       ∨ ∃ res now, r = fetched_auth res now).
Proof.
  destruct (auth_hit_or_stale env s userId) as [(c & Hc & Hfresh)|Hstale].
  - rewrite (getCachedAuthStatus_hit env s userId c Hc Hfresh).
    eexists c, _, []. split; [reflexivity|]. simpl. rewrite app_nil_r.
    repeat (split; [done|]). split; [by rewrite insert_id|].
    repeat (split; [done|]). by left.
  - rewrite (getCachedAuthStatus_fetch env s userId Hstale). simpl.
    destruct (connectedAccounts_list env _ _) as [res w1].
    destruct (Date_now env w1) as [now w2].
    eexists _, _, _. split; [reflexivity|]. simpl.
    repeat (split; [done|]).
    split; [by destruct res|]. split; [by destruct res|].
    split; [by destruct res|]. right. by eexists _, _.
Qed.

(** [getCachedTools], once past [new URL]: no throw, no provider query, and
    nothing moves but the two slots of the key.  Three outcomes: a hit
    changes nothing; a fetch leaves the returned tools and a client under
    the key; a failed fetch returns the empty tool set and leaves both slots
    empty. *)
Lemma getCachedTools_effect key url userId s :
  url_passes env key url s →
  ∃ r s' new, getCachedTools env key url userId s = (Normal r, s')
    ∧ authStatusCache s' = authStatusCache s
    ∧ userSessionCache s' = userSessionCache s
    ∧ trace s' = trace s ++ new
    ∧ auth_fetches new = []
    ∧ (∀ k, k ≠ key →
            JSMap.get k (mcpClientCache s') = JSMap.get k (mcpClientCache s)
            ∧ toolsCache s' !! k = toolsCache s !! k)
    ∧ ((toolsCache s !! key = Some r ∧ s' = s)
       ∨ (toolsCache s !! key = None
          ∧ toolsCache s' !! key = Some r
          ∧ is_Some (JSMap.get key (mcpClientCache s'))
          ∧ tool_fetch_errors new = [])
       ∨ (toolsCache s !! key = None
          ∧ r = ∅
          ∧ toolsCache s' !! key = None
          ∧ JSMap.get key (mcpClientCache s') = None
          ∧ tool_fetch_errors new ≠ [])).
Proof.
  intros Hurl.
  destruct (toolsCache s !! key) as [tools|] eqn:Hc.
  { rewrite (getCachedTools_hit env s key url userId tools Hc).
    exists tools, s, []. rewrite app_nil_r.
    repeat (split; [done|]). by left. }
  assert (Hframe : ∀ k, k ≠ key →
    JSMap.get k (mcpClientCache (obtain_client env key url userId s).2)
    = JSMap.get k (mcpClientCache s)).
  { intros k Hk. unfold obtain_client.
    destruct (JSMap.get key (mcpClientCache s)); [done|].
    destruct (Date_now env (world s)). simpl. by apply get_set_ne. }
  pose proof (obtain_client_get env s key url userId) as Hget.
  assert (Hpre : ∃ pre,
    trace (obtain_client env key url userId s).2 = trace s ++ pre
    ∧ auth_fetches pre = [] ∧ tool_fetch_errors pre = []
    ∧ toolsCache (obtain_client env key url userId s).2 = toolsCache s
    ∧ authStatusCache (obtain_client env key url userId s).2
      = authStatusCache s
    ∧ userSessionCache (obtain_client env key url userId s).2
      = userSessionCache s).
  { unfold obtain_client.
    destruct (JSMap.get key (mcpClientCache s)).
    - exists []. by rewrite app_nil_r.
    - destruct (Date_now env (world s)). simpl. by eexists [_]. }
  destruct Hpre as (pre & Hpre & Hpa & Hpe & Hpt & Hpau & Hpu).
  rewrite (getCachedTools_miss env s key url userId Hc Hurl).
  destruct (obtain_client env key url userId s) as [c s0]. simpl in *.
  destruct (MCPClient_getTools env c (world s0)) as [[tools|e] w1].
  - eexists tools, _, (pre ++ [EvGetTools c]). split; [reflexivity|]. simpl.
    rewrite Hpre, <- app_assoc. repeat (split; [done|]).
    split; [unfold auth_fetches in *; by rewrite omap_app, Hpa|].
    split.
    { intros k Hk. split; [by apply Hframe|].
      rewrite lookup_insert_ne by done. by rewrite Hpt. }
    right. left. split; [done|]. split; [apply lookup_insert_eq|].
    split; [by rewrite Hget|].
    unfold tool_fetch_errors in *. by rewrite omap_app, Hpe.
  - rewrite (cleanupMCPClient_present env _ key c) by done. simpl.
    destruct (MCPClient_disconnect env c w1) as [res w2]. simpl.
    eexists ∅, _, (pre ++ _). split; [reflexivity|]. simpl.
    repeat (split; [done|]).
    split; [by rewrite Hpre, <- !app_assoc|].
    split.
    { unfold auth_fetches in *. rewrite omap_app, Hpa. simpl. by destruct res. }
    split.
    { intros k Hk. split.
      - rewrite get_delete_ne by done. by apply Hframe.
      - rewrite lookup_delete_ne by done. by rewrite Hpt. }
    right. right. split; [done|]. split; [done|].
    split; [apply lookup_delete_eq|]. split; [apply get_delete_eq|].
    unfold tool_fetch_errors in *. rewrite omap_app, Hpe. simpl. done.
Qed.

End Effects.

(** ** An invariant of the auth map, call after call *)

Section Invariants.
Context {W : Type} (env : Env W).
Implicit Types (s : State W) (userId key url : string)
  (ctx : option RuntimeContext).

Lemma preserves_bind {A B} (I : State W → Prop) (m : M W A) (f : A → M W B) :
  preserves I m → (∀ a, preserves I (f a)) → preserves I (m ≫= f).
Proof.
  intros Hm Hf s Hs. unfold mbind, M_bind. specialize (Hm s Hs).
  destruct (m s) as [[a|e] s']; simpl in *; [by apply Hf|done].
Qed.

Lemma preserves_ret {A} (I : State W → Prop) (a : A) : preserves I (mret a).
Proof. by intros s Hs. Qed.

(** The invariant survives whatever only removes auth entries. *)
Lemma auth_consistent_sub s s' :
  (∀ k a, authStatusCache s' !! k = Some a → authStatusCache s !! k = Some a) →
  auth_consistent s → auth_consistent s'.
Proof. intros Hsub Hs k a i Hk. apply (Hs k). by apply Hsub. Qed.

Lemma auth_consistent_ext s s' :
  authStatusCache s' = authStatusCache s →
  auth_consistent s → auth_consistent s'.
Proof. intros Heq. apply auth_consistent_sub. by rewrite Heq. Qed.

Lemma fetched_auth_consistent res now i :
  connectionId (fetched_auth res now) = Some i →
  connected (fetched_auth res now) = true ∧ i ≠ "".
Proof.
  destruct res as [conns|e]; simpl; [|done].
  destruct (List.find is_active_gmail conns) as [c|]; simpl; [|done].
  unfold truthy. destruct (bool_decide_reflect (conn_id c ≠ "")); [|done].
  by intros [= <-].
Qed.

Lemma inv_getUserId ctx : preserves auth_consistent (getUserId env ctx).
Proof.
  intros s Hs.
  destruct (getUserId_effect env ctx s) as (u & s' & -> & Hc & Ht & Ha & _).
  by apply (auth_consistent_ext s).
Qed.

Lemma inv_getCachedAuthStatus userId :
  preserves auth_consistent (getCachedAuthStatus env userId).
Proof.
  intros s Hauth.
  destruct (getCachedAuthStatus_effect env userId s)
    as (r & s' & new & -> & Hc & Ht & _ & Ha & _ & _ & _ & _ & Hr).
  simpl. unfold auth_consistent. rewrite Ha.
  intros k a i Hk Hi.
  destruct (decide (k = "auth-" +:+ userId)) as [->|Hne].
  - rewrite lookup_insert_eq in Hk. injection Hk as <-.
    destruct Hr as [Hr|(res & now & ->)]; [by eapply Hauth|].
    by apply fetched_auth_consistent.
  - rewrite lookup_insert_ne in Hk by done. by eapply Hauth.
Qed.

(** [getCachedTools] leaves the auth map alone, however it ends. *)
Lemma getCachedTools_auth key url userId s :
  authStatusCache (getCachedTools env key url userId s).2 = authStatusCache s.
Proof.
  destruct (toolsCache s !! key) as [tools|] eqn:Hhit.
  { by rewrite (getCachedTools_hit env s key url userId tools Hhit). }
  destruct (JSMap.get key (mcpClientCache s)) as [c|] eqn:Hget.
  - destruct (getCachedTools_effect env key url userId s)
      as (r & s' & new & -> & Ha & _); [|done].
    intros _ Hnone. congruence.
  - destruct (URL_error env url) as [e|] eqn:Hurl.
    + by rewrite (getCachedTools_bad_url env s key url userId e Hhit Hget Hurl).
    + destruct (getCachedTools_effect env key url userId s)
        as (r & s' & new & -> & Ha & _); [|done].
      by intros _ _.
Qed.

Lemma inv_getCachedTools key url userId :
  preserves auth_consistent (getCachedTools env key url userId).
Proof. intros s. apply auth_consistent_ext, getCachedTools_auth. Qed.

Lemma inv_delete_auth k s :
  auth_consistent s → auth_consistent (set_authStatusCache (delete k) s).
Proof.
  apply auth_consistent_sub. intros k' a Hk. simpl in Hk.
  by apply lookup_delete_Some in Hk as [_ Hk].
Qed.

(** The loop of [cleanupGmailAgent] never throws, whatever the keys. *)
Lemma for_of_cleanupMCPClient_normal keys :
  ∀ s, ∃ s', for_of keys (cleanupMCPClient env) s = (Normal tt, s').
Proof.
  induction keys as [|k keys IH]; intros s; [by exists s|].
  destruct (cleanupMCPClient_maps env s k) as (s1 & Hrun & _).
  destruct (IH s1) as (s' & Hrest). exists s'. simpl.
  unfold mbind, M_bind. by rewrite Hrun.
Qed.

Lemma inv_cleanupGmailAgent : preserves auth_consistent (cleanupGmailAgent env).
Proof.
  intros s _. unfold cleanupGmailAgent. run.
  destruct (for_of_cleanupMCPClient_normal (JSMap.keys (mcpClientCache s)) s)
    as (s1 & ->).
  intros k a i. simpl. by rewrite lookup_empty.
Qed.

Lemma inv_cleanupMCPClient_resume j :
  preserves auth_consistent (cleanupMCPClient_resume (W := W) j).
Proof. intros s. rewrite cleanupMCPClient_resume_run. by apply auth_consistent_ext. Qed.

Lemma inv_clearGmailAgentCache userId :
  preserves auth_consistent (clearGmailAgentCache env userId).
Proof.
  unfold clearGmailAgentCache.
  apply preserves_bind; [intros s Hs; by apply inv_delete_auth|]. intros _.
  apply preserves_bind.
  { intros s. destruct (cleanupMCPClient_start_effect env s
                          ("gmail-" +:+ userId +:+ "-unauth"))
      as (j & s' & -> & _ & Ha & _). by apply auth_consistent_ext. }
  intros first. apply preserves_bind; [|intros; apply preserves_ret].
  intros s. destruct (cleanupMCPClient_start_effect env s
                        ("gmail-" +:+ userId +:+ "-null"))
    as (j & s' & -> & _ & Ha & _). by apply auth_consistent_ext.
Qed.

Lemma inv_authorizeTool_execute userId :
  preserves auth_consistent (authorizeTool_execute env userId).
Proof.
  intros s Hs. unfold authorizeTool_execute, authorize. run.
  destruct (toolkits_authorize env userId "gmail" (world s)) as [[req|e] w1];
    simpl.
  - apply (inv_delete_auth _ (mkState _ _ _ _ _ _)).
    by apply (auth_consistent_ext s).
  - by apply (auth_consistent_ext s).
Qed.

Lemma inv_clearUserSession sessionId :
  preserves auth_consistent (clearUserSession (W := W) sessionId).
Proof.
  intros s Hs. unfold clearUserSession.
  destruct (truthy_opt sessionId); by apply (auth_consistent_ext s).
Qed.

Lemma inv_agent_tools ctx : preserves auth_consistent (agent_tools env ctx).
Proof.
  unfold agent_tools.
  apply preserves_bind; [apply inv_getUserId|]. intros userId.
  apply preserves_bind; [apply inv_getCachedAuthStatus|]. intros authStatus.
  apply preserves_bind; [apply inv_getCachedTools|]. intros allTools.
  apply preserves_ret.
Qed.

Lemma inv_agent_instructions ctx :
  preserves auth_consistent (agent_instructions env ctx).
Proof.
  unfold agent_instructions.
  apply preserves_bind; [apply inv_getUserId|]. intros userId.
  apply preserves_bind; [apply inv_getCachedAuthStatus|]. intros authStatus.
  destruct (connected authStatus); apply preserves_ret.
Qed.

Lemma inv_step p c :
  auth_consistent (proc_state p) → auth_consistent (proc_state (step env p c)).
Proof.
  intros Hs. destruct c as [ctx|ctx|u| |u|sid|n|w]; simpl.
  - by apply inv_agent_instructions.
  - by apply inv_agent_tools.
  - by apply inv_authorizeTool_execute.
  - by apply inv_cleanupGmailAgent.
  - pose proof (inv_clearGmailAgentCache u (proc_state p) Hs) as Hclear.
    by destruct (clearGmailAgentCache env u (proc_state p)).
  - by apply inv_clearUserSession.
  - destruct (proc_suspended p !! n) as [j|]; [|done].
    by apply inv_cleanupMCPClient_resume.
  - by apply (auth_consistent_ext (proc_state p)).
Qed.

(** Whatever has been asked of the module since it was loaded, and whichever
    suspended cleanups have resumed in between, the invariant holds. *)
Lemma inv_history w calls : auth_consistent (proc_state (history env w calls)).
Proof.
  unfold history.
  assert (H0 : auth_consistent (proc_state (loaded w))).
  { intros k a i. simpl. by rewrite lookup_empty. }
  revert H0. generalize (loaded w). induction calls as [|c calls IH]; intros p Hp.
  - done.
  - simpl. by apply IH, inv_step.
Qed.

(** After any sequence of calls, every cached auth status that carries a
    connection id is a connected one, and the id is not empty. *)
Theorem cached_connection_id_means_connected w calls k a i :
  authStatusCache (proc_state (history env w calls)) !! k = Some a →
  connectionId a = Some i →
  connected a = true ∧ i ≠ "".
Proof. apply inv_history. Qed.

End Invariants.

(** ** The auth-status lookup, seen from its callers *)

Section AuthLookup.
Context {W : Type} (env : Env W).
Implicit Types (s : State W) (userId key url : string).

(** [getCachedAuthStatus] never throws, and it is confined to the entry of
    the user it is asked about: that entry becomes the returned status,
    the entries of all other users and the three other maps stay as they
    are, and no MCP client is asked for tools or disconnected. *)
Theorem getCachedAuthStatus_touches_only_own_entry s userId :
  ∃ r s', getCachedAuthStatus env userId s = (Normal r, s')
    ∧ authStatusCache s' !! ("auth-" +:+ userId) = Some r
    ∧ (∀ other, other ≠ userId →
         authStatusCache s' !! ("auth-" +:+ other)
         = authStatusCache s !! ("auth-" +:+ other))
    ∧ mcpClientCache s' = mcpClientCache s
    ∧ toolsCache s' = toolsCache s
    ∧ userSessionCache s' = userSessionCache s
    ∧ tool_fetches (trace s') = tool_fetches (trace s)
    ∧ disconnected (trace s') = disconnected (trace s).
Proof.
  destruct (getCachedAuthStatus_effect env userId s)
    as (r & s' & new & Hrun & Hc & Ht & Hu & Ha & Htr & _ & Hf & Hd & _).
  exists r, s'. split; [done|]. rewrite Ha.
  split; [apply lookup_insert_eq|]. split.
  { intros other Hne. apply lookup_insert_ne.
    intros Heq. by apply (inj (String.app "auth-")) in Heq. }
  do 3 (split; [done|]). rewrite Htr.
  unfold tool_fetches, disconnected in *. rewrite !omap_app, Hf, Hd.
  by rewrite !app_nil_r.
Qed.

(** An auth entry whose age has reached the TTL is not used: the provider
    is queried once more, and the entry is replaced by one stamped with the
    clock as read after the provider answered. *)
Theorem auth_entry_is_refetched_at_ttl s userId c :
  authStatusCache s !! ("auth-" +:+ userId) = Some c →
  CACHE_TTL ≤ (Date_now env (world s)).1 - timestamp c →
  ∃ r s', getCachedAuthStatus env userId s = (Normal r, s')
    ∧ authStatusCache s' !! ("auth-" +:+ userId) = Some r
    ∧ timestamp r
      = (Date_now env
           (connectedAccounts_list env
              {| userIds := [userId]; authConfigIds := None |}
              (Date_now env (world s)).2).2).1
    ∧ auth_fetches (trace s')
      = auth_fetches (trace s)
        ++ [{| userIds := [userId]; authConfigIds := None |}].
Proof.
  intros Hc Hold.
  assert (Hstale : auth_stale env userId s).
  { unfold auth_stale. by rewrite Hc. }
  rewrite (getCachedAuthStatus_fetch env s userId Hstale). simpl.
  unfold world_after_check. rewrite Hc.
  destruct (connectedAccounts_list env _ _) as [res w1]. simpl.
  destruct (Date_now env w1) as [now w2]. simpl.
  eexists _, _. split; [reflexivity|]. simpl.
  split; [apply lookup_insert_eq|]. split; [by destruct res|].
  unfold auth_fetches. rewrite omap_app. simpl. by destruct res.
Qed.

(** What a fresh status says about the provider's answer: it is connected
    exactly when the answer lists a connection of toolkit [gmail] with
    status [ACTIVE]; a connection id it carries is the non-empty id of such
    a connection; and it is connected without an id only when such a
    connection has an empty id. *)
Theorem fresh_status_reflects_active_gmail_connection s userId conns w1 :
  auth_stale env userId s →
  connectedAccounts_list env
    {| userIds := [userId]; authConfigIds := None |}
    (world_after_check env userId s) = (Normal conns, w1) →
  ∃ r s', getCachedAuthStatus env userId s = (Normal r, s')
    ∧ (connected r = true
       ↔ ∃ c, c ∈ conns ∧ conn_toolkit_slug c = "gmail"
              ∧ conn_status c = "ACTIVE")
    ∧ (∀ i, connectionId r = Some i →
         i ≠ "" ∧ ∃ c, c ∈ conns ∧ conn_id c = i
                       ∧ conn_toolkit_slug c = "gmail"
                       ∧ conn_status c = "ACTIVE")
    ∧ (connected r = true → connectionId r = None →
       ∃ c, c ∈ conns ∧ conn_id c = ""
            ∧ conn_toolkit_slug c = "gmail" ∧ conn_status c = "ACTIVE").
Proof.
  intros Hstale Hlist.
  rewrite (getCachedAuthStatus_fetch env s userId Hstale). simpl.
  rewrite Hlist. destruct (Date_now env w1) as [now w2].
  eexists _, _. split; [reflexivity|]. simpl.
  assert (Hactive : ∀ c, is_active_gmail c = true
    ↔ conn_toolkit_slug c = "gmail" ∧ conn_status c = "ACTIVE").
  { intros c. unfold is_active_gmail.
    rewrite andb_true_iff, !bool_decide_eq_true. done. }
  destruct (List.find is_active_gmail conns) as [c|] eqn:Hfind; simpl.
  - apply find_some in Hfind as [Hin Hc]. apply list_elem_of_In in Hin.
    apply Hactive in Hc as [Hslug Hstatus].
    split; [split; [intros _; by exists c|done]|].
    unfold truthy. destruct (bool_decide_reflect (conn_id c ≠ "")) as [Hid|Hid].
    + split; [|done]. intros i [= <-]. split; [done|]. by exists c.
    + split; [done|]. intros _ _. exists c. split; [done|].
      split; [|done]. by destruct (decide (conn_id c = "")).
  - split; [|done]. split; [done|]. intros (c & Hin & Hslug & Hstatus).
    apply list_elem_of_In in Hin.
    pose proof (find_none _ _ Hfind c Hin) as Hno.
    assert (is_active_gmail c = true) by by apply Hactive.
    congruence.
Qed.

(** When [toolkits.authorize] throws, the [authorize_gmail] tool does not:
    it logs the error and answers with a failure object, and the cached
    auth status is not cleared - no map changes. *)
Theorem authorize_failure_changes_no_cache s userId e w1 :
  toolkits_authorize env userId "gmail" (world s) = (Throw e, w1) →
  authorizeTool_execute env userId s
  = (Normal (AuthorizeFailed
               ("Failed to initiate Gmail authorization: " +:+ e)
               "Please try again or check your Composio configuration."),
     mkState (mcpClientCache s) (toolsCache s) (authStatusCache s)
             (userSessionCache s) w1
             (trace s ++
                [EvAuthorize userId "gmail";
                 EvConsoleError "Error during Gmail authorization:" e])).
Proof.
  intros Hauth. unfold authorizeTool_execute, authorize. run.
  rewrite Hauth. simpl. by rewrite <- app_assoc.
Qed.

End AuthLookup.

(** ** Clients and tool sets, key by key *)

Section ToolLookup.
Context {W : Type} (env : Env W).
Implicit Types (s : State W) (userId key url : string).

(** [cleanupMCPClient] is confined to its key: the clients and tool sets
    under all other keys, the auth map and the session map stay as they
    are, and neither the provider nor any client's tool list is asked. *)
Theorem cleanupMCPClient_touches_only_its_key s key :
  ∃ s', cleanupMCPClient env key s = (Normal tt, s')
    ∧ (∀ k, k ≠ key →
         JSMap.get k (mcpClientCache s') = JSMap.get k (mcpClientCache s)
         ∧ toolsCache s' !! k = toolsCache s !! k)
    ∧ authStatusCache s' = authStatusCache s
    ∧ userSessionCache s' = userSessionCache s
    ∧ auth_fetches (trace s') = auth_fetches (trace s)
    ∧ tool_fetches (trace s') = tool_fetches (trace s).
Proof.
  assert (Hframe : ∀ k, k ≠ key →
    JSMap.get k (JSMap.delete key (mcpClientCache s))
    = JSMap.get k (mcpClientCache s)
    ∧ delete key (toolsCache s) !! k = toolsCache s !! k).
  { intros k Hk. by rewrite get_delete_ne, lookup_delete_ne. }
  destruct (JSMap.get key (mcpClientCache s)) as [c|] eqn:Hget.
  - rewrite (cleanupMCPClient_present env s key c Hget).
    destruct (MCPClient_disconnect env c (world s)) as [res w'].
    eexists. split; [reflexivity|]. simpl. split; [done|].
    do 2 (split; [done|]).
    unfold auth_fetches, tool_fetches. rewrite !omap_app. simpl.
    destruct res; simpl; by rewrite !app_nil_r.
  - rewrite (cleanupMCPClient_absent env s key Hget).
    eexists. split; [reflexivity|]. simpl. split; [|done].
    intros k Hk. split; [done|]. by apply lookup_delete_ne.
Qed.

(** [getCachedTools] throws one error only, and never queries the
    provider.  When [new URL(url)] is not reached (the key has tools or a
    client) or accepts the URL, the call completes normally and is confined
    to its key: the clients and tool sets under all other keys, the auth map
    and the session map stay as they are, and it returns the tool set now
    cached under the key, or the empty tool set with neither a tool set nor
    a client left under the key.  When the key has neither tools nor client
    and [new URL] rejects the URL, the call throws that [TypeError], and
    nothing has happened but a reading of the clock: no map has changed and
    no call has been recorded. *)
Theorem getCachedTools_touches_only_its_key s key url userId :
  (url_passes env key url s →
   ∃ r s', getCachedTools env key url userId s = (Normal r, s')
     ∧ (toolsCache s' !! key = Some r
        ∨ (r = ∅ ∧ toolsCache s' !! key = None
           ∧ JSMap.get key (mcpClientCache s') = None))
     ∧ (∀ k, k ≠ key →
          JSMap.get k (mcpClientCache s') = JSMap.get k (mcpClientCache s)
          ∧ toolsCache s' !! k = toolsCache s !! k)
     ∧ authStatusCache s' = authStatusCache s
     ∧ userSessionCache s' = userSessionCache s
     ∧ auth_fetches (trace s') = auth_fetches (trace s))
  ∧ (∀ e,
       toolsCache s !! key = None →
       JSMap.get key (mcpClientCache s) = None →
       URL_error env url = Some e →
       ∃ s', getCachedTools env key url userId s = (Throw e, s')
         ∧ mcpClientCache s' = mcpClientCache s
         ∧ toolsCache s' = toolsCache s
         ∧ authStatusCache s' = authStatusCache s
         ∧ userSessionCache s' = userSessionCache s
         ∧ trace s' = trace s).
Proof.
  split.
  - intros Hurl.
    destruct (getCachedTools_effect env key url userId s Hurl)
      as (r & s' & new & Hrun & Ha & Hu & Htr & Hnew & Hframe & Hout).
    exists r, s'. split; [done|]. split.
    { destruct Hout as [(Hhit & ->)|[(_ & Ht & _)|(_ & -> & Ht & Hc & _)]].
      - by left.
      - by left.
      - by right. }
    do 3 (split; [done|]). rewrite Htr. unfold auth_fetches in *.
    by rewrite omap_app, Hnew, app_nil_r.
  - intros e Hmiss Hget Hurl.
    rewrite (getCachedTools_bad_url env s key url userId e Hmiss Hget Hurl).
    by eexists.
Qed.

(** A client already cached under the key is reused, not replaced: on a
    tool-cache miss no client is created, the cached client is the one
    asked for its tools, and when it answers it stays in the map as it
    was. *)
Theorem cached_client_is_reused s key url userId c :
  toolsCache s !! key = None →
  JSMap.get key (mcpClientCache s) = Some c →
  ∃ r s' tail, getCachedTools env key url userId s = (Normal r, s')
    ∧ trace s' = trace s ++ EvGetTools c :: tail
    ∧ (∀ c', EvNewClient c' ∉ tail)
    ∧ (∀ tools w1,
         MCPClient_getTools env c (world s) = (Normal tools, w1) →
         r = tools ∧ mcpClientCache s' = mcpClientCache s
         ∧ toolsCache s' = <[key := tools]> (toolsCache s)).
Proof.
  intros Hmiss Hget.
  rewrite (getCachedTools_miss env s key url userId Hmiss)
    by (intros _ Hnone; congruence).
  unfold obtain_client. rewrite Hget.
  destruct (MCPClient_getTools env c (world s)) as [[tools|e] w1].
  - eexists _, _, []. split; [reflexivity|]. simpl. split; [done|].
    split; [intros c'; apply not_elem_of_nil|].
    by intros ? ? [= <- <-].
  - rewrite (cleanupMCPClient_present env _ key c) by done. simpl.
    destruct (MCPClient_disconnect env c w1) as [res w2]. simpl.
    eexists _, _, _. split; [reflexivity|]. simpl.
    split; [by rewrite <- app_assoc|]. split; [|done].
    intros c' Hin.
    destruct res; simpl in Hin;
      repeat (apply elem_of_cons in Hin as [Hin|Hin]; [discriminate|]);
      by apply elem_of_nil in Hin.
Qed.

End ToolLookup.

(** ** Cleanups that nobody awaits *)

Section SuspendedCleanups.
Context {W : Type}.
Implicit Types (s : State W) (j : Suspended).

(** A suspended cleanup removes whatever is cached under its key when it
    resumes, and calls no [disconnect] then.  A client that was put under
    the key after the cleanup was suspended - not the client the cleanup
    called [disconnect] on - is therefore dropped from the map without ever
    having been disconnected, together with its tool set; the clients and
    tool sets under all other keys stay as they are. *)
Theorem suspended_cleanup_drops_later_client s j c :
  JSMap.get (sus_key j) (mcpClientCache s) = Some c →
  c ∉ disconnected (trace s) →
  ∃ s', cleanupMCPClient_resume j s = (Normal tt, s')
    ∧ JSMap.get (sus_key j) (mcpClientCache s') = None
    ∧ toolsCache s' !! sus_key j = None
    ∧ (c ∉ disconnected (trace s'))
    ∧ (∀ k, k ≠ sus_key j →
         JSMap.get k (mcpClientCache s') = JSMap.get k (mcpClientCache s)
         ∧ toolsCache s' !! k = toolsCache s !! k).
Proof.
  intros Hget Hnot. rewrite cleanupMCPClient_resume_run.
  eexists. split; [reflexivity|]. simpl.
  split; [apply get_delete_eq|]. split; [apply lookup_delete_eq|]. split.
  - rewrite disconnected_app.
    destruct (sus_outcome j); simpl; by rewrite app_nil_r.
  - intros k Hk. by rewrite get_delete_ne, lookup_delete_ne.
Qed.

End SuspendedCleanups.

(** ** Requests to the agent *)

Section AgentRequests.
Context {W : Type} (env : Env W).
Implicit Types (s : State W) (ctx : option RuntimeContext).

(** The [tools] function never throws - not when the provider is down, not
    when the MCP server is.  What it returns is the tool set left in the
    cache for the user's key (none, after a failed fetch) plus the
    [authorize_gmail] tool for this user; a server tool named
    [authorize_gmail] takes that name. *)
Theorem tools_offers_cached_tools_and_authorize_gmail s ctx :
  ∃ u st r s', agent_tools env ctx s = (Normal r, s')
    ∧ (getUserId env ctx s).1 = Normal u
    ∧ authStatusCache s' !! ("auth-" +:+ u) = Some st
    ∧ (∀ name def,
         default ∅ (toolsCache s' !! toolsCacheKey u st) !! name = Some def →
         r !! name = Some (McpTool def))
    ∧ (default ∅ (toolsCache s' !! toolsCacheKey u st) !! "authorize_gmail"
       = None →
       r !! "authorize_gmail" = Some (AuthorizeTool u))
    ∧ (∀ name,
         name ≠ "authorize_gmail" →
         default ∅ (toolsCache s' !! toolsCacheKey u st) !! name = None →
         r !! name = None).
Proof.
  destruct (getUserId_effect env ctx s) as (u & sA & HA & _).
  destruct (getCachedAuthStatus_effect env u sA)
    as (st & sB & nb & HB & _ & _ & _ & Hauth & _).
  destruct (getCachedTools_effect env (toolsCacheKey u st) (mcpUrl st) u sB
              (mcpUrl_passes env _ st sB))
    as (tools & sC & nc & HC & Ha & _ & _ & _ & _ & Hout).
  exists u, st, ((McpTool <$> tools) ∪ {[ "authorize_gmail" := AuthorizeTool u ]}),
    sC.
  split.
  { unfold agent_tools, mbind, M_bind. rewrite HA. cbn beta iota.
    rewrite HB. cbn beta iota zeta. by rewrite HC. }
  split; [by rewrite HA|].
  split; [rewrite Ha, Hauth; apply lookup_insert_eq|].
  assert (Hcached :
    default ∅ (toolsCache sC !! toolsCacheKey u st) = tools).
  { destruct Hout as [(Hhit & ->)|[(_ & -> & _)|(_ & -> & -> & _)]];
      [by rewrite Hhit|done|done]. }
  rewrite Hcached. split; [|split].
  - intros name def Hdef. apply lookup_union_Some_l.
    by rewrite lookup_fmap, Hdef.
  - intros Hnone. rewrite lookup_union_r by by rewrite lookup_fmap, Hnone.
    apply lookup_singleton_eq.
  - intros name Hne Hnone. apply lookup_union_None_2.
    + by rewrite lookup_fmap, Hnone.
    + by apply lookup_singleton_ne.
Qed.

(** A repeated [tools] request is served from the caches.  After a first
    request that logged no tool-fetch failure, a second request for the
    same context, started in any world [w] whose clock reads less than the
    TTL past the cached status, returns the same object and changes nothing
    in the maps or the trace: no user id is generated, the provider is not
    queried, no client is created or asked. *)
Theorem repeated_tools_request_is_served_from_caches s ctx :
  ∃ u st r1 s1, agent_tools env ctx s = (Normal r1, s1)
    ∧ (getUserId env ctx s).1 = Normal u
    ∧ authStatusCache s1 !! ("auth-" +:+ u) = Some st
    ∧ (tool_fetch_errors (trace s1) = tool_fetch_errors (trace s) →
       ∀ w, (Date_now env w).1 - timestamp st < CACHE_TTL →
            agent_tools env ctx (with_world w s1)
            = (Normal r1, with_world (Date_now env w).2 s1)).
Proof.
  destruct (getUserId_effect env ctx s)
    as (u & sA & HA & _ & _ & _ & HtrA & _).
  destruct (getCachedAuthStatus_effect env u sA)
    as (st & sB & nb & HB & _ & _ & HuB & Hauth & HtrB & HeB & _).
  destruct (getCachedTools_effect env (toolsCacheKey u st) (mcpUrl st) u sB
              (mcpUrl_passes env _ st sB))
    as (tools & sC & nc & HC & Ha & HuC & HtrC & _ & _ & Hout).
  exists u, st, ((McpTool <$> tools) ∪ {[ "authorize_gmail" := AuthorizeTool u ]}),
    sC.
  assert (Hst : authStatusCache sC !! ("auth-" +:+ u) = Some st).
  { rewrite Ha, Hauth. apply lookup_insert_eq. }
  split.
  { unfold agent_tools, mbind, M_bind. rewrite HA. cbn beta iota.
    rewrite HB. cbn beta iota zeta. by rewrite HC. }
  split; [by rewrite HA|].
  split; [done|]. intros Hnoerr w Hfresh.
  assert (Htools : toolsCache sC !! toolsCacheKey u st = Some tools).
  { destruct Hout as [(Hhit & ->)|[(_ & Ht & _)|(_ & _ & _ & _ & Herr)]];
      [done|done|].
    exfalso. apply Herr.
    rewrite HtrC, HtrB, HtrA in Hnoerr. unfold tool_fetch_errors in *.
    rewrite !omap_app, HeB in Hnoerr. simpl in Hnoerr.
    apply (f_equal length) in Hnoerr. rewrite !length_app in Hnoerr.
    destruct (omap _ nc); [done|]. simpl in Hnoerr. lia. }
  unfold agent_tools, mbind, M_bind.
  rewrite (getUserId_again env ctx s u sA HA (with_world w sC))
    by (simpl; by rewrite HuC, HuB).
  cbn beta iota.
  rewrite (getCachedAuthStatus_hit env (with_world w sC) u st Hst Hfresh).
  cbn beta iota zeta.
  by rewrite (getCachedTools_hit env
                (with_world (Date_now env (world (with_world w sC))).2
                            (with_world w sC))
                (toolsCacheKey u st) (mcpUrl st) u tools Htools).
Qed.

(** [instructions] and [tools] work from one cached status.  The prompt
    says connected exactly when the status left in the cache is.  A [tools]
    request for the same context within the TTL resolves the same user and
    leaves the session map alone, reads that status from the cache without
    a provider query, and returns exactly the tool set cached under the key
    of that user and that status, plus [authorize_gmail]; the client and the
    tool set under every other key stay as they are. *)
Theorem instructions_and_tools_share_the_cached_status s ctx :
  ∃ u st text s1, agent_instructions env ctx s = (Normal text, s1)
    ∧ (getUserId env ctx s).1 = Normal u
    ∧ authStatusCache s1 !! ("auth-" +:+ u) = Some st
    ∧ text = (if connected st
              then instructions_connected (default "null" (connectionId st))
              else instructions_unauthenticated)
    ∧ ∀ w, (Date_now env w).1 - timestamp st < CACHE_TTL →
        ∃ r s2, agent_tools env ctx (with_world w s1) = (Normal r, s2)
          ∧ getUserId env ctx (with_world w s1) = (Normal u, with_world w s1)
          ∧ getCachedAuthStatus env u (with_world w s1)
            = (Normal st, with_world (Date_now env w).2 s1)
          ∧ r = (McpTool <$> default ∅ (toolsCache s2 !! toolsCacheKey u st))
                ∪ {[ "authorize_gmail" := AuthorizeTool u ]}
          ∧ (∀ k, k ≠ toolsCacheKey u st →
               JSMap.get k (mcpClientCache s2) = JSMap.get k (mcpClientCache s1)
               ∧ toolsCache s2 !! k = toolsCache s1 !! k)
          ∧ auth_fetches (trace s2) = auth_fetches (trace s1)
          ∧ authStatusCache s2 = authStatusCache s1
          ∧ userSessionCache s2 = userSessionCache s1.
Proof.
  destruct (getUserId_effect env ctx s) as (u & sA & HA & _).
  destruct (getCachedAuthStatus_effect env u sA)
    as (st & sB & nb & HB & _ & _ & HuB & Hauth & _).
  exists u, st, (if connected st
                 then instructions_connected (default "null" (connectionId st))
                 else instructions_unauthenticated), sB.
  assert (Hst : authStatusCache sB !! ("auth-" +:+ u) = Some st).
  { rewrite Hauth. apply lookup_insert_eq. }
  split.
  { unfold agent_instructions, mbind, M_bind. rewrite HA. cbn beta iota.
    rewrite HB. cbn beta iota. by destruct (connected st). }
  split; [by rewrite HA|].
  do 2 (split; [done|]). intros w Hfresh.
  destruct (getCachedTools_effect env (toolsCacheKey u st) (mcpUrl st) u
              (with_world (Date_now env w).2 sB)
              (mcpUrl_passes env _ st _))
    as (tools & sC & nc & HC & Ha & HuC & HtrC & Hnew & Hframe & Hout).
  pose proof (getUserId_again env ctx s u sA HA (with_world w sB)) as Hagain.
  rewrite Hagain by (simpl; by rewrite HuB).
  pose proof (getCachedAuthStatus_hit env (with_world w sB) u st Hst Hfresh)
    as Hhit.
  change (with_world (Date_now env (world (with_world w sB))).2
                     (with_world w sB))
    with (with_world (Date_now env w).2 sB) in Hhit.
  rewrite Hhit.
  exists ((McpTool <$> tools) ∪ {[ "authorize_gmail" := AuthorizeTool u ]}), sC.
  split.
  { unfold agent_tools, mbind, M_bind. rewrite Hagain by (simpl; by rewrite HuB).
    cbn beta iota. rewrite Hhit. cbn beta iota zeta. by rewrite HC. }
  do 2 (split; [done|]).
  assert (Hcached :
    default ∅ (toolsCache sC !! toolsCacheKey u st) = tools).
  { destruct Hout as [(Hhit' & ->)|[(_ & -> & _)|(_ & -> & -> & _)]];
      [by rewrite Hhit'|done|done]. }
  split; [by rewrite Hcached|]. split; [exact Hframe|].
  split; [|done]. rewrite HtrC. simpl. unfold auth_fetches in *.
  by rewrite omap_app, Hnew, app_nil_r.
Qed.

(** A session that is not in the map gets what [uuidv4] returns. *)
Lemma getUserId_new_session ctx s :
  truthy_opt (ctx ≫= (.!! "userId")) = false →
  userSessionCache s !! js_or (ctx ≫= (.!! "sessionId")) "default-session"
  = None →
  (getUserId env ctx s).1 = Normal (uuidv4 env (world s)).1.
Proof.
  intros Hc Hnone. unfold getUserId, gen_uuid. rewrite Hc.
  set (k := js_or _ _) in *. run. rewrite Hnone.
  by destruct (uuidv4 env (world s)).
Qed.

(** Forgetting a session.  After [clearUserSession] on the session of a
    context without user id, that context gets a newly generated user id;
    every other session keeps the user id it had; and a call without a
    session id - or with the empty one - forgets all sessions at once. *)
Theorem cleared_session_gets_a_new_identity s ctx ctx' o :
  truthy_opt (ctx ≫= (.!! "userId")) = false →
  truthy_opt (ctx' ≫= (.!! "userId")) = false →
  (getUserId env ctx
     (clearUserSession
        (Some (js_or (ctx ≫= (.!! "sessionId")) "default-session")) s).2).1
  = Normal (uuidv4 env (world s)).1
  ∧ (js_or (ctx' ≫= (.!! "sessionId")) "default-session"
     ≠ js_or (ctx ≫= (.!! "sessionId")) "default-session" →
     ∀ u',
       userSessionCache s
         !! js_or (ctx' ≫= (.!! "sessionId")) "default-session" = Some u' →
       (getUserId env ctx'
          (clearUserSession
             (Some (js_or (ctx ≫= (.!! "sessionId")) "default-session"))
             s).2).1
       = Normal u')
  ∧ (truthy_opt o = false →
     (getUserId env ctx' (clearUserSession o s).2).1
     = Normal (uuidv4 env (world s)).1).
Proof.
  intros Hno Hno'.
  set (sid := js_or (ctx ≫= (.!! "sessionId")) "default-session").
  set (sid' := js_or (ctx' ≫= (.!! "sessionId")) "default-session").
  assert (Hsid : truthy sid = true).
  { subst sid. unfold js_or. destruct (ctx ≫= (.!! "sessionId")) as [x|]; [|done].
    by destruct (truthy x) eqn:Hx. }
  pose proof getUserId_new_session as Hnew.
  split; [|split].
  - unfold clearUserSession. simpl. rewrite Hsid. simpl.
    apply (Hnew ctx (set_userSessionCache (delete sid) s) Hno).
    simpl. apply lookup_delete_eq.
  - intros Hne u' Hu'. unfold clearUserSession. simpl. rewrite Hsid. simpl.
    rewrite (getUserId_known_session env ctx' _ u' Hno'); [done|].
    simpl. fold sid'. by rewrite lookup_delete_ne.
  - intros Ho. unfold clearUserSession. rewrite Ho. simpl.
    apply (Hnew ctx' (set_userSessionCache (λ _, ∅) s) Hno').
    simpl. apply lookup_empty.
Qed.

(** The tool-cache key does not tell users apart when their ids contain a
    dash: what was cached for user [u] with connection [x-c] is served, as
    a cache hit, to user [u-x] with connection [c]. *)
Theorem tools_cache_key_is_shared_across_users s u x c t t' url tools :
  c ≠ "" →
  toolsCache s
    !! toolsCacheKey u {| connected := true;
                          connectionId := Some (x +:+ "-" +:+ c);
                          timestamp := t |} = Some tools →
  getCachedTools env
    (toolsCacheKey (u +:+ "-" +:+ x)
       {| connected := true; connectionId := Some c; timestamp := t' |})
    url (u +:+ "-" +:+ x) s
  = (Normal tools, s).
Proof.
  intros Hc Hcached. apply getCachedTools_hit.
  rewrite <- Hcached. f_equal. unfold toolsCacheKey, js_or. simpl.
  assert (Hassoc : ∀ a b d : string, (a +:+ b) +:+ d = a +:+ (b +:+ d)).
  { intros a b d. induction a as [|ch a IH]; [done|].
    change ((String ch a +:+ b) +:+ d) with (String ch ((a +:+ b) +:+ d)).
    change (String ch a +:+ (b +:+ d)) with (String ch (a +:+ (b +:+ d))).
    by rewrite IH. }
  assert (Hx : truthy (x +:+ "-" +:+ c) = true).
  { unfold truthy. apply bool_decide_eq_true. by destruct x. }
  assert (Hc' : truthy c = true).
  { unfold truthy. by apply bool_decide_eq_true. }
  rewrite Hx, Hc'. by rewrite !Hassoc.
Qed.

(** On a key with neither tools nor client, the client [getCachedTools]
    creates carries the URL it was given and an id made of the user id and
    the clock, and it is the client asked for its tools. *)
Lemma getCachedTools_cold_client s key url userId :
  toolsCache s !! key = None →
  JSMap.get key (mcpClientCache s) = None →
  URL_error env url = None →
  ∃ r s2 tail,
    getCachedTools env key url userId s = (Normal r, s2)
    ∧ trace s2
      = trace s ++
          EvNewClient
            {| client_id := "gmail-mcp-" +:+ userId +:+ "-"
                            +:+ pretty (Date_now env (world s)).1;
               client_url := url |}
          :: EvGetTools
               {| client_id := "gmail-mcp-" +:+ userId +:+ "-"
                               +:+ pretty (Date_now env (world s)).1;
                  client_url := url |}
          :: tail.
Proof.
  intros Hmiss Hnone Hurl.
  rewrite (getCachedTools_miss env s key url userId Hmiss)
    by by apply url_accepted_passes.
  unfold obtain_client. rewrite Hnone.
  destruct (Date_now env (world s)) as [now w0]. simpl.
  set (c := {| client_id := _; client_url := url |}).
  destruct (MCPClient_getTools env c w0) as [[tools|e] w1].
  - eexists _, _, []. split; [reflexivity|]. simpl. by rewrite <- app_assoc.
  - rewrite (cleanupMCPClient_present env _ key c)
      by (simpl; apply get_set_eq).
    simpl. destruct (MCPClient_disconnect env c w1) as [res w2]. simpl.
    eexists _, _, _. split; [reflexivity|]. simpl.
    by rewrite <- !app_assoc.
Qed.

(** Once the provider lists an active Gmail connection [i] for a user whose
    status is not cached (or is stale), a [tools] request queries the
    provider, then creates a client for the URL of the connected account
    [i] under the key of that connection, and asks that client for its
    tools. *)
Theorem connected_user_gets_a_client_for_the_account s ctx u i conns c w1 :
  ctx ≫= (.!! "userId") = Some u → u ≠ "" →
  auth_stale env u s →
  connectedAccounts_list env
    {| userIds := [u]; authConfigIds := None |}
    (world_after_check env u s) = (Normal conns, w1) →
  List.find is_active_gmail conns = Some c → conn_id c = i → i ≠ "" →
  toolsCache s !! ("gmail-" +:+ u +:+ "-" +:+ i) = None →
  JSMap.get ("gmail-" +:+ u +:+ "-" +:+ i) (mcpClientCache s) = None →
  ∃ r s' cl tail,
    agent_tools env ctx s = (Normal r, s')
    ∧ client_url cl = mcp_base_url +:+ "?connected_account_id=" +:+ i
    ∧ trace s'
      = trace s ++
          EvListAccounts {| userIds := [u]; authConfigIds := None |}
          :: EvNewClient cl :: EvGetTools cl :: tail
    ∧ authStatusCache s' !! ("auth-" +:+ u)
      = Some {| connected := true; connectionId := Some i;
                timestamp := (Date_now env w1).1 |}.
Proof.
  intros Hu Hne Hstale Hlist Hfind Hid Hi Hmiss Hnone.
  assert (Hti : truthy i = true).
  { unfold truthy. by apply bool_decide_eq_true. }
  assert (HA : getUserId env ctx s = (Normal u, s)).
  { unfold getUserId. rewrite Hu. simpl. unfold truthy.
    by rewrite bool_decide_true. }
  pose proof (getCachedAuthStatus_fetch env s u Hstale) as HB.
  simpl in HB. rewrite Hlist in HB.
  destruct (Date_now env w1) as [now w2] eqn:Hnow. simpl in HB.
  rewrite Hfind in HB. simpl in HB. rewrite Hid, Hti in HB.
  set (st := {| connected := true; connectionId := Some i; timestamp := now |})
    in *.
  set (sB := mkState _ _ _ _ _ _) in HB.
  assert (Hkey : toolsCacheKey u st = "gmail-" +:+ u +:+ "-" +:+ i).
  { unfold toolsCacheKey. simpl. by rewrite Hti. }
  assert (Hurl : mcpUrl st = mcp_base_url +:+ "?connected_account_id=" +:+ i).
  { unfold mcpUrl. simpl. by rewrite Hti. }
  destruct (getCachedTools_cold_client sB (toolsCacheKey u st) (mcpUrl st) u)
    as (tools & sC & tail & HC & Htr).
  { by rewrite Hkey. }
  { by rewrite Hkey. }
  { apply mcpUrl_accepted. }
  destruct (getCachedTools_effect env (toolsCacheKey u st) (mcpUrl st) u sB
              (mcpUrl_passes env _ st sB))
    as (tools' & sC' & nc & HC' & Ha & _).
  rewrite HC in HC'. injection HC' as <- <-.
  eexists _, sC,
    {| client_id := "gmail-mcp-" +:+ u +:+ "-" +:+ pretty (Date_now env w2).1;
       client_url := mcpUrl st |}, tail.
  split.
  { unfold agent_tools, mbind, M_bind. rewrite HA. cbn beta iota.
    rewrite HB. cbn beta iota zeta. by rewrite HC. }
  split; [exact Hurl|]. split.
  { rewrite Htr. subst sB. simpl. by rewrite <- app_assoc. }
  rewrite Ha. subst sB. simpl. apply lookup_insert_eq.
Qed.

End AgentRequests.

(** ** [GmailAuth], the rest *)

Section GmailAuthMore.
Context {W : Type} (env : Env W).
Implicit Types (s : State W) (userId : string).

(** [initiateConnection] never throws.  An answer of the provider comes
    back as a success object carrying its redirect URL and id; a thrown
    error is logged and comes back as [{success: false, error: ...}].
    Either way no map changes. *)
Theorem initiateConnection_never_throws s userId :
  (∀ req w1,
     connectedAccounts_initiate env userId GmailAuth.GMAIL_AUTH_CONFIG_ID
       (world s) = (Normal req, w1) →
     GmailAuth.initiateConnection env userId s
     = (Normal {| GmailAuth.ir_success := true;
                  GmailAuth.ir_redirectUrl := Some (redirectUrl req);
                  GmailAuth.ir_connectionId := Some (req_id req);
                  GmailAuth.ir_message :=
                    Some ("Please click this link to connect your Gmail account: "
                          +:+ redirectUrl req);
                  GmailAuth.ir_error := None |},
        mkState (mcpClientCache s) (toolsCache s) (authStatusCache s)
                (userSessionCache s) w1
                (trace s ++
                   [EvInitiate userId GmailAuth.GMAIL_AUTH_CONFIG_ID])))
  ∧ (∀ e w1,
       connectedAccounts_initiate env userId GmailAuth.GMAIL_AUTH_CONFIG_ID
         (world s) = (Throw e, w1) →
       GmailAuth.initiateConnection env userId s
       = (Normal {| GmailAuth.ir_success := false;
                    GmailAuth.ir_redirectUrl := None;
                    GmailAuth.ir_connectionId := None;
                    GmailAuth.ir_message := None;
                    GmailAuth.ir_error :=
                      Some ("Failed to initiate Gmail connection: " +:+ e) |},
          mkState (mcpClientCache s) (toolsCache s) (authStatusCache s)
                  (userSessionCache s) w1
                  (trace s ++
                     [EvInitiate userId GmailAuth.GMAIL_AUTH_CONFIG_ID;
                      EvConsoleError
                        "[GmailAuth] Error initiating connection:" e]))).
Proof.
  split; intros x w1 Hcall;
    unfold GmailAuth.initiateConnection, GmailAuth.initiate; run;
    rewrite Hcall; simpl; [done|by rewrite <- app_assoc].
Qed.

(** When the provider answers, [checkConnection] reports no error and is
    connected exactly when the answer lists a connection of toolkit [gmail]
    with status [ACTIVE]; [getConnectedAccountId] then gives the id of such
    a connection, and only a non-empty one; when not connected it gives
    [null].  No map changes. *)
Theorem checkConnection_reports_active_gmail_connection s userId conns w1 :
  connectedAccounts_list env
    {| userIds := [userId];
       authConfigIds := Some [GmailAuth.GMAIL_AUTH_CONFIG_ID] |}
    (world s) = (Normal conns, w1) →
  ∃ st id s',
    GmailAuth.checkConnection env userId s = (Normal st, s')
    ∧ GmailAuth.getConnectedAccountId env userId s = (Normal id, s')
    ∧ GmailAuth.cs_error st = None
    ∧ (GmailAuth.cs_connected st = true
       ↔ ∃ c, c ∈ conns ∧ conn_toolkit_slug c = "gmail"
              ∧ conn_status c = "ACTIVE")
    ∧ (∀ i, id = Some i →
         i ≠ "" ∧ GmailAuth.cs_connected st = true
         ∧ ∃ c, c ∈ conns ∧ conn_id c = i
                ∧ conn_toolkit_slug c = "gmail" ∧ conn_status c = "ACTIVE")
    ∧ (GmailAuth.cs_connected st = false → id = None)
    ∧ mcpClientCache s' = mcpClientCache s
    ∧ toolsCache s' = toolsCache s
    ∧ authStatusCache s' = authStatusCache s
    ∧ userSessionCache s' = userSessionCache s.
Proof.
  intros Hlist.
  assert (Hactive : ∀ c, is_active_gmail c = true
    ↔ conn_toolkit_slug c = "gmail" ∧ conn_status c = "ACTIVE").
  { intros c. unfold is_active_gmail.
    rewrite andb_true_iff, !bool_decide_eq_true. done. }
  unfold GmailAuth.getConnectedAccountId, GmailAuth.checkConnection,
    list_accounts.
  run. rewrite Hlist. simpl.
  destruct (List.find is_active_gmail conns) as [c|] eqn:Hfind; simpl.
  - apply find_some in Hfind as [Hin Hc]. apply list_elem_of_In in Hin.
    apply Hactive in Hc as [Hslug Hstatus].
    unfold truthy. destruct (bool_decide_reflect (conn_id c ≠ "")) as [Hid|Hid];
      simpl.
    + eexists _, _, _. do 2 (split; [reflexivity|]). simpl.
      split; [done|]. split; [split; [intros _; by exists c|done]|].
      split; [|done]. intros i [= <-]. do 2 (split; [done|]). by exists c.
    + eexists _, _, _. do 2 (split; [reflexivity|]). simpl.
      split; [done|]. split; [split; [intros _; by exists c|done]|].
      split; [done|]. done.
  - eexists _, _, _. do 2 (split; [reflexivity|]). simpl.
    split; [done|]. split; [|done].
    split; [done|]. intros (c & Hin & Hslug & Hstatus).
    apply list_elem_of_In in Hin.
    pose proof (find_none _ _ Hfind c Hin) as Hno.
    assert (is_active_gmail c = true) by by apply Hactive.
    congruence.
Qed.

End GmailAuthMore.

(** ** The agent built on [GmailAuth] *)

Section GmailAuthAgentFacts.
Context {W : Type} (env : Env W).
Implicit Types (p : State W) (a : GmailAuthAgent.AgentState W)
  (userId key url : string).

(** [getConnectedAccountId] never throws and changes no map; when the
    provider query throws it resolves to [null]. *)
Lemma getConnectedAccountId_effect p userId :
  ∃ id p' new,
    GmailAuth.getConnectedAccountId env userId p = (Normal id, p')
    ∧ mcpClientCache p' = mcpClientCache p
    ∧ toolsCache p' = toolsCache p
    ∧ authStatusCache p' = authStatusCache p
    ∧ userSessionCache p' = userSessionCache p
    ∧ trace p' = trace p ++ new
    ∧ (∀ e w1,
         connectedAccounts_list env
           {| userIds := [userId];
              authConfigIds := Some [GmailAuth.GMAIL_AUTH_CONFIG_ID] |}
           (world p) = (Throw e, w1) →
         id = None ∧ world p' = w1
         ∧ auth_fetches new
           = [{| userIds := [userId];
                 authConfigIds := Some [GmailAuth.GMAIL_AUTH_CONFIG_ID] |}]).
Proof.
  unfold GmailAuth.getConnectedAccountId, GmailAuth.checkConnection,
    list_accounts.
  run.
  destruct (connectedAccounts_list env _ (world p)) as [[conns|e] w1]; simpl.
  - destruct (_ && _); eexists _, _, _; (split; [reflexivity|]); simpl;
      by do 5 (split; [done|]).
  - eexists _, _, _. split; [reflexivity|]. simpl.
    do 4 (split; [done|]). split; [by rewrite <- app_assoc|].
    by intros e' w1' [= <- <-].
Qed.

(** A cached entry younger than the TTL is answered from the cache,
    without going to [GmailAuth]. *)
Lemma agent_auth_hit a userId gmailAuth ent :
  GmailAuthAgent.authStatusCache a !! ("auth-" +:+ userId) = Some ent →
  (Date_now env (world (GmailAuthAgent.rest a))).1
  - GmailAuthAgent.entry_timestamp ent < GmailAuthAgent.CACHE_TTL →
  GmailAuthAgent.getCachedAuthStatus env userId gmailAuth a
  = (Normal (GmailAuthAgent.connectedAccountId ent),
     GmailAuthAgent.mkAgentState
       (GmailAuthAgent.mcpClientCache a) (GmailAuthAgent.toolsCache a)
       (GmailAuthAgent.authStatusCache a)
       (with_world (Date_now env (world (GmailAuthAgent.rest a))).2
                   (GmailAuthAgent.rest a))).
Proof.
  intros Hent Hfresh.
  unfold GmailAuthAgent.getCachedAuthStatus, GmailAuthAgent.isCacheValid,
    date_now.
  run_agent. rewrite Hent. simpl. unfold extern.
  destruct (Date_now env (world (GmailAuthAgent.rest a))) as [now w1].
  simpl in *. rewrite app_nil_r. by rewrite bool_decide_true.
Qed.

(** Every run of this agent's [getCachedAuthStatus]. *)
Lemma agent_auth_effect a userId gmailAuth :
  ∃ id a' ent,
    GmailAuthAgent.getCachedAuthStatus env userId gmailAuth a = (Normal id, a')
    ∧ GmailAuthAgent.authStatusCache a'
      = <["auth-" +:+ userId := ent]> (GmailAuthAgent.authStatusCache a)
    ∧ GmailAuthAgent.connectedAccountId ent = id
    ∧ GmailAuthAgent.mcpClientCache a' = GmailAuthAgent.mcpClientCache a
    ∧ GmailAuthAgent.toolsCache a' = GmailAuthAgent.toolsCache a
    ∧ mcpClientCache (GmailAuthAgent.rest a')
      = mcpClientCache (GmailAuthAgent.rest a)
    ∧ toolsCache (GmailAuthAgent.rest a') = toolsCache (GmailAuthAgent.rest a)
    ∧ authStatusCache (GmailAuthAgent.rest a')
      = authStatusCache (GmailAuthAgent.rest a)
    ∧ userSessionCache (GmailAuthAgent.rest a')
      = userSessionCache (GmailAuthAgent.rest a).
Proof.
  assert (Hfetch : ∀ p0,
    mcpClientCache p0 = mcpClientCache (GmailAuthAgent.rest a) →
    toolsCache p0 = toolsCache (GmailAuthAgent.rest a) →
    authStatusCache p0 = authStatusCache (GmailAuthAgent.rest a) →
    userSessionCache p0 = userSessionCache (GmailAuthAgent.rest a) →
    ∃ id a' ent,
      (accountId ← GmailAuthAgent.lift
                     (GmailAuth.getConnectedAccountId env gmailAuth);
       now ← GmailAuthAgent.lift (date_now env);
       GmailAuthAgent.modify
         (GmailAuthAgent.set_authStatusCache
            <["auth-" +:+ userId :=
                {| GmailAuthAgent.connectedAccountId := accountId;
                   GmailAuthAgent.entry_timestamp := now |}]>);;
       mret accountId)
        (GmailAuthAgent.mkAgentState
           (GmailAuthAgent.mcpClientCache a) (GmailAuthAgent.toolsCache a)
           (GmailAuthAgent.authStatusCache a) p0)
      = (Normal id, a')
      ∧ GmailAuthAgent.authStatusCache a'
        = <["auth-" +:+ userId := ent]> (GmailAuthAgent.authStatusCache a)
      ∧ GmailAuthAgent.connectedAccountId ent = id
      ∧ GmailAuthAgent.mcpClientCache a' = GmailAuthAgent.mcpClientCache a
      ∧ GmailAuthAgent.toolsCache a' = GmailAuthAgent.toolsCache a
      ∧ mcpClientCache (GmailAuthAgent.rest a')
        = mcpClientCache (GmailAuthAgent.rest a)
      ∧ toolsCache (GmailAuthAgent.rest a')
        = toolsCache (GmailAuthAgent.rest a)
      ∧ authStatusCache (GmailAuthAgent.rest a')
        = authStatusCache (GmailAuthAgent.rest a)
      ∧ userSessionCache (GmailAuthAgent.rest a')
        = userSessionCache (GmailAuthAgent.rest a)).
  { intros p0 H1 H2 H3 H4.
    destruct (getConnectedAccountId_effect p0 gmailAuth)
      as (id & p1 & new & Hrun & G1 & G2 & G3 & G4 & _).
    unfold date_now. run_agent. rewrite Hrun. simpl. unfold extern.
    destruct (Date_now env (world p1)) as [now w2]. simpl.
    eexists id, _, _. split; [reflexivity|]. simpl.
    do 4 (split; [done|]). by rewrite G1, G2, G3, G4. }
  unfold GmailAuthAgent.getCachedAuthStatus, GmailAuthAgent.isCacheValid.
  unfold mbind at 1 2, GmailAuthAgent.AM_bind at 1 2, GmailAuthAgent.gets.
  cbn beta iota.
  destruct (GmailAuthAgent.authStatusCache a !! ("auth-" +:+ userId))
    as [ent|] eqn:Hent.
  - unfold mbind at 1, GmailAuthAgent.AM_bind at 1, GmailAuthAgent.lift at 1,
      date_now, extern.
    destruct (Date_now env (world (GmailAuthAgent.rest a))) as [now w1] eqn:Hn.
    cbn beta iota zeta. unfold mret at 1, GmailAuthAgent.AM_ret at 1.
    cbn beta iota.
    destruct (bool_decide (now - GmailAuthAgent.entry_timestamp ent
                           < GmailAuthAgent.CACHE_TTL)).
    + eexists _, _, ent. split; [reflexivity|]. simpl.
      split; [by rewrite insert_id|]. done.
    + apply Hfetch; done.
  - unfold mret at 1, GmailAuthAgent.AM_ret at 1. cbn beta iota.
    destruct a as [c t au p0]. by apply Hfetch.
Qed.

End GmailAuthAgentFacts.

Section GmailAuthAgentLookups.
Context {W : Type} (env : Env W).
Implicit Types (p : State W) (a : GmailAuthAgent.AgentState W)
  (userId key url : string) (ctx : option RuntimeContext).

Lemma js_or_falsy v d : truthy_opt v = false → js_or v d = d.
Proof. destruct v as [x|]; simpl; [|done]. by intros ->. Qed.

(** This agent's [getCachedAuthStatus] has no [catch] of its own, and still
    never throws: it leaves the returned account id cached under the user's
    key and touches nothing else.  When there is no usable entry for the
    user (none, or one that has reached the TTL) and the provider query
    throws, the result is [null], cached like any other and in place of the
    old entry - a later call within the TTL, in whatever state [p] the rest
    of the program is by then, answers [null] again without querying the
    provider. *)
Theorem agent_auth_lookup_never_throws_and_caches_failure a userId gmailAuth :
  (∃ id a' ent,
     GmailAuthAgent.getCachedAuthStatus env userId gmailAuth a = (Normal id, a')
     ∧ GmailAuthAgent.authStatusCache a' !! ("auth-" +:+ userId) = Some ent
     ∧ GmailAuthAgent.connectedAccountId ent = id
     ∧ GmailAuthAgent.mcpClientCache a' = GmailAuthAgent.mcpClientCache a
     ∧ GmailAuthAgent.toolsCache a' = GmailAuthAgent.toolsCache a)
  ∧ (∀ e w1,
       agent_auth_stale env userId a →
       connectedAccounts_list env
         {| userIds := [gmailAuth];
            authConfigIds := Some [GmailAuth.GMAIL_AUTH_CONFIG_ID] |}
         (agent_world_after_check env userId a) = (Throw e, w1) →
       ∃ a' ent,
         GmailAuthAgent.getCachedAuthStatus env userId gmailAuth a
         = (Normal None, a')
         ∧ GmailAuthAgent.authStatusCache a' !! ("auth-" +:+ userId) = Some ent
         ∧ GmailAuthAgent.connectedAccountId ent = None
         ∧ GmailAuthAgent.entry_timestamp ent = (Date_now env w1).1
         ∧ ∀ p,
             (Date_now env (world p)).1 - GmailAuthAgent.entry_timestamp ent
             < GmailAuthAgent.CACHE_TTL →
             GmailAuthAgent.getCachedAuthStatus env userId gmailAuth
               (agent_in p a')
             = (Normal None,
                agent_in (with_world (Date_now env (world p)).2 p) a')).
Proof.
  split.
  - destruct (agent_auth_effect env a userId gmailAuth)
      as (id & a' & ent & Hrun & Ha & Hid & Hc & Ht & _).
    exists id, a', ent. split; [done|]. rewrite Ha.
    split; [apply lookup_insert_eq|done].
  - intros e w1 Hstale Hlist.
    assert (Hfetch : ∀ p0, world p0 = agent_world_after_check env userId a →
      ∃ a',
        (accountId ← GmailAuthAgent.lift
                       (GmailAuth.getConnectedAccountId env gmailAuth);
         now ← GmailAuthAgent.lift (date_now env);
         GmailAuthAgent.modify
           (GmailAuthAgent.set_authStatusCache
              <["auth-" +:+ userId :=
                  {| GmailAuthAgent.connectedAccountId := accountId;
                     GmailAuthAgent.entry_timestamp := now |}]>);;
         mret accountId)
          (GmailAuthAgent.mkAgentState
             (GmailAuthAgent.mcpClientCache a) (GmailAuthAgent.toolsCache a)
             (GmailAuthAgent.authStatusCache a) p0)
        = (Normal None, a')
        ∧ GmailAuthAgent.authStatusCache a' !! ("auth-" +:+ userId)
          = Some {| GmailAuthAgent.connectedAccountId := None;
                    GmailAuthAgent.entry_timestamp := (Date_now env w1).1 |}).
    { intros p0 Hp0.
      destruct (getConnectedAccountId_effect env p0 gmailAuth)
        as (id & p1 & new & Hrun & _ & _ & _ & _ & _ & Hfail).
      rewrite Hp0 in Hfail.
      destruct (Hfail e w1 Hlist) as (-> & Hw & _).
      unfold date_now. run_agent. rewrite Hrun. simpl. unfold extern.
      rewrite Hw. destruct (Date_now env w1) as [now w2]. simpl.
      eexists. split; [reflexivity|]. simpl. apply lookup_insert_eq. }
    assert (Hfirst : ∃ a',
      GmailAuthAgent.getCachedAuthStatus env userId gmailAuth a
      = (Normal None, a')
      ∧ GmailAuthAgent.authStatusCache a' !! ("auth-" +:+ userId)
        = Some {| GmailAuthAgent.connectedAccountId := None;
                  GmailAuthAgent.entry_timestamp := (Date_now env w1).1 |}).
    { unfold agent_auth_stale, agent_world_after_check in *.
      unfold GmailAuthAgent.getCachedAuthStatus, GmailAuthAgent.isCacheValid.
      unfold mbind at 1 2, GmailAuthAgent.AM_bind at 1 2, GmailAuthAgent.gets.
      cbn beta iota.
      destruct (GmailAuthAgent.authStatusCache a !! ("auth-" +:+ userId))
        as [ent0|] eqn:Hent0.
      - unfold mbind at 1, GmailAuthAgent.AM_bind at 1,
          GmailAuthAgent.lift at 1, date_now, extern.
        destruct (Date_now env (world (GmailAuthAgent.rest a)))
          as [now0 w0] eqn:Hn.
        cbn beta iota zeta. unfold mret at 1, GmailAuthAgent.AM_ret at 1.
        cbn beta iota. simpl in Hstale, Hfetch.
        rewrite bool_decide_false by lia.
        by apply Hfetch.
      - unfold mret at 1, GmailAuthAgent.AM_ret at 1. cbn beta iota.
        destruct a as [c t au p0]. by apply Hfetch. }
    destruct Hfirst as (a' & Hfirst & Hent).
    eexists a', _. split; [exact Hfirst|]. split; [exact Hent|].
    do 2 (split; [done|]). intros p Hfresh.
    by rewrite (agent_auth_hit env (agent_in p a') userId gmailAuth _ Hent Hfresh).
Qed.

(** The [initiate_gmail_oauth] tool never throws, and it clears the user's
    cached auth status only when the connection could be initiated: on a
    provider error it answers with a failure object and leaves the three
    maps as they are. *)
Theorem oauth_tool_clears_auth_status_only_on_success a userId :
  (∀ req w1,
     connectedAccounts_initiate env userId GmailAuth.GMAIL_AUTH_CONFIG_ID
       (world (GmailAuthAgent.rest a)) = (Normal req, w1) →
     ∃ message a',
       GmailAuthAgent.oauthTool_execute env userId a
       = (Normal (GmailAuthAgent.OauthStarted (Some (redirectUrl req)) message),
          a')
       ∧ GmailAuthAgent.authStatusCache a'
         = delete ("auth-" +:+ userId) (GmailAuthAgent.authStatusCache a)
       ∧ GmailAuthAgent.mcpClientCache a' = GmailAuthAgent.mcpClientCache a
       ∧ GmailAuthAgent.toolsCache a' = GmailAuthAgent.toolsCache a)
  ∧ (∀ e w1,
       connectedAccounts_initiate env userId GmailAuth.GMAIL_AUTH_CONFIG_ID
         (world (GmailAuthAgent.rest a)) = (Throw e, w1) →
       ∃ a',
         GmailAuthAgent.oauthTool_execute env userId a
         = (Normal (GmailAuthAgent.OauthFailed
                      "Failed to initiate Gmail connection"
                      "Please try again or check your configuration."),
            a')
         ∧ GmailAuthAgent.authStatusCache a' = GmailAuthAgent.authStatusCache a
         ∧ GmailAuthAgent.mcpClientCache a' = GmailAuthAgent.mcpClientCache a
         ∧ GmailAuthAgent.toolsCache a' = GmailAuthAgent.toolsCache a).
Proof.
  split; intros x w1 Hcall;
    unfold GmailAuthAgent.oauthTool_execute, GmailAuth.initiateConnection,
      GmailAuth.initiate;
    run_agent; run; rewrite Hcall; simpl.
  - by eexists _, _.
  - by eexists.
Qed.

(** Requests without a user id all belong to the user [default], whatever
    session they come from: after one of them, another one within the TTL
    reads the status cached for [default] and gets the same prompt, and
    the provider is not asked again. *)
Theorem anonymous_requests_share_the_default_user a ctx ctx' :
  truthy_opt (ctx ≫= (.!! "userId")) = false →
  truthy_opt (ctx' ≫= (.!! "userId")) = false →
  ∃ text a1 ent,
    GmailAuthAgent.agent_instructions env ctx a = (Normal text, a1)
    ∧ GmailAuthAgent.authStatusCache a1 !! "auth-default" = Some ent
    ∧ ∀ p,
        (Date_now env (world p)).1 - GmailAuthAgent.entry_timestamp ent
        < GmailAuthAgent.CACHE_TTL →
        GmailAuthAgent.agent_instructions env ctx' (agent_in p a1)
        = (Normal text, agent_in (with_world (Date_now env (world p)).2 p) a1).
Proof.
  intros Hno Hno'.
  destruct (agent_auth_effect env a "default" "default")
    as (id & a1 & ent & Hrun & Ha & Hid & _).
  assert (Hent : GmailAuthAgent.authStatusCache a1 !! "auth-default" = Some ent).
  { rewrite Ha. apply lookup_insert_eq. }
  exists (if truthy_opt id then instructions_connected (default "" id)
          else GmailAuthAgent.instructions_unauthenticated), a1, ent.
  split.
  { unfold GmailAuthAgent.agent_instructions, GmailAuthAgent.requestUserId.
    rewrite (js_or_falsy _ _ Hno).
    unfold mbind, GmailAuthAgent.AM_bind. rewrite Hrun. cbn beta iota.
    destruct (truthy_opt id); reflexivity. }
  split; [done|]. intros p Hfresh.
  unfold GmailAuthAgent.agent_instructions, GmailAuthAgent.requestUserId.
  rewrite (js_or_falsy _ _ Hno').
  unfold mbind, GmailAuthAgent.AM_bind.
  rewrite (agent_auth_hit env (agent_in p a1) "default" "default" ent Hent Hfresh).
  cbn beta iota. rewrite Hid. by destruct (truthy_opt id).
Qed.

End GmailAuthAgentLookups.

(** ** The two copies of the client and tool functions *)

Section Copies.
Context {W : Type} (env : Env W).
Implicit Types (p : State W) (a : GmailAuthAgent.AgentState W)
  (userId key url : string) (ctx : option RuntimeContext).

(** The copy of [cleanupMCPClient] in [GmailAuthAgent] does on its maps what
    the one of [gmailAgent.ts] does on the same maps. *)
Lemma copy_cleanupMCPClient a key :
  (GmailAuthAgent.cleanupMCPClient env key a).1
  = (cleanupMCPClient env key (agent_view a)).1
  ∧ agent_view (GmailAuthAgent.cleanupMCPClient env key a).2
    = (cleanupMCPClient env key (agent_view a)).2
  ∧ GmailAuthAgent.authStatusCache (GmailAuthAgent.cleanupMCPClient env key a).2
    = GmailAuthAgent.authStatusCache a
  ∧ mcpClientCache
      (GmailAuthAgent.rest (GmailAuthAgent.cleanupMCPClient env key a).2)
    = mcpClientCache (GmailAuthAgent.rest a)
  ∧ toolsCache
      (GmailAuthAgent.rest (GmailAuthAgent.cleanupMCPClient env key a).2)
    = toolsCache (GmailAuthAgent.rest a).
Proof.
  unfold GmailAuthAgent.cleanupMCPClient, cleanupMCPClient, disconnect,
    agent_view.
  run_agent. run.
  destruct (JSMap.get key (GmailAuthAgent.mcpClientCache a)) as [c|]; simpl;
    [|done].
  by destruct (MCPClient_disconnect env c (world (GmailAuthAgent.rest a)))
    as [[[]|e] w'].
Qed.

(** The [catch] of the two copies of [getCachedTools], side by side. *)
Ltac copy_catch :=
  match goal with
  | |- context [GmailAuthAgent.cleanupMCPClient ?env ?key ?a0] =>
      match goal with
      | |- context [cleanupMCPClient env key ?s0] =>
          change s0 with (agent_view a0);
          destruct (copy_cleanupMCPClient a0 key) as (H1 & H2 & H3 & H4 & H5);
          destruct (cleanupMCPClient_maps env (agent_view a0) key)
            as (s' & Hs & _);
          rewrite Hs in *;
          destruct (GmailAuthAgent.cleanupMCPClient env key a0) as [r a'];
          simpl in *; subst r; simpl
      end
  end.

(** The same for [getCachedTools]. *)
Lemma copy_getCachedTools a key url userId :
  (GmailAuthAgent.getCachedTools env key url userId a).1
  = (getCachedTools env key url userId (agent_view a)).1
  ∧ agent_view (GmailAuthAgent.getCachedTools env key url userId a).2
    = (getCachedTools env key url userId (agent_view a)).2
  ∧ GmailAuthAgent.authStatusCache
      (GmailAuthAgent.getCachedTools env key url userId a).2
    = GmailAuthAgent.authStatusCache a
  ∧ mcpClientCache
      (GmailAuthAgent.rest
         (GmailAuthAgent.getCachedTools env key url userId a).2)
    = mcpClientCache (GmailAuthAgent.rest a)
  ∧ toolsCache
      (GmailAuthAgent.rest
         (GmailAuthAgent.getCachedTools env key url userId a).2)
    = toolsCache (GmailAuthAgent.rest a).
Proof.
  destruct (GmailAuthAgent.toolsCache a !! key) as [tools|] eqn:Hhit.
  { rewrite (getCachedTools_hit env (agent_view a) key url userId tools Hhit).
    unfold GmailAuthAgent.getCachedTools. run_agent. by rewrite Hhit. }
  destruct (JSMap.get key (GmailAuthAgent.mcpClientCache a)) as [c|] eqn:Hget;
    [|destruct (URL_error env url) as [e|] eqn:Hurl].
  - rewrite (getCachedTools_miss env (agent_view a) key url userId Hhit)
      by (intros _ Hnone; simpl in Hnone; congruence).
    unfold obtain_client.
    change (mcpClientCache (agent_view a))
      with (GmailAuthAgent.mcpClientCache a).
    change (world (agent_view a)) with (world (GmailAuthAgent.rest a)).
    unfold GmailAuthAgent.getCachedTools, getTools.
    run_agent. rewrite Hhit, Hget. simpl.
    unfold extern_throws, console_error, modify. simpl.
    destruct (MCPClient_getTools env c (world (GmailAuthAgent.rest a)))
      as [[tools|e] w1]; simpl; [done|].
    rewrite <- !app_assoc. simpl. by copy_catch.
  - rewrite (getCachedTools_bad_url env (agent_view a) key url userId e Hhit
               Hget Hurl).
    unfold GmailAuthAgent.getCachedTools, date_now, new_URL.
    run_agent. rewrite Hhit, Hget. simpl. unfold extern, throw. simpl.
    rewrite Hurl.
    destruct (Date_now env (world (GmailAuthAgent.rest a))) as [now w0]. simpl.
    by rewrite app_nil_r.
  - rewrite (getCachedTools_miss env (agent_view a) key url userId Hhit)
      by by apply url_accepted_passes.
    unfold obtain_client.
    change (mcpClientCache (agent_view a))
      with (GmailAuthAgent.mcpClientCache a).
    change (world (agent_view a)) with (world (GmailAuthAgent.rest a)).
    unfold GmailAuthAgent.getCachedTools, date_now, new_URL, new_MCPClient,
      getTools.
    run_agent. rewrite Hhit, Hget. simpl.
    unfold extern, extern_throws, console_error, modify, mret, M_ret. simpl.
    rewrite Hurl.
    destruct (Date_now env (world (GmailAuthAgent.rest a))) as [now w0]. simpl.
    rewrite app_nil_r.
    set (c := {| client_id := _; client_url := url |}).
    destruct (MCPClient_getTools env c w0) as [[tools|e] w1]; simpl; [done|].
    rewrite <- !app_assoc. simpl. by copy_catch.
Qed.

(** One [cleanupMCPClient] of the copy, told through the original. *)
Lemma copy_cleanupMCPClient_run a key :
  ∃ a' s',
    GmailAuthAgent.cleanupMCPClient env key a = (Normal tt, a')
    ∧ cleanupMCPClient env key (agent_view a) = (Normal tt, s')
    ∧ agent_view a' = s'
    ∧ GmailAuthAgent.authStatusCache a' = GmailAuthAgent.authStatusCache a
    ∧ mcpClientCache (GmailAuthAgent.rest a')
      = mcpClientCache (GmailAuthAgent.rest a)
    ∧ toolsCache (GmailAuthAgent.rest a') = toolsCache (GmailAuthAgent.rest a).
Proof.
  destruct (copy_cleanupMCPClient a key) as (H1 & H2 & H3 & H4 & H5).
  destruct (cleanupMCPClient_maps env (agent_view a) key) as (s' & Hs & _).
  rewrite Hs in *.
  destruct (GmailAuthAgent.cleanupMCPClient env key a) as [r a'].
  simpl in *. subst r. by exists a', s'.
Qed.

(** The loop of [cleanupGmailAgent], copy and original. *)
Lemma copy_for_of keys :
  ∀ a, ∃ a' s',
    GmailAuthAgent.for_of keys (GmailAuthAgent.cleanupMCPClient env) a
    = (Normal tt, a')
    ∧ for_of keys (cleanupMCPClient env) (agent_view a) = (Normal tt, s')
    ∧ agent_view a' = s'
    ∧ GmailAuthAgent.authStatusCache a' = GmailAuthAgent.authStatusCache a
    ∧ mcpClientCache (GmailAuthAgent.rest a')
      = mcpClientCache (GmailAuthAgent.rest a)
    ∧ toolsCache (GmailAuthAgent.rest a') = toolsCache (GmailAuthAgent.rest a).
Proof.
  induction keys as [|k keys IH]; intros a.
  - by exists a, (agent_view a).
  - destruct (copy_cleanupMCPClient_run a k)
      as (a1 & s1 & Ha1 & Hs1 & Hv & H3 & H4 & H5).
    destruct (IH a1) as (a2 & s2 & Ha2 & Hs2 & Hv2 & G3 & G4 & G5).
    exists a2, s2. simpl.
    unfold mbind, GmailAuthAgent.AM_bind, M_bind.
    rewrite Ha1, Hs1, Ha2. rewrite <- Hv, Hs2.
    do 3 (split; [done|]). by rewrite G3, G4, G5.
Qed.

(** The copies of [cleanupMCPClient] and [getCachedTools] in the agent
    built on [GmailAuth] have not drifted from the ones in [gmailAgent.ts]:
    on the same client and tool maps, in the same world, each completes the
    same way and leaves the same client map, tool map, world and trace;
    and neither touches this agent's auth map or the other agent's maps. *)
Theorem agent_copies_behave_like_the_originals a key url userId :
  ((GmailAuthAgent.cleanupMCPClient env key a).1
   = (cleanupMCPClient env key (agent_view a)).1
   ∧ agent_view (GmailAuthAgent.cleanupMCPClient env key a).2
     = (cleanupMCPClient env key (agent_view a)).2
   ∧ GmailAuthAgent.authStatusCache
       (GmailAuthAgent.cleanupMCPClient env key a).2
     = GmailAuthAgent.authStatusCache a
   ∧ mcpClientCache
       (GmailAuthAgent.rest (GmailAuthAgent.cleanupMCPClient env key a).2)
     = mcpClientCache (GmailAuthAgent.rest a)
   ∧ toolsCache
       (GmailAuthAgent.rest (GmailAuthAgent.cleanupMCPClient env key a).2)
     = toolsCache (GmailAuthAgent.rest a))
  ∧ ((GmailAuthAgent.getCachedTools env key url userId a).1
     = (getCachedTools env key url userId (agent_view a)).1
     ∧ agent_view (GmailAuthAgent.getCachedTools env key url userId a).2
       = (getCachedTools env key url userId (agent_view a)).2
     ∧ GmailAuthAgent.authStatusCache
         (GmailAuthAgent.getCachedTools env key url userId a).2
       = GmailAuthAgent.authStatusCache a
     ∧ mcpClientCache
         (GmailAuthAgent.rest
            (GmailAuthAgent.getCachedTools env key url userId a).2)
       = mcpClientCache (GmailAuthAgent.rest a)
     ∧ toolsCache
         (GmailAuthAgent.rest
            (GmailAuthAgent.getCachedTools env key url userId a).2)
       = toolsCache (GmailAuthAgent.rest a)).
Proof.
  split; [apply copy_cleanupMCPClient|apply copy_getCachedTools].
Qed.

(** Shutdown of the agent built on [GmailAuth]: [cleanupGmailAgent]
    completes normally, leaves its three maps empty and calls [disconnect]
    once on each client it had cached, in map order, whatever each call
    answers; the maps of the other agent are not touched. *)
Theorem agent_shutdown_disposes_each_client_once a :
  JSMap.wf (GmailAuthAgent.mcpClientCache a) →
  ∃ a', GmailAuthAgent.cleanupGmailAgent env a = (Normal tt, a')
    ∧ GmailAuthAgent.mcpClientCache a' = []
    ∧ GmailAuthAgent.toolsCache a' = ∅
    ∧ GmailAuthAgent.authStatusCache a' = ∅
    ∧ disconnected (trace (GmailAuthAgent.rest a'))
      = disconnected (trace (GmailAuthAgent.rest a))
        ++ JSMap.values (GmailAuthAgent.mcpClientCache a)
    ∧ mcpClientCache (GmailAuthAgent.rest a')
      = mcpClientCache (GmailAuthAgent.rest a)
    ∧ toolsCache (GmailAuthAgent.rest a') = toolsCache (GmailAuthAgent.rest a)
    ∧ authStatusCache (GmailAuthAgent.rest a')
      = authStatusCache (GmailAuthAgent.rest a)
    ∧ userSessionCache (GmailAuthAgent.rest a')
      = userSessionCache (GmailAuthAgent.rest a).
Proof.
  intros Hwf.
  destruct (copy_for_of (JSMap.keys (GmailAuthAgent.mcpClientCache a)) a)
    as (a1 & s1 & Ha1 & Hs1 & Hv & H3 & H4 & H5).
  destruct (for_of_cleanupMCPClient env (GmailAuthAgent.mcpClientCache a)
              (agent_view a) eq_refl Hwf)
    as (s1' & Hs1' & Hc & Hau & Hse & Htr).
  rewrite Hs1 in Hs1'. injection Hs1' as <-. subst s1.
  unfold GmailAuthAgent.cleanupGmailAgent. run_agent. rewrite Ha1. simpl.
  eexists. split; [reflexivity|]. simpl in *.
  by split_and!.
Qed.

(** A [cleanupMCPClient] of this agent that is not awaited: what it has
    done when its caller goes on. *)
Lemma agent_start_effect a key :
  ∃ j a', GmailAuthAgent.cleanupMCPClient_start env key a = (Normal j, a')
    ∧ GmailAuthAgent.mcpClientCache a' = GmailAuthAgent.mcpClientCache a
    ∧ GmailAuthAgent.authStatusCache a' = GmailAuthAgent.authStatusCache a
    ∧ match JSMap.get key (GmailAuthAgent.mcpClientCache a) with
      | None =>
          j = None
          ∧ GmailAuthAgent.toolsCache a'
            = delete key (GmailAuthAgent.toolsCache a)
          ∧ GmailAuthAgent.rest a' = GmailAuthAgent.rest a
      | Some c =>
          j = Some {| sus_key := key;
                      sus_outcome :=
                        (MCPClient_disconnect env c
                           (world (GmailAuthAgent.rest a))).1 |}
          ∧ GmailAuthAgent.toolsCache a' = GmailAuthAgent.toolsCache a
          ∧ trace (GmailAuthAgent.rest a')
            = trace (GmailAuthAgent.rest a) ++ [EvDisconnect c]
      end.
Proof.
  unfold GmailAuthAgent.cleanupMCPClient_start, disconnect.
  run_agent. run.
  destruct (JSMap.get key (GmailAuthAgent.mcpClientCache a)) as [c|]; simpl.
  - destruct (MCPClient_disconnect env c (world (GmailAuthAgent.rest a)))
      as [r w']. simpl. by eexists _, _.
  - by eexists _, _.
Qed.

(** [clearGmailAgentCache] of this agent, called without a user id, acts
    on the user [default] - the user of every request without user id.
    For the user it acts on, it removes the cached auth status at once.
    Under [gmail-<userId>-unauth]: with no client cached, the tool entry is
    removed before the function returns; with a client cached, [disconnect]
    has been called on it when the function returns, and the client and the
    tool entry are still cached, the cleanup being suspended.  A suspended
    cleanup that resumes, in whatever state, leaves neither client nor tool
    entry under its key.  The function never throws. *)
Theorem agent_clearGmailAgentCache_defaults_to_default_user a o :
  let u := default "default" o in
  let key := "gmail-" +:+ u +:+ "-unauth" in
  (o = None → u = "default")
  ∧ (∃ jobs a', GmailAuthAgent.clearGmailAgentCache env o a = (Normal jobs, a')
       ∧ GmailAuthAgent.authStatusCache a' !! ("auth-" +:+ u) = None
       ∧ GmailAuthAgent.mcpClientCache a' = GmailAuthAgent.mcpClientCache a
       ∧ match JSMap.get key (GmailAuthAgent.mcpClientCache a) with
         | None =>
             GmailAuthAgent.toolsCache a' !! key = None
             ∧ ∀ j, j ∈ jobs → sus_key j ≠ key
         | Some c =>
             GmailAuthAgent.toolsCache a' !! key
             = GmailAuthAgent.toolsCache a !! key
             ∧ (∃ tail, trace (GmailAuthAgent.rest a')
                        = trace (GmailAuthAgent.rest a)
                          ++ EvDisconnect c :: tail)
             ∧ {| sus_key := key;
                  sus_outcome :=
                    (MCPClient_disconnect env c
                       (world (GmailAuthAgent.rest a))).1 |} ∈ jobs
         end)
  ∧ (∀ j a2,
       ∃ a3, GmailAuthAgent.cleanupMCPClient_resume j a2 = (Normal tt, a3)
         ∧ JSMap.get (sus_key j) (GmailAuthAgent.mcpClientCache a3) = None
         ∧ GmailAuthAgent.toolsCache a3 !! sus_key j = None
         ∧ disconnected (trace (GmailAuthAgent.rest a3))
           = disconnected (trace (GmailAuthAgent.rest a2))).
Proof.
  intros u key.
  assert (Hne : "gmail-" +:+ u +:+ "-null" ≠ key).
  { subst key. intros H. apply (inj (String.app "gmail-")) in H.
    apply (inj (String.app u)) in H. discriminate. }
  split; [by intros ->|]. split.
  - unfold GmailAuthAgent.clearGmailAgentCache. fold u. fold key.
    set (a0 := GmailAuthAgent.set_authStatusCache
                 (delete ("auth-" +:+ u)) a).
    destruct (agent_start_effect a0 key)
      as (j1 & a1 & Hrun1 & Hc1 & Ha1 & Hcase1).
    destruct (agent_start_effect a1 ("gmail-" +:+ u +:+ "-null"))
      as (j2 & a2 & Hrun2 & Hc2 & Ha2 & Hcase2).
    exists (option_list j1 ++ option_list j2), a2. split.
    { unfold mbind, GmailAuthAgent.AM_bind, GmailAuthAgent.modify.
      fold a0. by rewrite Hrun1, Hrun2. }
    split; [rewrite Ha2, Ha1; apply lookup_delete_eq|].
    split; [by rewrite Hc2, Hc1|].
    assert (Hj2 : ∀ j, j ∈ option_list j2 → sus_key j ≠ key).
    { intros j Hj. destruct (JSMap.get _ (GmailAuthAgent.mcpClientCache a1)).
      - destruct Hcase2 as (-> & _). apply list_elem_of_singleton in Hj.
        by subst j.
      - destruct Hcase2 as (-> & _). by apply elem_of_nil in Hj. }
    assert (Ht2 : GmailAuthAgent.toolsCache a2 !! key
                  = GmailAuthAgent.toolsCache a1 !! key).
    { destruct (JSMap.get _ (GmailAuthAgent.mcpClientCache a1)).
      - by destruct Hcase2 as (_ & -> & _).
      - destruct Hcase2 as (_ & -> & _). by apply lookup_delete_ne. }
    assert (Htr2 : ∃ tail, trace (GmailAuthAgent.rest a2)
                           = trace (GmailAuthAgent.rest a1) ++ tail).
    { destruct (JSMap.get _ (GmailAuthAgent.mcpClientCache a1)).
      - destruct Hcase2 as (_ & _ & ->). by eexists.
      - destruct Hcase2 as (_ & _ & ->). exists []. by rewrite app_nil_r. }
    change (GmailAuthAgent.mcpClientCache a0)
      with (GmailAuthAgent.mcpClientCache a) in Hcase1.
    destruct (JSMap.get key (GmailAuthAgent.mcpClientCache a)) as [c|].
    + destruct Hcase1 as (-> & Ht1 & Htr1).
      split; [by rewrite Ht2, Ht1|]. split.
      * destruct Htr2 as (tail & ->). exists tail.
        rewrite Htr1. by rewrite <- app_assoc.
      * apply elem_of_app. left. apply list_elem_of_singleton. done.
    + destruct Hcase1 as (-> & Ht1 & _).
      split; [rewrite Ht2, Ht1; apply lookup_delete_eq|].
      intros j Hj. by apply Hj2.
  - intros j a2. unfold GmailAuthAgent.cleanupMCPClient_resume.
    run_agent. run.
    destruct (sus_outcome j) as [[]|e]; simpl;
      (eexists; split; [reflexivity|]); simpl;
      (split; [apply get_delete_eq|]); (split; [apply lookup_delete_eq|]).
    + done.
    + rewrite disconnected_app. simpl. by rewrite app_nil_r.
Qed.

(** The URLs this agent's [tools] function builds are accepted by
    [new URL]. *)
Lemma agent_mcpUrl_accepted id : URL_error env (GmailAuthAgent.mcpUrl id) = None.
Proof. unfold GmailAuthAgent.mcpUrl. by destruct (truthy_opt id). Qed.

(** The [tools] function of this agent never throws, and what it returns
    is the tool set left in its cache for the user's key (none, after a
    failed fetch) plus the [initiate_gmail_oauth] tool of the user, and
    nothing else; a server tool named [initiate_gmail_oauth] takes that
    name.  A request without user id is a request of the user [default]. *)
Theorem agent_tools_offers_cached_tools_and_oauth a ctx :
  ∃ id ent r a',
    GmailAuthAgent.agent_tools env ctx a = (Normal r, a')
    ∧ GmailAuthAgent.authStatusCache a'
        !! ("auth-" +:+ GmailAuthAgent.requestUserId ctx) = Some ent
    ∧ GmailAuthAgent.connectedAccountId ent = id
    ∧ (∀ name def,
         default ∅
           (GmailAuthAgent.toolsCache a'
              !! GmailAuthAgent.toolsCacheKey
                   (GmailAuthAgent.requestUserId ctx) id)
           !! name = Some def →
         r !! name = Some (GmailAuthAgent.McpTool def))
    ∧ (default ∅
         (GmailAuthAgent.toolsCache a'
            !! GmailAuthAgent.toolsCacheKey
                 (GmailAuthAgent.requestUserId ctx) id)
         !! "initiate_gmail_oauth" = None →
       r !! "initiate_gmail_oauth"
       = Some (GmailAuthAgent.OauthTool (GmailAuthAgent.requestUserId ctx)))
    ∧ (∀ name,
         name ≠ "initiate_gmail_oauth" →
         default ∅
           (GmailAuthAgent.toolsCache a'
              !! GmailAuthAgent.toolsCacheKey
                   (GmailAuthAgent.requestUserId ctx) id)
           !! name = None →
         r !! name = None)
    ∧ (truthy_opt (ctx ≫= (.!! "userId")) = false →
       GmailAuthAgent.requestUserId ctx = "default").
Proof.
  set (u := GmailAuthAgent.requestUserId ctx).
  destruct (agent_auth_effect env a u u)
    as (id & a1 & ent & HA & Hauth & Hid & _).
  set (key := GmailAuthAgent.toolsCacheKey u id).
  set (url := GmailAuthAgent.mcpUrl id).
  destruct (copy_getCachedTools a1 key url u) as (H1 & H2 & H3 & _).
  destruct (getCachedTools_effect env key url u (agent_view a1))
    as (tools & s' & nc & Hs & _ & _ & _ & _ & _ & Hout).
  { apply url_accepted_passes, agent_mcpUrl_accepted. }
  rewrite Hs in H1, H2. simpl in H1, H2.
  destruct (GmailAuthAgent.getCachedTools env key url u a1) as [r0 a2] eqn:HC.
  simpl in H1, H2, H3. subst r0.
  exists id, ent,
    ((GmailAuthAgent.McpTool <$> tools)
     ∪ {[ "initiate_gmail_oauth" := GmailAuthAgent.OauthTool u ]}), a2.
  split.
  { unfold GmailAuthAgent.agent_tools. fold u.
    unfold mbind, GmailAuthAgent.AM_bind. rewrite HA. cbn beta iota zeta.
    fold key url. by rewrite HC. }
  split; [rewrite H3, Hauth; apply lookup_insert_eq|]. split; [done|].
  assert (Hcached : default ∅ (GmailAuthAgent.toolsCache a2 !! key) = tools).
  { change (GmailAuthAgent.toolsCache a2) with (toolsCache (agent_view a2)).
    rewrite H2.
    destruct Hout as [(Hhit & ->)|[(_ & -> & _)|(_ & -> & -> & _)]];
      [by rewrite Hhit|done|done]. }
  fold key. rewrite Hcached. split; [|split; [|split]].
  - intros name def Hdef. apply lookup_union_Some_l.
    by rewrite lookup_fmap, Hdef.
  - intros Hnone. rewrite lookup_union_r by by rewrite lookup_fmap, Hnone.
    apply lookup_singleton_eq.
  - intros name Hne Hnone. apply lookup_union_None_2.
    + by rewrite lookup_fmap, Hnone.
    + by apply lookup_singleton_ne.
  - intros Hno. subst u. unfold GmailAuthAgent.requestUserId.
    by apply js_or_falsy.
Qed.

End Copies.

(** * Runs on the scripted world *)

Section Runs.
Import Script.

(** C1, as the spec words it, fails for the auth status: with the provider
    down, [getCachedAuthStatus] completes normally, the slot [auth-u1] holds
    the negative result, and the next call returns it without a second
    provider query. *)
Lemma C1_failed_auth_fetch_is_cached :
  let s0 := boot provider_failing in
  let negative := {| connected := false; connectionId := None;
                     timestamp := 0 |} in
  let s1 := after (getCachedAuthStatus env "u1") s0 in
  (connectedAccounts_list env (auth_query "u1") (world s0)).1
  = Throw "Error: provider unavailable"
  ∧ getCachedAuthStatus env "u1" s0 = (Normal negative, s1)
  ∧ authStatusCache s1 !! "auth-u1" = Some negative
  ∧ getCachedAuthStatus env "u1" s1 = (Normal negative, s1)
  ∧ auth_fetches (trace (after (getCachedAuthStatus env "u1") s1))
    = [auth_query "u1"].
Proof. by vm_compute. Qed.

(** C2 on the tool cache: tools fetched at time 0 are still served, with no
    second call to the MCP server, when the clock stands at twice the TTL. *)
Lemma C2_tools_entry_outlives_ttl :
  let s1 := after (getCachedTools env u1_unauth_key mcp_base_url "u1")
                  (boot healthy) in
  let s2 := at_time (2 * CACHE_TTL) s1 in
  toolsCache s1 !! u1_unauth_key = Some gmail_tools
  ∧ (Date_now env (world s2)).1 = 2 * CACHE_TTL
  ∧ getCachedTools env u1_unauth_key mcp_base_url "u1" s2
    = (Normal gmail_tools, s2)
  ∧ length (tool_fetches (trace s2)) = 1%nat.
Proof. by vm_compute. Qed.

(** C3, as the spec words it, fails for the authorization entry point: the
    client and the tool set that the [tools] function stored for user [u1]
    while not connected, under [gmail-u1-unauth], are still cached after a
    successful [authorize_gmail]; only the auth-status entry is gone. *)
Lemma C3_authorize_keeps_client_and_tools :
  let s1 := after (agent_tools env (Some {[ "userId" := "u1" ]}))
                  (boot healthy) in
  let old := {| connected := false; connectionId := None; timestamp := 0 |} in
  let s2 := after (authorizeTool_execute env "u1") s1 in
  authStatusCache s1 !! "auth-u1" = Some old
  ∧ toolsCacheKey "u1" old = "gmail-u1-unauth"
  ∧ (authorizeTool_execute env "u1" s1).1
    = Normal (AuthorizeOk "https://connect.example/u1" "req-u1"
                "Please click this link to authorize Gmail access: https://connect.example/u1")
  ∧ authStatusCache s2 !! "auth-u1" = None
  ∧ JSMap.keys (mcpClientCache s2) = ["gmail-u1-unauth"]
  ∧ toolsCache s2 !! "gmail-u1-unauth" = Some gmail_tools.
Proof. by vm_compute. Qed.

(** C9, as the spec words it, fails for the empty string: a runtime context
    whose [userId] is [""] gets a generated user id, and the session map
    gains an entry. *)
Lemma C9_empty_userId_is_replaced :
  let ctx : option RuntimeContext := Some {[ "userId" := "" ]} in
  let s0 := boot healthy in
  ctx ≫= (.!! "userId") = Some ""
  ∧ (getUserId env ctx s0).1 = Normal "uuid-0"
  ∧ userSessionCache s0 !! "default-session" = None
  ∧ userSessionCache (after (getUserId env ctx) s0) !! "default-session"
    = Some "uuid-0".
Proof. by vm_compute. Qed.

(** A key whose client has been disposed of once already. *)
Lemma C7_witness :
  let s := after (cleanupMCPClient env u1_unauth_key)
             (after (getCachedTools env u1_unauth_key mcp_base_url "u1")
                    (boot healthy)) in
  JSMap.get u1_unauth_key (mcpClientCache s) = None
  ∧ cleanupMCPClient env u1_unauth_key s
    = (Normal tt, set_toolsCache (delete u1_unauth_key) s).
Proof.
  intros s. split; [reflexivity|].
  apply (proj1 (C7_cleanupMCPClient_idempotent env s u1_unauth_key)).
  reflexivity.
Defined.

(** Shutdown with two clients whose [disconnect] throws. *)
Lemma C5_witness :
  let s :=
    after (getCachedTools env "gmail-u2-unauth" mcp_base_url "u2")
      (after (getCachedTools env u1_unauth_key mcp_base_url "u1")
             (boot closing_fails)) in
  JSMap.wf (mcpClientCache s)
  ∧ ∃ s', cleanupGmailAgent env s = (Normal tt, s')
      ∧ mcpClientCache s' = []
      ∧ toolsCache s' = ∅
      ∧ authStatusCache s' = ∅
      ∧ userSessionCache s' = ∅
      ∧ disconnected (trace s')
        = disconnected (trace s) ++ JSMap.values (mcpClientCache s).
Proof.
  intros s.
  assert (Hwf : JSMap.wf (mcpClientCache s)).
  { unfold JSMap.wf. apply (bool_decide_unpack _). vm_compute. exact I. }
  split; [exact Hwf|].
  exact (C5_cleanupGmailAgent_disposes_each_once_and_empties env s Hwf).
Defined.

(** The scenario of the spec: fetched at time 0, read again one second
    before the TTL is over; and a tool set read again after a good fetch. *)
Lemma C6_witness :
  let s := boot healthy in
  (∃ r1 s1, getCachedAuthStatus env "u1" s = (Normal r1, s1)
     ∧ (Date_now env (world (at_time 299000 s1))).1 - timestamp r1 < CACHE_TTL
     ∧ getCachedAuthStatus env "u1" (at_time 299000 s1)
       = (Normal r1, at_time 299000 s1))
  ∧ (url_passes env u1_unauth_key mcp_base_url s
     ∧ ∃ r1 s1, getCachedTools env u1_unauth_key mcp_base_url "u1" s
                = (Normal r1, s1)
       ∧ tool_fetch_errors (trace s1) = tool_fetch_errors (trace s)
       ∧ getCachedTools env u1_unauth_key mcp_base_url "u1"
           (at_time (2 * CACHE_TTL) s1)
         = (Normal r1, at_time (2 * CACHE_TTL) s1)).
Proof.
  intros s.
  assert (Hurl : url_passes env u1_unauth_key mcp_base_url s)
    by (intros _ _; reflexivity).
  destruct (C6_second_lookup_is_served_from_cache env s "u1" u1_unauth_key
              mcp_base_url "u1")
    as [(a1 & sa & Hauth & Hauth2) Htools0].
  destruct (Htools0 Hurl) as (t1 & st & Htools & Htools2).
  split.
  - exists a1, sa. split; [exact Hauth|].
    assert (Hfresh : (Date_now env (world (at_time 299000 sa))).1
                     - timestamp a1 < CACHE_TTL).
    { vm_compute in Hauth. injection Hauth as <- <-. reflexivity. }
    split; [exact Hfresh|].
    exact (Hauth2 (world (at_time 299000 sa)) Hfresh).
  - split; [exact Hurl|]. exists t1, st. split; [exact Htools|].
    assert (Hst : st = after (getCachedTools env u1_unauth_key mcp_base_url
                                "u1") s).
    { unfold after. rewrite Htools. reflexivity. }
    assert (Hok : tool_fetch_errors (trace st) = tool_fetch_errors (trace s)).
    { rewrite Hst. vm_compute. reflexivity. }
    split; [exact Hok|].
    exact (Htools2 Hok (world (at_time (2 * CACHE_TTL) st))).
Defined.

(** [authorize_gmail] succeeds, then the auth status is looked up; and a
    client is disposed of, then the tools are looked up. *)
Lemma C8_witness :
  let s := after (getCachedAuthStatus env "u1") (boot healthy) in
  ((toolkits_authorize env "u1" "gmail" (world s)).1
   = Normal {| redirectUrl := "https://connect.example/u1";
               req_id := "req-u1" |}
   ∧ ∃ res s1 r s2 tail,
       authorizeTool_execute env "u1" s = (Normal res, s1)
       ∧ getCachedAuthStatus env "u1" s1 = (Normal r, s2)
       ∧ trace s2 = trace s1 ++ EvListAccounts (auth_query "u1") :: tail)
  ∧ (URL_error env mcp_base_url = None
     ∧ ∃ s1 r s2 c tail,
         cleanupMCPClient env u1_unauth_key s = (Normal tt, s1)
         ∧ getCachedTools env u1_unauth_key mcp_base_url "u1" s1
           = (Normal r, s2)
         ∧ trace s2 = trace s1 ++ EvNewClient c :: EvGetTools c :: tail).
Proof.
  intros s. split.
  - split; [reflexivity|].
    apply (proj1 (proj2 (C8_lookup_after_invalidate_fetches env s "u1"
                           u1_unauth_key mcp_base_url "u1"))
             {| redirectUrl := "https://connect.example/u1";
                req_id := "req-u1" |} (world s)).
    reflexivity.
  - split; [reflexivity|].
    exact (proj2 (proj2 (C8_lookup_after_invalidate_fetches env s "u1"
                           u1_unauth_key mcp_base_url "u1")) eq_refl).
Defined.

(** The provider is down for the auth status; the MCP server is down for
    the tools; and a URL that is none. *)
Lemma C1_witness :
  let sa := boot provider_failing in
  let st := boot mcp_failing in
  let negative := {| connected := false; connectionId := None;
                     timestamp := 0 |} in
  let c := {| client_id := "gmail-mcp-u1-0"; client_url := mcp_base_url |} in
  (auth_stale env "u1" sa
   ∧ connectedAccounts_list env (auth_query "u1")
       (world_after_check env "u1" sa)
     = (Throw "Error: provider unavailable", provider_failing)
   ∧ ∃ s1, getCachedAuthStatus env "u1" sa = (Normal negative, s1)
       ∧ (Date_now env (world (at_time 60000 s1))).1 - timestamp negative
         < CACHE_TTL
       ∧ getCachedAuthStatus env "u1" (at_time 60000 s1)
         = (Normal negative, at_time 60000 s1))
  ∧ (toolsCache st !! u1_unauth_key = None
     ∧ url_passes env u1_unauth_key mcp_base_url st
     ∧ ∃ s1, getCachedTools env u1_unauth_key mcp_base_url "u1" st
             = (Normal ∅, s1)
       ∧ toolsCache s1 !! u1_unauth_key = None
       ∧ JSMap.get u1_unauth_key (mcpClientCache s1) = None
       ∧ trace s1
         = [EvNewClient c; EvGetTools c;
            EvConsoleError "Failed to load tools from MCP server:"
                           "Error: MCP server unreachable";
            EvDisconnect c]
       ∧ ∃ r s2 c' tail,
           getCachedTools env u1_unauth_key mcp_base_url "u1" s1
           = (Normal r, s2)
           ∧ trace s2 = trace s1 ++ EvNewClient c' :: EvGetTools c' :: tail)
  ∧ (URL_error env "not a url" = Some "TypeError: Invalid URL"
     ∧ getCachedTools env u1_unauth_key "not a url" "u1" (boot healthy)
       = (Throw "TypeError: Invalid URL", boot healthy)).
Proof.
  intros sa st negative c. split; [|split].
  - assert (Hstale : auth_stale env "u1" sa) by exact I.
    split; [exact Hstale|]. split; [reflexivity|].
    destruct (proj1 (C1_failed_fetch_is_caught env sa "u1" u1_unauth_key
                       mcp_base_url "u1")
                "Error: provider unavailable" provider_failing Hstale eq_refl)
      as [Hrun Hnext].
    eexists. split; [exact Hrun|]. split; [reflexivity|].
    apply (Hnext (mkWorld 60000 0 true [] false false gmail_tools)).
    reflexivity.
  - assert (Hurl : url_passes env u1_unauth_key mcp_base_url st)
      by (intros _ _; reflexivity).
    split; [reflexivity|]. split; [exact Hurl|].
    pose proof (proj1 (proj2 (C1_failed_fetch_is_caught env st "u1"
                                u1_unauth_key mcp_base_url "u1"))
                  "Error: MCP server unreachable" mcp_failing
                  eq_refl Hurl eq_refl) as Htools.
    cbv zeta in Htools.
    destruct Htools as (s1 & Hrun & Ht & Hc & Htr & Hretry).
    exists s1. do 3 (split; [assumption|]).
    split; [rewrite Htr; reflexivity|]. apply Hretry. reflexivity.
  - split; [reflexivity|].
    exact (proj2 (proj2 (C1_failed_fetch_is_caught env (boot healthy) "u1"
                           u1_unauth_key "not a url" "u1"))
             "TypeError: Invalid URL" eq_refl eq_refl eq_refl).
Defined.

(** A user without a connection, whose tools were loaded before. *)
Lemma C3_witness :
  let s := after (agent_tools env (Some {[ "userId" := "u1" ]}))
                 (boot healthy) in
  let unauth := {| connected := false; connectionId := None;
                   timestamp := 0 |} in
  let c := {| client_id := "gmail-mcp-u1-0"; client_url := mcp_base_url |} in
  let job := {| sus_key := u1_unauth_key; sus_outcome := Normal tt |} in
  (connectionId unauth = None
   ∧ toolsCacheKey "u1" unauth = u1_unauth_key
   ∧ JSMap.get u1_unauth_key (mcpClientCache s) = Some c
   ∧ toolsCache s !! u1_unauth_key = Some gmail_tools)
  ∧ (∃ jobs s', clearGmailAgentCache env "u1" s = (Normal jobs, s')
       ∧ authStatusCache s' !! "auth-u1" = None
       ∧ mcpClientCache s' = mcpClientCache s
       ∧ toolsCache s' !! u1_unauth_key = Some gmail_tools
       ∧ (∃ tail, trace s' = trace s ++ EvDisconnect c :: tail)
       ∧ job ∈ jobs
       ∧ ∃ s3, cleanupMCPClient_resume job s' = (Normal tt, s3)
           ∧ JSMap.get u1_unauth_key (mcpClientCache s3) = None
           ∧ toolsCache s3 !! u1_unauth_key = None)
  ∧ ((toolkits_authorize env "u1" "gmail" (world s)).1
     = Normal {| redirectUrl := "https://connect.example/u1";
                 req_id := "req-u1" |}
     ∧ ∃ res,
         authorizeTool_execute env "u1" s
         = (Normal res,
            mkState (mcpClientCache s) (toolsCache s)
                    (delete "auth-u1" (authStatusCache s))
                    (userSessionCache s) (world s)
                    (trace s ++ [EvAuthorize "u1" "gmail"]))).
Proof.
  intros s unauth c job.
  pose proof (C3_auth_change_clears_unauth_entries env s "u1") as H.
  cbv zeta in H.
  destruct H as ((jobs & s' & Hrun & Ha & Hc & Hcase) & Hres & Hkey & Hauth).
  assert (Hget : JSMap.get ("gmail-" +:+ "u1" +:+ "-unauth") (mcpClientCache s)
                 = Some c) by reflexivity.
  rewrite Hget in Hcase. destruct Hcase as (Ht & Htr & Hjob).
  split; [|split].
  - split; [reflexivity|]. split; [|split; reflexivity].
    apply (Hkey unauth). reflexivity.
  - exists jobs, s'. split; [exact Hrun|]. split; [exact Ha|].
    split; [exact Hc|]. split; [etrans; [exact Ht|reflexivity]|].
    split; [exact Htr|]. split; [exact Hjob|].
    destruct (Hres job s') as (s3 & Hrun3 & Hc3 & Ht3 & _).
    by exists s3.
  - split; [reflexivity|].
    apply (Hauth {| redirectUrl := "https://connect.example/u1";
                    req_id := "req-u1" |} (world s)).
    reflexivity.
Defined.

(** One request with a user id, and two requests of the same session
    without one. *)
Lemma C9_witness :
  let named : option RuntimeContext := Some {[ "userId" := "u1" ]} in
  let anon : option RuntimeContext := Some {[ "sessionId" := "session-7" ]} in
  let s := boot healthy in
  (named ≫= (.!! "userId") = Some "u1" ∧ "u1" ≠ ""
   ∧ getUserId env named s = (Normal "u1", s))
  ∧ (truthy_opt (anon ≫= (.!! "userId")) = false
     ∧ userSessionCache s !! "session-7" = None
     ∧ (getUserId env anon s).1 = Normal "uuid-0"
     ∧ userSessionCache (after (getUserId env anon) s) !! "session-7"
       = Some "uuid-0"
     ∧ getUserId env anon (after (getUserId env anon) s)
       = (Normal "uuid-0", after (getUserId env anon) s)).
Proof.
  intros named anon s. split.
  - assert (Hne : "u1" ≠ "") by discriminate.
    split; [reflexivity|]. split; [exact Hne|].
    exact (proj1 (C9_getUserId_stable_per_session env s named)
             "u1" eq_refl Hne).
  - destruct (proj2 (C9_getUserId_stable_per_session env s anon) eq_refl)
      as (Hnew & _ & _).
    pose proof (Hnew eq_refl) as Hrun.
    split; [reflexivity|]. split; [reflexivity|].
    split; [by rewrite Hrun|]. split; [reflexivity|].
    set (s1 := after (getUserId env anon) s).
    apply (proj1 (proj2 (proj2 (C9_getUserId_stable_per_session env s1 anon)
                           eq_refl)) "uuid-0").
    reflexivity.
Defined.

(** The provider is down. *)
Lemma C10_witness :
  let s := boot provider_failing in
  connectedAccounts_list env
    {| userIds := ["u1"];
       authConfigIds := Some [GmailAuth.GMAIL_AUTH_CONFIG_ID] |} (world s)
  = (Throw "Error: provider unavailable", provider_failing)
  ∧ (GmailAuth.checkConnection env "u1" s).1
    = Normal {| GmailAuth.cs_connected := false;
                GmailAuth.cs_connectionId := None;
                GmailAuth.cs_message := None;
                GmailAuth.cs_error :=
                  Some "Failed to check Gmail connection: Error: provider unavailable" |}
  ∧ (GmailAuth.getConnectedAccountId env "u1" s).1 = Normal None.
Proof.
  intros s. split; [reflexivity|].
  destruct (proj2 (proj2 (C10_checkConnection_never_throws env s "u1"))
              "Error: provider unavailable" provider_failing eq_refl)
    as [Hcheck Hid].
  split; [by rewrite Hcheck|by rewrite Hid].
Defined.

End Runs.

(** * More runs on the scripted world *)

Section MoreRuns.
Import Script.

(** User [u1], connected, has asked for the tools once. *)
Lemma cached_connection_id_means_connected_witness :
  let calls := [GetTools (Some {[ "userId" := "u1" ]})] in
  let a := {| connected := true; connectionId := Some "ca_1";
              timestamp := 0 |} in
  authStatusCache (proc_state (history env u1_connected calls)) !! "auth-u1"
  = Some a
  ∧ connectionId a = Some "ca_1"
  ∧ connected a = true ∧ "ca_1" ≠ "".
Proof.
  intros calls a.
  assert (H1 : authStatusCache (proc_state (history env u1_connected calls))
                 !! "auth-u1" = Some a) by reflexivity.
  split; [exact H1|]. split; [reflexivity|].
  exact (cached_connection_id_means_connected env u1_connected calls
           "auth-u1" a "ca_1" H1 eq_refl).
Defined.

(** A status fetched at time 0, looked up exactly five minutes later. *)
Lemma auth_entry_is_refetched_at_ttl_witness :
  let s := at_time 300000 (after (getCachedAuthStatus env "u1") (boot healthy)) in
  let c := {| connected := false; connectionId := None; timestamp := 0 |} in
  authStatusCache s !! "auth-u1" = Some c
  ∧ CACHE_TTL ≤ (Date_now env (world s)).1 - timestamp c
  ∧ ∃ r s', getCachedAuthStatus env "u1" s = (Normal r, s')
      ∧ timestamp r = 300000
      ∧ auth_fetches (trace s')
        = auth_fetches (trace s) ++ [auth_query "u1"].
Proof.
  intros s c.
  assert (H1 : authStatusCache s !! "auth-u1" = Some c) by reflexivity.
  assert (H2 : CACHE_TTL ≤ (Date_now env (world s)).1 - timestamp c)
    by by vm_compute.
  split; [exact H1|]. split; [exact H2|].
  destruct (auth_entry_is_refetched_at_ttl env s "u1" c H1 H2)
    as (r & s' & Hrun & _ & Hts & Hf).
  exists r, s'. split; [exact Hrun|]. split; [|exact Hf].
  rewrite Hts. reflexivity.
Defined.

(** The provider lists one active Gmail connection for [u1]. *)
Lemma fresh_status_reflects_active_gmail_connection_witness :
  let s := boot u1_connected in
  auth_stale env "u1" s
  ∧ connectedAccounts_list env (auth_query "u1")
      (world_after_check env "u1" s)
    = (Normal (accounts u1_connected), u1_connected)
  ∧ ∃ r s', getCachedAuthStatus env "u1" s = (Normal r, s')
      ∧ connected r = true
      ∧ ∀ i, connectionId r = Some i → i ≠ "".
Proof.
  intros s.
  assert (H1 : auth_stale env "u1" s) by exact I.
  split; [exact H1|]. split; [reflexivity|].
  destruct (fresh_status_reflects_active_gmail_connection env s "u1"
              (accounts u1_connected) u1_connected H1 eq_refl)
    as (r & s' & Hrun & Hconn & Hid & _).
  exists r, s'. split; [exact Hrun|]. split.
  - apply Hconn. eexists. split; [by constructor|]. by split.
  - intros i Hi. by destruct (Hid i Hi).
Defined.

(** The provider is down when the user asks to authorize. *)
Lemma authorize_failure_changes_no_cache_witness :
  let s := after (getCachedAuthStatus env "u1") (boot provider_failing) in
  toolkits_authorize env "u1" "gmail" (world s)
  = (Throw "Error: provider unavailable", provider_failing)
  ∧ authStatusCache (after (authorizeTool_execute env "u1") s)
    = authStatusCache s
  ∧ is_Some (authStatusCache s !! "auth-u1").
Proof.
  intros s. split; [reflexivity|].
  pose proof (authorize_failure_changes_no_cache env s "u1"
                "Error: provider unavailable" provider_failing eq_refl) as H.
  split; [unfold after; by rewrite H|]. by eexists.
Defined.

(** A client is cached under the key, its tool set is not. *)
Lemma cached_client_is_reused_witness :
  let c := {| client_id := "gmail-mcp-u1-0"; client_url := mcp_base_url |} in
  let s := mkState [(u1_unauth_key, c)] ∅ ∅ ∅ healthy [] in
  toolsCache s !! u1_unauth_key = None
  ∧ JSMap.get u1_unauth_key (mcpClientCache s) = Some c
  ∧ ∃ r s', getCachedTools env u1_unauth_key mcp_base_url "u1" s
            = (Normal r, s')
      ∧ r = gmail_tools
      ∧ mcpClientCache s' = mcpClientCache s.
Proof.
  intros c s. split; [reflexivity|]. split; [reflexivity|].
  destruct (cached_client_is_reused env s u1_unauth_key mcp_base_url "u1" c
              eq_refl eq_refl)
    as (r & s' & tail & Hrun & _ & _ & Hok).
  exists r, s'. split; [exact Hrun|].
  destruct (Hok gmail_tools healthy eq_refl) as (Hr & Hc & _). by split.
Defined.

(** A healthy first lookup, and a lookup with a URL that is none. *)
Lemma getCachedTools_touches_only_its_key_witness :
  (url_passes env u1_unauth_key mcp_base_url (boot healthy)
   ∧ ∃ r s', getCachedTools env u1_unauth_key mcp_base_url "u1" (boot healthy)
             = (Normal r, s')
       ∧ r = gmail_tools
       ∧ authStatusCache s' = ∅)
  ∧ (URL_error env "not a url" = Some "TypeError: Invalid URL"
     ∧ ∃ s', getCachedTools env u1_unauth_key "not a url" "u1" (boot healthy)
             = (Throw "TypeError: Invalid URL", s')
         ∧ mcpClientCache s' = []
         ∧ trace s' = []).
Proof.
  destruct (getCachedTools_touches_only_its_key env (boot healthy)
              u1_unauth_key mcp_base_url "u1") as [Hok _].
  destruct (getCachedTools_touches_only_its_key env (boot healthy)
              u1_unauth_key "not a url" "u1") as [_ Hbad].
  split.
  - assert (Hurl : url_passes env u1_unauth_key mcp_base_url (boot healthy))
      by (intros _ _; reflexivity).
    split; [exact Hurl|].
    destruct (Hok Hurl) as (r & s' & Hrun & _ & _ & Ha & _).
    exists r, s'. split; [exact Hrun|]. split; [|exact Ha].
    assert (Hr : (getCachedTools env u1_unauth_key mcp_base_url "u1"
                    (boot healthy)).1 = Normal gmail_tools)
      by (vm_compute; reflexivity).
    rewrite Hrun in Hr. by injection Hr.
  - split; [reflexivity|].
    destruct (Hbad "TypeError: Invalid URL" eq_refl eq_refl eq_refl)
      as (s' & Hrun & Hc & _ & _ & _ & Htr).
    by exists s'.
Defined.

(** [clearGmailAgentCache] is called twice while the first [disconnect] is
    pending; the first cleanup resumes, the user asks for the tools again,
    and the second cleanup is still suspended. *)
Lemma suspended_cleanup_drops_later_client_witness :
  let ctx : option RuntimeContext := Some {[ "userId" := "u1" ]} in
  let later := mkWorld 5 0 false [] false false gmail_tools in
  let p := history env healthy
             [GetTools ctx; ClearGmailAgentCache "u1";
              ClearGmailAgentCache "u1"; Settle 0; Outside later;
              GetTools ctx] in
  let s := proc_state p in
  let j := {| sus_key := u1_unauth_key; sus_outcome := Normal tt |} in
  let c := {| client_id := "gmail-mcp-u1-5"; client_url := mcp_base_url |} in
  proc_suspended p = [j]
  ∧ JSMap.get (sus_key j) (mcpClientCache s) = Some c
  ∧ (c ∉ disconnected (trace s))
  ∧ ∃ s', cleanupMCPClient_resume j s = (Normal tt, s')
      ∧ JSMap.get u1_unauth_key (mcpClientCache s') = None
      ∧ (c ∉ disconnected (trace s')).
Proof.
  intros ctx later p s j c.
  assert (H0 : proc_suspended p = [j]) by by vm_compute.
  assert (H1 : JSMap.get (sus_key j) (mcpClientCache s) = Some c)
    by by vm_compute.
  assert (H2 : c ∉ disconnected (trace s)).
  { apply (bool_decide_unpack _). vm_compute. exact I. }
  split; [exact H0|]. split; [exact H1|]. split; [exact H2|].
  destruct (suspended_cleanup_drops_later_client s j c H1 H2)
    as (s' & Hrun & Hc & _ & Hd & _).
  exists s'. split; [exact Hrun|]. split; [exact Hc|exact Hd].
Defined.

(** The same anonymous session asks for its tools twice, the second time
    one second before the TTL is over. *)
Lemma repeated_tools_request_witness :
  let ctx : option RuntimeContext := Some {[ "sessionId" := "session-7" ]} in
  let s := boot healthy in
  ∃ r1 s1, agent_tools env ctx s = (Normal r1, s1)
    ∧ tool_fetch_errors (trace s1) = tool_fetch_errors (trace s)
    ∧ agent_tools env ctx (at_time 299000 s1) = (Normal r1, at_time 299000 s1).
Proof.
  intros ctx s.
  destruct (repeated_tools_request_is_served_from_caches env s ctx)
    as (u & st & r1 & s1 & Hrun & Hu & Hst & Hnext).
  exists r1, s1. split; [exact Hrun|].
  vm_compute in Hu. injection Hu as <-.
  assert (Hs1 : s1 = after (agent_tools env ctx) s).
  { unfold after. by rewrite Hrun. }
  assert (Hok : tool_fetch_errors (trace s1) = tool_fetch_errors (trace s)).
  { rewrite Hs1. reflexivity. }
  split; [exact Hok|].
  apply (Hnext Hok (world (at_time 299000 s1))).
  rewrite Hs1 in Hst. vm_compute in Hst. injection Hst as <-. reflexivity.
Defined.

(** The prompt is asked for, then the tools. *)
Lemma instructions_and_tools_witness :
  let ctx : option RuntimeContext := Some {[ "userId" := "u1" ]} in
  let s := boot u1_connected in
  ∃ text s1 r s2,
    agent_instructions env ctx s = (Normal text, s1)
    ∧ text = instructions_connected "ca_1"
    ∧ agent_tools env ctx (at_time 1000 s1) = (Normal r, s2)
    ∧ auth_fetches (trace s2) = auth_fetches (trace s1).
Proof.
  intros ctx s.
  destruct (instructions_and_tools_share_the_cached_status env s ctx)
    as (u & st & text & s1 & Hrun & Hu & Hst & Htext & Hnext).
  vm_compute in Hu. injection Hu as <-.
  assert (Hs1 : s1 = after (agent_instructions env ctx) s).
  { unfold after. by rewrite Hrun. }
  rewrite Hs1 in Hst. vm_compute in Hst. injection Hst as <-.
  destruct (Hnext (world (at_time 1000 s1)))
    as (r & s2 & Hrun2 & _ & _ & _ & _ & Hf & _).
  { reflexivity. }
  exists text, s1, r, s2. split; [exact Hrun|]. split; [exact Htext|].
  split; [exact Hrun2|exact Hf].
Defined.

(** Two sessions have an identity; the first one is cleared. *)
Lemma cleared_session_gets_a_new_identity_witness :
  let ctx : option RuntimeContext := Some {[ "sessionId" := "session-7" ]} in
  let ctx' : option RuntimeContext := Some {[ "sessionId" := "session-8" ]} in
  let s := after (getUserId env ctx') (after (getUserId env ctx) (boot healthy)) in
  truthy_opt (ctx ≫= (.!! "userId")) = false
  ∧ truthy_opt (ctx' ≫= (.!! "userId")) = false
  ∧ userSessionCache s !! "session-7" = Some "uuid-0"
  ∧ userSessionCache s !! "session-8" = Some "uuid-1"
  ∧ (getUserId env ctx (clearUserSession (Some "session-7") s).2).1
    = Normal "uuid-2"
  ∧ (getUserId env ctx' (clearUserSession (Some "session-7") s).2).1
    = Normal "uuid-1"
  ∧ (getUserId env ctx' (clearUserSession (Some "") s).2).1 = Normal "uuid-2".
Proof.
  intros ctx ctx' s.
  destruct (cleared_session_gets_a_new_identity env s ctx ctx' (Some "")
              eq_refl eq_refl) as (H1 & H2 & H3).
  do 4 (split; [reflexivity|]).
  split; [exact H1|]. split; [|exact (H3 eq_refl)].
  apply H2; [discriminate|reflexivity].
Defined.

(** Tools cached for user [a] with connection [b-c], asked for by user
    [a-b] with connection [c]. *)
Lemma tools_cache_key_is_shared_across_users_witness :
  let s := mkState [] {[ "gmail-a-b-c" := gmail_tools ]} ∅ ∅ healthy [] in
  let owner := {| connected := true; connectionId := Some "b-c";
                  timestamp := 0 |} in
  let other := {| connected := true; connectionId := Some "c";
                  timestamp := 5 |} in
  "c" ≠ ""
  ∧ toolsCache s !! toolsCacheKey "a" owner = Some gmail_tools
  ∧ getCachedTools env (toolsCacheKey "a-b" other) (mcpUrl other) "a-b" s
    = (Normal gmail_tools, s).
Proof.
  intros s owner other.
  assert (H1 : "c" ≠ "") by discriminate.
  split; [exact H1|]. split; [reflexivity|].
  exact (tools_cache_key_is_shared_across_users env s "a" "b" "c" 0 5
           (mcpUrl other) gmail_tools H1 eq_refl).
Defined.

(** User [u1] has connected Gmail and asks for the tools. *)
Lemma connected_user_gets_a_client_witness :
  let ctx : option RuntimeContext := Some {[ "userId" := "u1" ]} in
  let s := boot u1_connected in
  let c := {| conn_id := "ca_1"; conn_toolkit_slug := "gmail";
              conn_status := "ACTIVE" |} in
  List.find is_active_gmail (accounts u1_connected) = Some c
  ∧ ∃ r s' cl tail,
      agent_tools env ctx s = (Normal r, s')
      ∧ client_url cl = mcp_base_url +:+ "?connected_account_id=ca_1"
      ∧ trace s'
        = trace s ++ EvListAccounts (auth_query "u1")
                     :: EvNewClient cl :: EvGetTools cl :: tail.
Proof.
  intros ctx s c. split; [reflexivity|].
  assert (Hne : "u1" ≠ "") by discriminate.
  assert (Hi : "ca_1" ≠ "") by discriminate.
  destruct (connected_user_gets_a_client_for_the_account env s ctx "u1" "ca_1"
              (accounts u1_connected) c u1_connected
              eq_refl Hne I eq_refl eq_refl eq_refl Hi eq_refl eq_refl)
    as (r & s' & cl & tail & Hrun & Hurl & Htr & _).
  by exists r, s', cl, tail.
Defined.

(** The provider answers, and the provider is down. *)
Lemma initiateConnection_never_throws_witness :
  (GmailAuth.initiateConnection env "u1" (boot healthy)).1
  = Normal {| GmailAuth.ir_success := true;
              GmailAuth.ir_redirectUrl := Some "https://connect.example/u1";
              GmailAuth.ir_connectionId := Some "req-u1";
              GmailAuth.ir_message :=
                Some "Please click this link to connect your Gmail account: https://connect.example/u1";
              GmailAuth.ir_error := None |}
  ∧ (GmailAuth.initiateConnection env "u1" (boot provider_failing)).1
    = Normal {| GmailAuth.ir_success := false;
                GmailAuth.ir_redirectUrl := None;
                GmailAuth.ir_connectionId := None;
                GmailAuth.ir_message := None;
                GmailAuth.ir_error :=
                  Some "Failed to initiate Gmail connection: Error: provider unavailable" |}.
Proof.
  split.
  - by rewrite (proj1 (initiateConnection_never_throws env (boot healthy) "u1")
                  {| redirectUrl := "https://connect.example/u1";
                     req_id := "req-u1" |} healthy eq_refl).
  - by rewrite (proj2 (initiateConnection_never_throws env
                         (boot provider_failing) "u1")
                  "Error: provider unavailable" provider_failing eq_refl).
Defined.

(** The provider lists one active Gmail connection for [u1]. *)
Lemma checkConnection_reports_active_gmail_connection_witness :
  let s := boot u1_connected in
  connectedAccounts_list env
    {| userIds := ["u1"];
       authConfigIds := Some [GmailAuth.GMAIL_AUTH_CONFIG_ID] |} (world s)
  = (Normal (accounts u1_connected), u1_connected)
  ∧ ∃ st id s',
      GmailAuth.checkConnection env "u1" s = (Normal st, s')
      ∧ GmailAuth.getConnectedAccountId env "u1" s = (Normal id, s')
      ∧ GmailAuth.cs_connected st = true.
Proof.
  intros s. split; [reflexivity|].
  destruct (checkConnection_reports_active_gmail_connection env s "u1"
              (accounts u1_connected) u1_connected eq_refl)
    as (st & id & s' & Hc & Hi & _ & Hconn & _).
  exists st, id, s'. split; [exact Hc|]. split; [exact Hi|].
  apply Hconn. eexists. split; [by constructor|]. by split.
Defined.

(** The agent built on [GmailAuth]: the account of [u1] was cached at time
    0; five minutes later the entry is stale and the provider is down. *)
Lemma agent_auth_lookup_witness :
  let a0 := (GmailAuthAgent.getCachedAuthStatus env "u1" "u1"
               (GmailAuthAgent.loaded (boot u1_connected))).2 in
  let down := mkWorld 300000 0 true [] false false gmail_tools in
  let a := agent_in (boot down) a0 in
  GmailAuthAgent.authStatusCache a !! "auth-u1"
  = Some {| GmailAuthAgent.connectedAccountId := Some "ca_1";
            GmailAuthAgent.entry_timestamp := 0 |}
  ∧ agent_auth_stale env "u1" a
  ∧ ∃ a' ent,
      GmailAuthAgent.getCachedAuthStatus env "u1" "u1" a = (Normal None, a')
      ∧ GmailAuthAgent.authStatusCache a' !! "auth-u1" = Some ent
      ∧ GmailAuthAgent.connectedAccountId ent = None
      ∧ GmailAuthAgent.getCachedAuthStatus env "u1" "u1"
          (agent_in (at_time 360000 (GmailAuthAgent.rest a')) a')
        = (Normal None, agent_in (at_time 360000 (GmailAuthAgent.rest a')) a').
Proof.
  intros a0 down a. split; [reflexivity|].
  assert (Hstale : agent_auth_stale env "u1" a) by by vm_compute.
  split; [exact Hstale|].
  destruct (proj2 (agent_auth_lookup_never_throws_and_caches_failure env a
                     "u1" "u1")
              "Error: provider unavailable" down Hstale eq_refl)
    as (a' & ent & Hrun & Hent & Hid & Hts & Hnext).
  exists a', ent. do 3 (split; [done|]).
  assert (Ha' : a' = (GmailAuthAgent.getCachedAuthStatus env "u1" "u1" a).2)
    by by rewrite Hrun.
  etrans; [apply Hnext|].
  - rewrite Hts. reflexivity.
  - rewrite Ha'. reflexivity.
Defined.

(** The OAuth tool with the provider up, and with the provider down. *)
Lemma oauth_tool_witness :
  (∃ message a',
     GmailAuthAgent.oauthTool_execute env "u1"
       (GmailAuthAgent.loaded (boot healthy))
     = (Normal (GmailAuthAgent.OauthStarted
                  (Some "https://connect.example/u1") message), a'))
  ∧ (∃ a',
       GmailAuthAgent.oauthTool_execute env "u1"
         (GmailAuthAgent.loaded (boot provider_failing))
       = (Normal (GmailAuthAgent.OauthFailed
                    "Failed to initiate Gmail connection"
                    "Please try again or check your configuration."), a')).
Proof.
  split.
  - destruct (proj1 (oauth_tool_clears_auth_status_only_on_success env
                       (GmailAuthAgent.loaded (boot healthy)) "u1")
                {| redirectUrl := "https://connect.example/u1";
                   req_id := "req-u1" |} healthy eq_refl)
      as (message & a' & Hrun & _).
    by exists message, a'.
  - destruct (proj2 (oauth_tool_clears_auth_status_only_on_success env
                       (GmailAuthAgent.loaded (boot provider_failing)) "u1")
                "Error: provider unavailable" provider_failing eq_refl)
      as (a' & Hrun & _).
    by exists a'.
Defined.

(** Two requests without user id, from different sessions. *)
Lemma anonymous_requests_share_the_default_user_witness :
  let ctx : option RuntimeContext := None in
  let ctx' : option RuntimeContext := Some {[ "sessionId" := "session-8" ]} in
  let a := GmailAuthAgent.loaded (boot healthy) in
  truthy_opt (ctx ≫= (.!! "userId")) = false
  ∧ truthy_opt (ctx' ≫= (.!! "userId")) = false
  ∧ ∃ text a1,
      GmailAuthAgent.agent_instructions env ctx a = (Normal text, a1)
      ∧ GmailAuthAgent.agent_instructions env ctx'
          (agent_in (at_time 60000 (GmailAuthAgent.rest a1)) a1)
        = (Normal text, agent_in (at_time 60000 (GmailAuthAgent.rest a1)) a1).
Proof.
  intros ctx ctx' a. do 2 (split; [reflexivity|]).
  destruct (anonymous_requests_share_the_default_user env a ctx ctx'
              eq_refl eq_refl) as (text & a1 & ent & Hrun & Hent & Hnext).
  exists text, a1. split; [exact Hrun|].
  assert (Ha1 : a1 = (GmailAuthAgent.agent_instructions env ctx a).2)
    by by rewrite Hrun.
  rewrite Ha1 in Hent. vm_compute in Hent. injection Hent as <-.
  etrans; [apply Hnext; reflexivity|].
  rewrite Ha1. reflexivity.
Defined.

(** The agent built on [GmailAuth] has served a request without user id;
    then its cache is cleared without an argument. *)
Lemma agent_clearGmailAgentCache_witness :
  let a := (GmailAuthAgent.agent_tools env None
              (GmailAuthAgent.loaded (boot healthy))).2 in
  let c := {| client_id := "gmail-mcp-default-0";
              client_url := GmailAuthAgent.mcp_base_url |} in
  let job := {| sus_key := "gmail-default-unauth"; sus_outcome := Normal tt |} in
  JSMap.get "gmail-default-unauth" (GmailAuthAgent.mcpClientCache a) = Some c
  ∧ ∃ jobs a',
      GmailAuthAgent.clearGmailAgentCache env None a = (Normal jobs, a')
      ∧ GmailAuthAgent.authStatusCache a' !! "auth-default" = None
      ∧ GmailAuthAgent.mcpClientCache a' = GmailAuthAgent.mcpClientCache a
      ∧ job ∈ jobs
      ∧ ∃ a3, GmailAuthAgent.cleanupMCPClient_resume job a' = (Normal tt, a3)
          ∧ JSMap.get "gmail-default-unauth" (GmailAuthAgent.mcpClientCache a3)
            = None.
Proof.
  intros a c job.
  assert (Hget : JSMap.get ("gmail-" +:+ "default" +:+ "-unauth")
                           (GmailAuthAgent.mcpClientCache a) = Some c)
    by reflexivity.
  split; [exact Hget|].
  pose proof (agent_clearGmailAgentCache_defaults_to_default_user env a None)
    as H.
  cbv zeta in H.
  destruct H as (_ & (jobs & a' & Hrun & Ha & Hc & Hcase) & Hres).
  change (default "default" None) with "default" in Ha, Hcase.
  rewrite Hget in Hcase. destruct Hcase as (_ & _ & Hjob).
  exists jobs, a'. split; [exact Hrun|]. split; [exact Ha|].
  split; [exact Hc|]. split; [exact Hjob|].
  destruct (Hres job a') as (a3 & Hrun3 & Hc3 & _).
  by exists a3.
Defined.

(** Shutdown of the agent built on [GmailAuth], with two clients whose
    [disconnect] throws. *)
Lemma agent_shutdown_witness :
  let a :=
    (GmailAuthAgent.agent_tools env (Some {[ "userId" := "u2" ]})
       (GmailAuthAgent.agent_tools env (Some {[ "userId" := "u1" ]})
          (GmailAuthAgent.loaded (boot closing_fails))).2).2 in
  JSMap.wf (GmailAuthAgent.mcpClientCache a)
  ∧ length (GmailAuthAgent.mcpClientCache a) = 2%nat
  ∧ ∃ a', GmailAuthAgent.cleanupGmailAgent env a = (Normal tt, a')
      ∧ GmailAuthAgent.mcpClientCache a' = []
      ∧ disconnected (trace (GmailAuthAgent.rest a'))
        = JSMap.values (GmailAuthAgent.mcpClientCache a).
Proof.
  intros a.
  assert (Hwf : JSMap.wf (GmailAuthAgent.mcpClientCache a)).
  { unfold JSMap.wf. apply (bool_decide_unpack _). vm_compute. exact I. }
  split; [exact Hwf|]. split; [reflexivity|].
  destruct (agent_shutdown_disposes_each_client_once env a Hwf)
    as (a' & Hrun & Hc & _ & _ & Hd & _).
  exists a'. split; [exact Hrun|]. split; [exact Hc|]. exact Hd.
Defined.

End MoreRuns.
